(** * The daily-agenda layout engine of whatsapp-agenda-notifications.js

    A shallow embedding of [generateAgendaHTML] (time utilities, end-time
    derivation, view window, per-member column assignment, pixel geometry and
    markup emission), of [exports.handler] (the filter of the configurations
    that are due, the grouping of the rows and the body of the loop over the
    organizations) and of the image service, followed by the properties
    proved about them. *)

From Stdlib Require Import ZArith List String Ascii Bool Lia Permutation Sorted.
From Stdlib Require Import DecimalString DecimalZ DecimalPos.
From Stdlib Require Import QArith Qround.
From Stdlib Require Import Floats.
Import ListNotations.

Local Open Scope string_scope.
Local Open Scope Z_scope.

(** ** JavaScript values used by the engine *)

Module JS.

(** The numbers the time arithmetic works on. Every value it produces is an
    integer or NaN; integers are kept exact (binary64 is exact on them up to
    2^53, far above any minute count of a day). *)
Inductive number : Type :=
| NaN
| Num (z : Z).

Definition add (a b : number) : number :=
  match a, b with
  | Num x, Num y => Num (x + y)
  | _, _ => NaN
  end.

Definition sub (a b : number) : number :=
  match a, b with
  | Num x, Num y => Num (x - y)
  | _, _ => NaN
  end.

Definition mul (a b : number) : number :=
  match a, b with
  | Num x, Num y => Num (x * y)
  | _, _ => NaN
  end.

(** [a < b], [a <= b], [a > b], [a >= b]: false as soon as one side is NaN. *)
Definition lt (a b : number) : bool :=
  match a, b with
  | Num x, Num y => x <? y
  | _, _ => false
  end.

Definition le (a b : number) : bool :=
  match a, b with
  | Num x, Num y => x <=? y
  | _, _ => false
  end.

Definition gt (a b : number) : bool := lt b a.
Definition ge (a b : number) : bool := le b a.

(** [Math.floor(a / d)] and [Math.ceil(a / d)] for an integer [a] and a
    positive integer constant [d]. *)
Definition floor_div (a : number) (d : Z) : number :=
  match a with
  | Num x => Num (x / d)
  | NaN => NaN
  end.

Definition Z_ceil (x d : Z) : Z := - ((- x) / d).

Definition ceil_div (a : number) (d : Z) : number :=
  match a with
  | Num x => Num (Z_ceil x d)
  | NaN => NaN
  end.

(** [a % d]: the remainder takes the sign of the dividend. *)
Definition rem (a : number) (d : Z) : number :=
  match a with
  | Num x => Num (Z.rem x d)
  | NaN => NaN
  end.

(** [Number.prototype.toString] on these values. *)
Definition Z_toString (z : Z) : string := NilZero.string_of_int (Z.to_int z).

Definition toString (a : number) : string :=
  match a with
  | Num z => Z_toString z
  | NaN => "NaN"
  end.

(** [s.padStart(2, '0')]. *)
Definition padStart2 (s : string) : string :=
  match s with
  | EmptyString => "00"
  | String c EmptyString => String "0" s
  | _ => s
  end.

(** [Number(s)] on the strings a time field is split into: the empty string
    is 0, an optionally signed run of decimal digits is its value, and any
    other text is NaN. (JavaScript also reads surrounding blanks, fractions,
    exponents and radix prefixes; such fields are outside this model.) *)
Definition digits (s : string) : number :=
  match NilZero.uint_of_string s with
  | Some d => Num (Z.of_uint d)
  | None => NaN
  end.

Definition neg (a : number) : number :=
  match a with
  | Num z => Num (- z)
  | NaN => NaN
  end.

Definition Number (s : string) : number :=
  match s with
  | EmptyString => Num 0
  | String "-" s' => neg (digits s')
  | String "+" s' => digits s'
  | _ => digits s
  end.

(** [s.split(sep)] for a one-character separator. *)
Fixpoint split (sep : ascii) (s : string) : list string :=
  match s with
  | EmptyString => [EmptyString]
  | String c s' =>
      if Ascii.eqb c sep then EmptyString :: split sep s'
      else match split sep s' with
           | seg :: rest => String c seg :: rest
           | [] => [String c EmptyString]
           end
  end.

(** Truthiness of an optional string ([undefined], [null] and the empty
    string are falsy) and of an optional number (0 is falsy as well). *)
Definition truthy_string (v : option string) : bool :=
  match v with
  | Some (String _ _) => true
  | _ => false
  end.

Definition truthy_number (v : option Z) : bool :=
  match v with
  | Some 0 => false
  | Some _ => true
  | None => false
  end.

(** [v || d] on an optional string. *)
Definition or_else (v : option string) (d : string) : string :=
  match v with
  | Some (String c s) => String c s
  | _ => d
  end.

(** [a === b] on numbers: NaN equals nothing. *)
Definition strict_eq (a b : number) : bool :=
  match a, b with
  | Num x, Num y => x =? y
  | _, _ => false
  end.

(** [Math.max(a, b)] and [Math.min(a, b)]. *)
Definition max (a b : number) : number :=
  match a, b with
  | Num x, Num y => Num (Z.max x y)
  | _, _ => NaN
  end.

Definition min (a b : number) : number :=
  match a, b with
  | Num x, Num y => Num (Z.min x y)
  | _, _ => NaN
  end.

(** The length [Array.from({length: a})] allocates: NaN and negative
    values give the empty array. *)
Definition toLength (a : number) : nat :=
  match a with
  | Num z => Z.to_nat z
  | NaN => O
  end.

End JS.

Import JS.

(** ** Time utilities (source lines 399-410) *)

Definition timeToMinutes (timeString : string) : number :=
  match map Number (split ":" timeString) with
  | hours :: minutes :: _ => add (mul hours (Num 60)) minutes
  | _ => NaN
  end.

Definition minutesToTime (minutes : number) : string :=
  let hours := floor_div minutes 60 in
  let mins := rem minutes 60 in
  padStart2 (toString hours) ++ ":" ++ padStart2 (toString mins).

(** ** Rows, groups and members *)

(** What reading a property of [null] or [undefined] raises; the payload is
    the property. *)
Inductive error : Type :=
| TypeError (reading : string).

Inductive result (A : Type) : Type :=
| Ok (a : A)
| Throw (e : error).

Arguments Ok {A} a.
Arguments Throw {A} e.

Definition bind {A B : Type} (r : result A) (k : A -> result B) : result B :=
  match r with
  | Ok a => k a
  | Throw e => Throw e
  end.

Notation "x <- r ;; k" := (bind r (fun x => k))
  (at level 61, r at next level, right associativity).

(** [xs.map(f)] when [f] may throw: the first exception ends the loop. *)
Fixpoint mapM {A B : Type} (f : A -> result B) (xs : list A) : result (list B) :=
  match xs with
  | [] => Ok []
  | x :: xs' => y <- f x ;; ys <- mapM f xs' ;; Ok (y :: ys)
  end.

Module Contact.
Record t : Type := { first_name : string; last_name : string }.
End Contact.

Module Service.
Record t : Type := { name : string; duration_minutes : option Z }.
End Service.

Module Profile.
Record t : Type := { id : option string; first_name : string; last_name : string }.
End Profile.

(** A row of the [appointments] query with its joined records; a joined
    record or an optional column may be [null]. *)
Module Row.
Record t : Type := {
  member_id : option string;
  start_time : string;
  end_time : option string;
  contacts : option Contact.t;
  services : option Service.t;
  profiles : option Profile.t;
  status : option string
}.
End Row.

Module Group.
Record t : Type := { member : Profile.t; appointments : list Row.t }.
End Group.

(** [memberGroups] is an object used as a map: its own properties, in the
    order of their creation. The engine only reads [Object.values] of it. *)
Definition MemberGroups : Type := list (string * Group.t).

(** A property key that is an array index: the canonical decimal text of an
    integer from 0 to 2^32 - 2. *)
Definition arrayIndex (key : string) : option Z :=
  match Number key with
  | Num n =>
      if (0 <=? n) && (n <=? 4294967294) && String.eqb (Z_toString n) key
      then Some n else None
  | NaN => None
  end.

Fixpoint insertIndexed (entry : Z * Group.t) (sorted : list (Z * Group.t))
  : list (Z * Group.t) :=
  match sorted with
  | [] => [entry]
  | e :: rest =>
      if fst entry <=? fst e then entry :: sorted else e :: insertIndexed entry rest
  end.

(** The properties whose key is an array index, in ascending order of the
    index, and the others, in order of creation. *)
Definition indexedProperties (memberGroups : MemberGroups) : list (Z * Group.t) :=
  fold_right
    (fun property sorted =>
       match arrayIndex (fst property) with
       | Some n => insertIndexed (n, snd property) sorted
       | None => sorted
       end)
    [] memberGroups.

Definition namedProperties (memberGroups : MemberGroups) : list (string * Group.t) :=
  filter (fun property => match arrayIndex (fst property) with
                          | Some _ => false
                          | None => true
                          end)
         memberGroups.

(** [Object.values(memberGroups)]: property order lists the array indices
    first, ascending, then the other keys in order of creation. *)
Definition Object_values (memberGroups : MemberGroups) : list Group.t :=
  (map snd (indexedProperties memberGroups) ++ map snd (namedProperties memberGroups))%list.

Module Organization.
Record t : Type := { id : string; name : string }.
End Organization.

Module Appointment.
Record t : Type := {
  start_time : string;
  end_time : string;
  client : string;
  service : string;
  status : string
}.
End Appointment.

Module Member.
Record t : Type := { id : string; name : string; appointments : list Appointment.t }.
End Member.

(** ** The status table (source lines 412-450) *)

Module Style.
Record t : Type := {
  label : string;
  bgColor : string;
  borderColor : string;
  textColor : string
}.
End Style.

Definition APPOINTMENT_STATES : list (string * Style.t) :=
  [ ("programada", {| Style.label := "Programada"; Style.bgColor := "#f3f4f6";
                      Style.borderColor := "#9ca3af"; Style.textColor := "#374151" |});
    ("confirmada", {| Style.label := "Confirmada"; Style.bgColor := "#dcfce7";
                      Style.borderColor := "#16a34a"; Style.textColor := "#166534" |});
    ("en_curso", {| Style.label := "En curso"; Style.bgColor := "#e0e7ff";
                    Style.borderColor := "#6366f1"; Style.textColor := "#4338ca" |});
    ("completada", {| Style.label := "Completada"; Style.bgColor := "#dbeafe";
                      Style.borderColor := "#3b82f6"; Style.textColor := "#1e40af" |});
    ("cancelada", {| Style.label := "Cancelada"; Style.bgColor := "#fee2e2";
                     Style.borderColor := "#dc2626"; Style.textColor := "#991b1b" |});
    ("no_asistio", {| Style.label := "No asistió"; Style.bgColor := "#fed7aa";
                      Style.borderColor := "#ea580c"; Style.textColor := "#9a3412" |}) ].

(** ** End-time derivation and the [members] array (source lines 452-477) *)

(** The value of [apt.services && apt.services.duration_minutes] when it is a
    number. *)
Definition serviceDuration (apt : Row.t) : option Z :=
  match Row.services apt with
  | Some sv => Service.duration_minutes sv
  | None => None
  end.

(** The value of [endTime] when the object literal is built. *)
Definition deriveEndTime (apt : Row.t) : string :=
  let endTime := Row.end_time apt in
  if negb (truthy_string endTime) && truthy_number (serviceDuration apt) then
    let startMinutes := timeToMinutes (Row.start_time apt) in
    let endMinutes :=
      add startMinutes (match serviceDuration apt with Some d => Num d | None => NaN end) in
    minutesToTime endMinutes
  else if negb (truthy_string endTime) then
    let startMinutes := timeToMinutes (Row.start_time apt) in
    minutesToTime (add startMinutes (Num 30))
  else or_else endTime EmptyString.

Definition convertAppointment (apt : Row.t) : result Appointment.t :=
  let endTime := deriveEndTime apt in
  match Row.contacts apt with
  | None => Throw (TypeError "first_name")
  | Some contacts =>
      match Row.services apt with
      | None => Throw (TypeError "name")
      | Some services =>
          Ok {| Appointment.start_time := Row.start_time apt;
                Appointment.end_time := endTime;
                Appointment.client :=
                  Contact.first_name contacts ++ " " ++ Contact.last_name contacts;
                Appointment.service := Service.name services;
                Appointment.status := or_else (Row.status apt) "programada" |}
      end
  end.

Definition convertGroup (group : Group.t) : result Member.t :=
  appointments <- mapM convertAppointment (Group.appointments group) ;;
  Ok {| Member.id := or_else (Profile.id (Group.member group)) "unknown";
        Member.name :=
          Profile.first_name (Group.member group) ++ " "
          ++ Profile.last_name (Group.member group);
        Member.appointments := appointments |}.

Definition convertGroups (memberGroups : MemberGroups) : result (list Member.t) :=
  mapM convertGroup (Object_values memberGroups).

(** ** The view window (source lines 479-507) *)

Module Window.
Record t : Type := {
  startHour : number;
  endHour : number;
  totalMinutes : number;
  startMinutes : number
}.
End Window.

(** The body of the inner [forEach]: the running earliest start and latest
    end after one more appointment. *)
Definition scanAppointment (acc : number * number) (appointment : Appointment.t)
  : number * number :=
  let '(earliestTime, latestTime) := acc in
  let startMin := timeToMinutes (Appointment.start_time appointment) in
  let endMin := timeToMinutes (Appointment.end_time appointment) in
  (if lt startMin earliestTime then startMin else earliestTime,
   if gt endMin latestTime then endMin else latestTime).

Definition scanMembers (members : list Member.t) : number * number :=
  fold_left
    (fun acc member => fold_left scanAppointment (Member.appointments member) acc)
    members (Num (24 * 60), Num 0).

Definition viewWindow (members : list Member.t) : Window.t :=
  let '(earliestTime, latestTime) := scanMembers members in
  let '(earliestTime, latestTime) :=
    if strict_eq earliestTime (Num (24 * 60)) then (Num (8 * 60), Num (18 * 60))
    else (max (Num 0) (sub earliestTime (Num 60)),
          min (Num (24 * 60)) (add latestTime (Num 60))) in
  let startHour := floor_div earliestTime 60 in
  let endHour := ceil_div latestTime 60 in
  let totalMinutes := mul (sub endHour startHour) (Num 60) in
  let startMinutes := mul startHour (Num 60) in
  {| Window.startHour := startHour;
     Window.endHour := endHour;
     Window.totalMinutes := totalMinutes;
     Window.startMinutes := startMinutes |}.

(** ** Overlap detection and column assignment (source lines 509-546) *)

(** [[...appointments].sort((a, b) => timeToMinutes(a.start_time) -
    timeToMinutes(b.start_time))]. [Array.prototype.sort] is stable, and when
    every start is a number the comparator is consistent, so the result is
    the one list that is in ascending order of start with equal starts in
    input order: the list [sortByStart] returns. When some start is NaN the
    comparator is not consistent and the language leaves the order to the
    implementation; [sortByStart] then returns one permutation of the input
    (a NaN comparison counted as 0), which need not be the engine's. The
    properties below that depend on the order are stated for numeric starts;
    the others hold for every order of processing. *)
Definition compareStart (a b : Appointment.t) : number :=
  sub (timeToMinutes (Appointment.start_time a))
      (timeToMinutes (Appointment.start_time b)).

Definition notAfter (a b : Appointment.t) : bool :=
  match compareStart a b with
  | Num v => v <=? 0
  | NaN => true
  end.

Fixpoint insert (a : Appointment.t) (sorted : list Appointment.t) : list Appointment.t :=
  match sorted with
  | [] => [a]
  | b :: rest => if notAfter a b then a :: sorted else b :: insert a rest
  end.

Definition sortByStart (appointments : list Appointment.t) : list Appointment.t :=
  fold_right insert [] appointments.

(** An element of [appointmentsWithColumns]: the appointment's own fields
    (spread) and the four added ones. *)
Module Placed.
Record t : Type := {
  appointment : Appointment.t;
  column : nat;
  startMinutes : number;
  endMinutes : number;
  duration : number
}.
End Placed.

(** The predicate of [some] in the [while] condition. *)
Definition conflicts (startMin endMin : number) (column : nat) (existing : Placed.t) : bool :=
  Nat.eqb (Placed.column existing) column
  && negb (le endMin (timeToMinutes (Appointment.start_time (Placed.appointment existing)))
           || ge startMin (timeToMinutes (Appointment.end_time (Placed.appointment existing)))).

(** The [while] loop: [column++] as long as some placed appointment of that
    column overlaps. [fuel] bounds the iterations; [findColumn_enough_fuel]
    shows that one more than the number of placed appointments is never
    exhausted. *)
Fixpoint findColumn (fuel : nat) (placed : list Placed.t) (startMin endMin : number)
  (column : nat) : nat :=
  match fuel with
  | O => column
  | S fuel' =>
      if existsb (conflicts startMin endMin column) placed
      then findColumn fuel' placed startMin endMin (S column)
      else column
  end.

(** The body of [sortedAppointments.forEach]. *)
Definition place (appointmentsWithColumns : list Placed.t) (appointment : Appointment.t)
  : list Placed.t :=
  let startMin := timeToMinutes (Appointment.start_time appointment) in
  let endMin := timeToMinutes (Appointment.end_time appointment) in
  let column :=
    findColumn (S (List.length appointmentsWithColumns)) appointmentsWithColumns startMin endMin O in
  (appointmentsWithColumns
   ++ [ {| Placed.appointment := appointment;
           Placed.column := column;
           Placed.startMinutes := startMin;
           Placed.endMinutes := endMin;
           Placed.duration := sub endMin startMin |} ])%list.

Definition assignColumns (sortedAppointments : list Appointment.t) : list Placed.t :=
  fold_left place sortedAppointments [].

(** [Math.max(...appointmentsWithColumns.map(apt => apt.column), 0) + 1]. *)
Definition maxColumnsOf (appointmentsWithColumns : list Placed.t) : nat :=
  (fold_right Nat.max O (map Placed.column appointmentsWithColumns) + 1)%nat.

Module ProcessedMember.
Record t : Type := {
  member : Member.t;
  appointments : list Placed.t;
  maxColumns : nat
}.
End ProcessedMember.

Definition processMember (member : Member.t) : ProcessedMember.t :=
  let sortedAppointments := sortByStart (Member.appointments member) in
  let appointmentsWithColumns := assignColumns sortedAppointments in
  {| ProcessedMember.member := member;
     ProcessedMember.appointments := appointmentsWithColumns;
     ProcessedMember.maxColumns := maxColumnsOf appointmentsWithColumns |}.

Definition processMembers (members : list Member.t) : list ProcessedMember.t :=
  map processMember members.

(** ** Pixel geometry (source lines 779-782) *)

(** The binary64 value of an integer, rounded to nearest-even. *)
Definition Z_to_float (z : Z) : float :=
  SF2Prim (SpecFloat.binary_normalize FloatOps.prec FloatOps.emax z 0 false).

Definition toFloat (a : number) : float :=
  match a with
  | Num z => Z_to_float z
  | NaN => nan
  end.

(** [(endHour - startHour) * 120], the height of a member column. *)
Definition trackHeight (w : Window.t) : number :=
  mul (sub (Window.endHour w) (Window.startHour w)) (Num 120).

(** The subtraction is exact integer arithmetic; quotient and product are
    binary64 operations. *)
Definition topPosition (w : Window.t) (appointment : Placed.t) : float :=
  (toFloat (sub (Placed.startMinutes appointment) (Window.startMinutes w))
   / toFloat (Window.totalMinutes w)
   * toFloat (trackHeight w))%float.

Definition height (w : Window.t) (appointment : Placed.t) : float :=
  (toFloat (Placed.duration appointment)
   / toFloat (Window.totalMinutes w)
   * toFloat (trackHeight w))%float.

(** ** Markup emission (source lines 388-397 and 548-810) *)

(** What the host provides beside the arguments: the clock read by
    [Date.now()] when the image is stored, and the locale data and time zone
    behind [toLocaleDateString('es-ES', options)] of the date a string
    denotes. *)
Module Host.
Record t : Type := {
  now : Z;
  toLocaleDateString : string -> string
}.
End Host.

(** The double-quote character. *)
Definition dq : string := String (ascii_of_nat 34) EmptyString.

(** [parts.join('')]. *)
Definition join (parts : list string) : string :=
  fold_right String.append EmptyString parts.

(** The literal text of the template, piece by piece. *)
Definition sheet_open : string :=
  "
    <!DOCTYPE html>
    <html>
    <head>
      <meta charset=" ++ dq ++ "UTF-8" ++ dq ++ ">
      <style>
        * {
          margin: 0;
          padding: 0;
          box-sizing: border-box;
        }
        
        body {
          font-family: -apple-system, BlinkMacSystemFont, 'Segoe UI', Roboto, sans-serif;
          background: #f8fafc;
          padding: 20px;
          line-height: 1.4;
        }
        
        .header {
          text-align: center;
          margin-bottom: 30px;
          background: white;
          padding: 25px;
          border-radius: 12px;
          box-shadow: 0 2px 8px rgba(0,0,0,0.1);
        }
        
        .header h1 {
          color: #1e293b;
          font-size: 42px;
          margin-bottom: 8px;
          font-weight: 700;
        }
        
        .header h2 {
          color: #64748b;
          font-size: 23px;
          font-weight: 500;
          text-transform: capitalize;
        }
        
        .calendar-container {
          background: white;
          border-radius: 12px;
          overflow: hidden;
          box-shadow: 0 4px 12px rgba(0,0,0,0.1);
          margin-bottom: 20px;
        }
        
        .calendar-header {
          display: grid;
          grid-template-columns: 100px repeat(".

Definition sheet_grid : string :=
  ", 1fr);
          border-bottom: 2px solid #cbd5e1;
        }
        
        .time-header {
          background: #f1f5f9;
          font-weight: 600;
          color: #475569;
          text-align: center;
          padding: 16px 12px;
          border-right: 1px solid #cbd5e1;
          font-size: 17px;
        }
        
        .member-header {
          background: #000000;
          color: white;
          font-weight: 600;
          text-align: center;
          font-size: 21px;
          padding: 16px 12px;
          border-right: 1px solid #cbd5e1;
        }
        
        .calendar-body {
          display: grid;
          grid-template-columns: 100px repeat(".

Definition sheet_rules : string :=
  ", 1fr);
          position: relative;
        }
        
        .time-column {
          background: #f8fafc;
          border-right: 1px solid #cbd5e1;
        }
        
        .time-slot {
          height: 60px;
          border-bottom: 1px solid #cbd5e1;
          display: flex;
          align-items: center;
          justify-content: center;
          font-size: 17px;
          font-weight: 500;
          color: #64748b;
        }
        
        .member-column {
          position: relative;
          border-right: 1px solid #cbd5e1;
          background: white;
        }
        
        .time-grid-line {
          position: absolute;
          left: 0;
          right: 0;
          height: 1px;
          background: #cbd5e1;
          z-index: 1;
        }
        
        .appointment {
          position: absolute;
          left: 4px;
          right: 4px;
          border-radius: 6px;
          padding: 6px 8px;
          font-size: 14px;
          border: 1px solid;
          z-index: 10;
          overflow: hidden;
        }
        
        .appointment-overlap {
          right: 50% !important;
          margin-right: 2px;
        }
        
        .appointment-overlap.column-1 {
          left: 50% !important;
          right: 4px !important;
          margin-left: 2px;
          margin-right: 0;
        }
        
        .appointment-client {
          font-weight: 600;
          margin-bottom: 2px;
          font-size: 16px;
          white-space: nowrap;
          overflow: hidden;
          text-overflow: ellipsis;
        }
        
        .appointment-service {
          font-size: 13px;
          opacity: 0.9;
          margin-bottom: 2px;
          white-space: nowrap;
          overflow: hidden;
          text-overflow: ellipsis;
        }
        
        .appointment-time {
          font-size: 12px;
          opacity: 0.7;
          font-weight: 500;
        }
        
        .legend {
          display: flex;
          justify-content: center;
          gap: 20px;
          padding: 20px;
          background: white;
          border-radius: 8px;
          box-shadow: 0 2px 4px rgba(0,0,0,0.05);
          flex-wrap: wrap;
        }
        
        .legend-item {
          display: flex;
          align-items: center;
          gap: 8px;
          font-size: 16px;
          font-weight: 500;
        }
        
        .legend-dot {
          width: 16px;
          height: 16px;
          border-radius: 4px;
          border: 1px solid;
        }
        
        ".

Definition body_open : string :=
  "
      </style>
    </head>
    <body>
      <div class=" ++ dq ++ "header" ++ dq ++ ">
        <h1>📅 Agenda Diaria ".

Definition body_date : string :=
  "</h1>
        <h2>".

Definition body_header : string :=
  "</h2>
      </div>
      
      <div class=" ++ dq ++ "calendar-container" ++ dq ++ ">
        <div class=" ++ dq ++ "calendar-header" ++ dq ++ ">
          <div class=" ++ dq ++ "time-header" ++ dq ++ ">Hora</div>
          ".

Definition body_times : string :=
  "
        </div>
        
        <div class=" ++ dq ++ "calendar-body" ++ dq ++ ">
          <!-- Time column -->
          <div class=" ++ dq ++ "time-column" ++ dq ++ ">
            ".

Definition body_members : string :=
  "
          </div>
          
          <!-- Member columns -->
          ".

Definition body_legend : string :=
  "
        </div>
      </div>
      
      <div class=" ++ dq ++ "legend" ++ dq ++ ">
        ".

Definition body_close : string :=
  "
      </div>
    </body>
    </html>
  ".

(** One entry of [Object.entries(APPOINTMENT_STATES)] as two rules of the
    style sheet. *)
Definition stateRule (entry : string * Style.t) : string :=
  let '(status, config) := entry in
  "
          .appointment." ++ status
  ++ " {
            background: " ++ Style.bgColor config
  ++ ";
            border-color: " ++ Style.borderColor config
  ++ ";
            color: " ++ Style.textColor config
  ++ ";
          }
          .legend-dot." ++ status
  ++ " {
            background: " ++ Style.bgColor config
  ++ ";
            border-color: " ++ Style.borderColor config
  ++ ";
          }
        ".

Definition legendItem (entry : string * Style.t) : string :=
  let '(status, config) := entry in
  "
          <div class=" ++ dq ++ "legend-item" ++ dq ++ ">
            <div class=" ++ dq ++ "legend-dot " ++ status
  ++ dq ++ "></div>
            <span>" ++ Style.label config
  ++ "</span>
          </div>
        ".

Definition memberHeader (member : Member.t) : string :=
  "<div class=" ++ dq ++ "member-header" ++ dq ++ ">" ++ Member.name member ++ "</div>".

(** The [i]-th half-hour label of the time column. *)
Definition timeSlot (w : Window.t) (i : nat) : string :=
  let minutes := add (Window.startMinutes w) (Num (Z.of_nat i * 30)) in
  let time := minutesToTime minutes in
  "<div class=" ++ dq ++ "time-slot" ++ dq ++ ">" ++ time ++ "</div>".

Definition timeSlots (w : Window.t) : string :=
  join (map (timeSlot w)
            (seq 0 (toLength (mul (sub (Window.endHour w) (Window.startHour w)) (Num 2))))).

Definition gridLine (i : nat) : string :=
  "<div class=" ++ dq ++ "time-grid-line" ++ dq ++ " style=" ++ dq ++ "top: " ++ Z_toString (Z.of_nat i * 60) ++ "px;" ++ dq ++ "></div>".

Definition gridLines (w : Window.t) : string :=
  join (map gridLine
            (seq 0 (toLength (add (mul (sub (Window.endHour w) (Window.startHour w)) (Num 2))
                                  (Num 1))))).

(** The class list of an appointment element: the status, the overlap
    marker and the column marker. *)
Definition overlapClass (member : ProcessedMember.t) : string :=
  let hasOverlap := Nat.ltb 1 (ProcessedMember.maxColumns member) in
  if hasOverlap then "appointment-overlap" else EmptyString.

Definition columnClass (appointment : Placed.t) : string :=
  if Nat.ltb 0 (Placed.column appointment)
  then "column-" ++ Z_toString (Z.of_nat (Placed.column appointment))
  else EmptyString.

Section Markup.

(** [String(x)] for a binary64 [x], left abstract. *)
Variable float_toString : float -> string.

Definition renderAppointment (w : Window.t) (member : ProcessedMember.t)
  (appointment : Placed.t) : string :=
  "
                  <div class=" ++ dq ++ "appointment " ++ Appointment.status (Placed.appointment appointment)
  ++ " " ++ overlapClass member
  ++ " " ++ columnClass appointment
  ++ dq ++ " 
                       style=" ++ dq ++ "top: " ++ float_toString (topPosition w appointment)
  ++ "px; height: " ++ float_toString (height w appointment)
  ++ "px;" ++ dq ++ ">
                    <div class=" ++ dq ++ "appointment-client" ++ dq ++ ">" ++ Appointment.client (Placed.appointment appointment)
  ++ "</div>
                    <div class=" ++ dq ++ "appointment-service" ++ dq ++ ">" ++ Appointment.service (Placed.appointment appointment)
  ++ "</div>
                    <div class=" ++ dq ++ "appointment-time" ++ dq ++ ">" ++ Appointment.start_time (Placed.appointment appointment)
  ++ " - " ++ Appointment.end_time (Placed.appointment appointment)
  ++ "</div>
                  </div>
                ".

Definition memberColumn (w : Window.t) (member : ProcessedMember.t) : string :=
  "
            <div class=" ++ dq ++ "member-column" ++ dq ++ " style=" ++ dq ++ "height: " ++ toString (trackHeight w)
  ++ "px;" ++ dq ++ ">
              <!-- Grid lines every 30 minutes -->
              " ++ gridLines w
  ++ "
              
              <!-- Appointments -->
              " ++ join (map (renderAppointment w member) (ProcessedMember.appointments member))
  ++ "
            </div>
          ".

Definition formatDate (host : Host.t) (dateStr : string) : string :=
  Host.toLocaleDateString host (dateStr ++ "T00:00:00").

Definition generateAgendaHTML (host : Host.t) (organization : Organization.t)
  (memberGroups : MemberGroups) (date : string) : result string :=
  members <- convertGroups memberGroups ;;
  let w := viewWindow members in
  let processedMembers := processMembers members in
  Ok (sheet_open ++ Z_toString (Z.of_nat (List.length members))
      ++ sheet_grid ++ Z_toString (Z.of_nat (List.length members))
      ++ sheet_rules ++ join (map stateRule APPOINTMENT_STATES)
      ++ body_open ++ Organization.name organization
      ++ body_date ++ formatDate host date
      ++ body_header ++ join (map memberHeader members)
      ++ body_times ++ timeSlots w
      ++ body_members ++ join (map (memberColumn w) processedMembers)
      ++ body_legend ++ join (map legendItem APPOINTMENT_STATES)
      ++ body_close).

End Markup.

(** ** The scheduled job, one organization at a time (source lines 105-262
    and 277-315) *)

Module Config.
Record t : Type := {
  organization_id : string;
  organizations : Organization.t;
  country_code : option string;
  recipient_phone : string;
  recipient_name : option string
}.
End Config.

Module Payload.
Record t : Type := {
  event_type : string;
  organization : Organization.t;
  agenda_date : string;
  image_url : string;
  recipient_phone : string;
  recipient_name : string;
  members_with_appointments : list (Profile.t * nat);
  total_appointments : nat
}.
End Payload.

(** [{ data, error }] of the appointments query. *)
Inductive QueryResult : Type :=
| QueryError (message : string)
| QueryData (appointments : option (list Row.t)).

(** How [await fetch(...)] ends: the promise rejects (no HTTP response at
    all), or it resolves to a response with its [ok] flag and status. *)
Inductive FetchResult : Type :=
| FetchRejected (message : string)
| FetchResponse (ok : bool) (status : Z) (statusText : string).

(** The collaborators of the job: the host, the data source, the renderer
    ([None]: it throws), the storage upload ([false]: it reports an error)
    and the webhook endpoint. *)
Module World.
Record t : Type := {
  host : Host.t;
  today : string;
  selectAppointments : string -> string -> QueryResult;
  htmlToImage : string -> option string;
  upload : string -> string -> bool;
  getPublicUrl : string -> string;
  fetch : string -> Payload.t -> FetchResult
}.
End World.

(** What the loop body writes to the console, and the requests it sends. *)
Inductive event : Type :=
| LogProcessing (organization : string)
| ErrorFetchingAppointments (organization : string) (message : string)
| LogFound (count : nat)
| LogNoAppointments (organization : string)
| LogGenerating (organization : string)
| LogImageGenerated (imageUrl : option string)
| LogSendingWebhook (url : string)
| LogRecipient (phone name : string)
| Fetch (url : string) (payload : Payload.t)
| ErrorWebhookFailed (status : Z) (statusText : string)
| LogPayloadWas (payload : Payload.t)
| LogWebhookSent (organization : string)
| LogSkippingWebhook (organization : string)
| ErrorProcessing (organization : string) (message : string).

(** The records pushed to [results], by their [status]. *)
Inductive outcome : Type :=
| StatusSuccess (organization : string) (appointments_count : nat) (recipient : string)
| StatusSkipped (organization : string) (appointments_count : nat)
| StatusError (organization : string) (error : string).

Definition defaultMember : Profile.t :=
  {| Profile.id := None; Profile.first_name := "Sin"; Profile.last_name := "Asignar" |}.

(** [memberGroups[memberKey]] is created on the first row of a member and
    extended afterwards. *)
Fixpoint addToGroup (memberKey : string) (appointment : Row.t) (memberGroups : MemberGroups)
  : MemberGroups :=
  match memberGroups with
  | [] =>
      [ (memberKey,
         {| Group.member :=
              match Row.profiles appointment with
              | Some profile => profile
              | None => defaultMember
              end;
            Group.appointments := [appointment] |}) ]
  | (key, group) :: rest =>
      if String.eqb key memberKey
      then (key, {| Group.member := Group.member group;
                    Group.appointments := (Group.appointments group ++ [appointment])%list |})
           :: rest
      else (key, group) :: addToGroup memberKey appointment rest
  end.

(** The object the [forEach] of lines 153-162 has built when it completes. *)
Definition groupByMember (appointments : list Row.t) : MemberGroups :=
  fold_left
    (fun memberGroups appointment =>
       addToGroup (or_else (Row.member_id appointment) "sin-asignar") appointment memberGroups)
    appointments [].

(** [memberGroups] is a plain object, so [memberGroups[memberKey]] also finds
    the properties every object inherits from [Object.prototype]. Their
    values are functions (an object for [__proto__]), all truthy and without
    [appointments]: for such a key no group is created and
    [memberGroups[memberKey].appointments.push] reads [push] of [undefined]. *)
Definition inheritedKeys : list string :=
  ["constructor"; "__defineGetter__"; "__defineSetter__"; "hasOwnProperty";
   "__lookupGetter__"; "__lookupSetter__"; "isPrototypeOf"; "propertyIsEnumerable";
   "toString"; "valueOf"; "__proto__"; "toLocaleString"].

Definition inheritedKey (key : string) : bool :=
  existsb (String.eqb key) inheritedKeys.

(** One round of the [forEach], and the loop: it completes with the object
    [groupByMember] describes, or it throws at the first row whose key is
    inherited. The loop body [processConfig] below is the one of an
    organization whose grouping completes. *)
Definition addAppointment (memberGroups : result MemberGroups) (appointment : Row.t)
  : result MemberGroups :=
  groups <- memberGroups ;;
  let memberKey := or_else (Row.member_id appointment) "sin-asignar" in
  if inheritedKey memberKey then Throw (TypeError "push")
  else Ok (addToGroup memberKey appointment groups).

Definition grouping (appointments : list Row.t) : result MemberGroups :=
  fold_left addAppointment appointments (Ok []).

Definition webhookUrl : string := "https://auto.skytide.agency/webhook/daily_agenda".

(** What the handler returns after the loop (lines 255-262). Its earlier
    returns, when there is no enabled configuration or none is due, and the
    answer 500 of its outer [catch] are not part of this record. *)
Module Response.
Record t : Type := {
  statusCode : Z;
  processed_count : nat;
  results : list outcome
}.
End Response.

(** [for (const config of configsToProcess)] with a given body: the events
    of the run and the records pushed to [results], in order. *)
Definition forEachConfig (body : Config.t -> list event * option outcome)
  (configsToProcess : list Config.t) : list event * list outcome :=
  fold_left
    (fun acc config =>
       let '(events, results) := acc in
       let '(events', pushed) := body config in
       ((events ++ events')%list,
        match pushed with
        | Some record => (results ++ [record])%list
        | None => results
        end))
    configsToProcess ([], []).

(** The message of the TypeError the grouping loop throws (Node 18). *)
Definition pushMessage : string :=
  "Cannot read properties of undefined (reading 'push')".

Section Job.

Variable float_toString : float -> string.
Variable world : World.t.

(** [generateAgendaImage]: every failure inside it is caught and turned
    into [null]. *)
Definition generateAgendaImage (organization : Organization.t) (memberGroups : MemberGroups)
  (date : string) : option string :=
  match generateAgendaHTML float_toString (World.host world) organization memberGroups date with
  | Throw _ => None
  | Ok htmlContent =>
      match World.htmlToImage world htmlContent with
      | None => None
      | Some imageBuffer =>
          let fileName :=
            "agenda-" ++ Organization.id organization ++ "-" ++ date ++ "-"
            ++ Z_toString (Host.now (World.host world)) ++ ".png" in
          if World.upload world fileName imageBuffer
          then Some (World.getPublicUrl world fileName)
          else None
      end
  end.

Definition buildPayload (config : Config.t) (memberGroups : MemberGroups)
  (appointments : list Row.t) (imageUrl : string) : Payload.t :=
  {| Payload.event_type := "daily_agenda";
     Payload.organization := Config.organizations config;
     Payload.agenda_date := World.today world;
     Payload.image_url := imageUrl;
     Payload.recipient_phone :=
       or_else (Config.country_code config) "+57" ++ Config.recipient_phone config;
     Payload.recipient_name := or_else (Config.recipient_name config) "Destinatario";
     Payload.members_with_appointments :=
       map (fun group => (Group.member group, List.length (Group.appointments group)))
           (Object_values memberGroups);
     Payload.total_appointments := List.length appointments |}.

(** The body of [for (const config of configsToProcess)]: the console and
    network events of this organization, and the record pushed to [results]
    (none after [continue]). The grouping of the rows is taken to complete;
    [loopBody] below adds the case in which it throws. *)
Definition processConfig (config : Config.t) : list event * option outcome :=
  let name := Organization.name (Config.organizations config) in
  let today := World.today world in
  match World.selectAppointments world (Config.organization_id config) today with
  | QueryError message =>
      ([LogProcessing name; ErrorFetchingAppointments name message], None)
  | QueryData None =>
      ([LogProcessing name; LogFound O; LogNoAppointments name], None)
  | QueryData (Some []) =>
      ([LogProcessing name; LogFound O; LogNoAppointments name], None)
  | QueryData (Some appointments) =>
      let memberGroups := groupByMember appointments in
      let imageUrl := generateAgendaImage (Config.organizations config) memberGroups today in
      let before :=
        [LogProcessing name; LogFound (List.length appointments); LogGenerating name;
         LogImageGenerated imageUrl] in
      match imageUrl with
      | Some (String c url) =>
          let payload := buildPayload config memberGroups appointments (String c url) in
          let sending :=
            [LogSendingWebhook webhookUrl;
             LogRecipient (Payload.recipient_phone payload) (Payload.recipient_name payload);
             Fetch webhookUrl payload] in
          match World.fetch world webhookUrl payload with
          | FetchRejected message =>
              ((before ++ sending ++ [ErrorProcessing name message])%list,
               Some (StatusError name message))
          | FetchResponse false status statusText =>
              ((before ++ sending
                ++ [ErrorWebhookFailed status statusText; LogPayloadWas payload])%list,
               Some (StatusSuccess name (List.length appointments)
                                   (Payload.recipient_phone payload)))
          | FetchResponse true _ _ =>
              ((before ++ sending ++ [LogWebhookSent name])%list,
               Some (StatusSuccess name (List.length appointments)
                                   (Payload.recipient_phone payload)))
          end
      | _ =>
          ((before ++ [LogSkippingWebhook name])%list,
           Some (StatusSkipped name (List.length appointments)))
      end
  end.



(** The whole body of the loop, with the [catch] block of lines 243-249
    for a throw while grouping: the error is logged and a record with status
    'error' and the error's message is pushed. [processConfig] is the body
    for an organization whose grouping completes (or is not reached). *)
Definition loopBody (config : Config.t) : list event * option outcome :=
  let name := Organization.name (Config.organizations config) in
  let today := World.today world in
  match World.selectAppointments world (Config.organization_id config) today with
  | QueryData (Some (row :: rows)) =>
      match grouping (row :: rows) with
      | Ok _ => processConfig config
      | Throw _ =>
          ([LogProcessing name; LogFound (List.length (row :: rows));
            ErrorProcessing name pushMessage],
           Some (StatusError name pushMessage))
      end
  | _ => processConfig config
  end.

Definition loop (configsToProcess : list Config.t) : list event * list outcome :=
  forEachConfig loopBody configsToProcess.

End Job.

(** ** Notions used in the statements *)

(** [s] does not contain the character [sep]. *)
Fixpoint free_of (sep : ascii) (s : string) : bool :=
  match s with
  | EmptyString => true
  | String c s' => negb (Ascii.eqb c sep) && free_of sep s'
  end.

(** A row with the given times, service duration and status, used in the
    worked examples. *)
Definition sampleRow (start : string) (finish : option string) (duration : option Z)
  (status : option string) : Row.t :=
  {| Row.member_id := Some "m1";
     Row.start_time := start;
     Row.end_time := finish;
     Row.contacts := Some {| Contact.first_name := "Ana"; Contact.last_name := "Diaz" |};
     Row.services := Some {| Service.name := "Corte"; Service.duration_minutes := duration |};
     Row.profiles := None;
     Row.status := status |}.

(** The same row with another value of [services.duration_minutes]. *)
Definition withDuration (apt : Row.t) (duration : option Z) : Row.t :=
  {| Row.member_id := Row.member_id apt;
     Row.start_time := Row.start_time apt;
     Row.end_time := Row.end_time apt;
     Row.contacts := Row.contacts apt;
     Row.services :=
       match Row.services apt with
       | Some sv => Some {| Service.name := Service.name sv;
                            Service.duration_minutes := duration |}
       | None => None
       end;
     Row.profiles := Row.profiles apt;
     Row.status := Row.status apt |}.

(** A member whose appointments are the given (start, end) pairs, and the
    appointment of such a pair. *)
Definition sampleAppointment (times : string * string) : Appointment.t :=
  {| Appointment.start_time := fst times;
     Appointment.end_time := snd times;
     Appointment.client := "Ana Diaz";
     Appointment.service := "Corte";
     Appointment.status := "programada" |}.

Definition sampleMember (times : list (string * string)) : Member.t :=
  {| Member.id := "m1"; Member.name := "Eva Ruiz";
     Member.appointments := map sampleAppointment times |}.

(** Every appointment of every member, in scan order. *)
Definition allAppointments (members : list Member.t) : list Appointment.t :=
  flat_map Member.appointments members.

(** [m] is the least start, in minutes, among the appointments, and [M] the
    greatest end. *)
Definition earliestStart (appointments : list Appointment.t) (m : Z) : Prop :=
  (exists a, In a appointments /\ timeToMinutes (Appointment.start_time a) = Num m)
  /\ forall a s, In a appointments ->
       timeToMinutes (Appointment.start_time a) = Num s -> m <= s.

Definition latestEnd (appointments : list Appointment.t) (M : Z) : Prop :=
  (exists a, In a appointments /\ timeToMinutes (Appointment.end_time a) = Num M)
  /\ forall a e, In a appointments ->
       timeToMinutes (Appointment.end_time a) = Num e -> e <= M.

(** Start and end of an appointment in minutes, as the column pass reads
    them. *)
Definition startMin (a : Appointment.t) : number :=
  timeToMinutes (Appointment.start_time a).

Definition endMin (a : Appointment.t) : number :=
  timeToMinutes (Appointment.end_time a).

(** The half-open overlap test: [s1 < e2] and [s2 < e1]. *)
Definition overlapping (a b : Appointment.t) : bool :=
  lt (startMin a) (endMin b) && lt (startMin b) (endMin a).

(** Some placed appointment of [column] overlaps the interval: the
    condition of the [while] loop. *)
Definition busy (placed : list Placed.t) (s e : number) (column : nat) : bool :=
  existsb (conflicts s e column) placed.

(** The appointment is active at minute [t] (its half-open interval
    contains [t]), and the number of appointments active at [t]. *)
Definition activeAt (t : Z) (a : Appointment.t) : bool :=
  le (startMin a) (Num t) && lt (Num t) (endMin a).

Definition depth (t : Z) (appointments : list Appointment.t) : nat :=
  List.length (filter (activeAt t) appointments).

(** The same at an instant between whole minutes, given as a rational. *)
Definition activeAtQ (t : Q) (a : Appointment.t) : bool :=
  match startMin a, endMin a with
  | Num s, Num e => Qle_bool (inject_Z s) t && negb (Qle_bool (inject_Z e) t)
  | _, _ => false
  end.

Definition depthQ (t : Q) (appointments : list Appointment.t) : nat :=
  List.length (filter (activeAtQ t) appointments).

(** Both times are numbers and the end is after the start. *)
Definition properInterval (a : Appointment.t) : Prop :=
  exists s e, startMin a = Num s /\ endMin a = Num e /\ s < e.

(** The start is a number. *)
Definition numericStart (a : Appointment.t) : Prop :=
  exists s, startMin a = Num s.

(** [a] starts no later than [b]. *)
Definition startsBefore (a b : Appointment.t) : Prop :=
  exists s s', startMin a = Num s /\ startMin b = Num s' /\ s <= s'.

(** The placed appointments active at minute [t]. *)
Definition activePlaced (t : Z) (placed : list Placed.t) : list Placed.t :=
  filter (fun p => activeAt t (Placed.appointment p)) placed.

(** A day whose window is 8 to 18, and its ten o'clock appointment as the
    column pass leaves it. *)
Definition sampleDay : list Member.t :=
  [sampleMember [("09:00", "09:30"); ("10:00", "11:00"); ("16:00", "17:00")]].

Definition samplePlaced : Placed.t :=
  {| Placed.appointment := sampleAppointment ("10:00", "11:00");
     Placed.column := O;
     Placed.startMinutes := Num 600;
     Placed.endMinutes := Num 660;
     Placed.duration := Num 60 |}.

(** A stand-in for the text of a binary64 number. *)
Definition sampleNumberText (x : float) : string := "0".

(** A host whose clock reads [now]. *)
Definition sampleHost (now : Z) : Host.t :=
  {| Host.now := now;
     Host.toLocaleDateString := fun _ => "lunes, 6 de enero de 2025" |}.

Definition sampleOrganization : Organization.t :=
  {| Organization.id := "org1"; Organization.name := "Salon" |}.

Definition sampleGroups : MemberGroups :=
  [ ("m1", {| Group.member := {| Profile.id := None; Profile.first_name := "Eva";
                                 Profile.last_name := "Ruiz" |};
              Group.appointments := [sampleRow "10:00" None (Some 45) None;
                                     sampleRow "10:30" (Some "11:00") None (Some "confirmada")] |}) ].

(** The number of webhook requests among the events. *)
Definition fetchCount (events : list event) : nat :=
  List.length (filter (fun e => match e with Fetch _ _ => true | _ => false end) events).

(** An organization with one appointment today, in a world where rendering
    and upload succeed and the webhook request ends as given. *)
Definition sampleConfig : Config.t :=
  {| Config.organization_id := "org1";
     Config.organizations := sampleOrganization;
     Config.country_code := None;
     Config.recipient_phone := "3001234567";
     Config.recipient_name := None |}.

Definition sampleWorldAt (now : Z) (answer : FetchResult) : World.t :=
  {| World.host := sampleHost now;
     World.today := "2025-01-06";
     World.selectAppointments :=
       fun _ _ => QueryData (Some [sampleRow "10:00" None (Some 45) None]);
     World.htmlToImage := fun _ => Some "png";
     World.upload := fun _ _ => true;
     World.getPublicUrl := fun fileName => "https://storage.example/" ++ fileName;
     World.fetch := fun _ _ => answer |}.

Definition sampleWorld (answer : FetchResult) : World.t :=
  sampleWorldAt 1736150400000 answer.

(** Expose the fields of a processed member. *)
Ltac open_processMember :=
  unfold processMember;
  cbn [ProcessedMember.appointments ProcessedMember.maxColumns ProcessedMember.member].

(** ** The class attribute of an appointment element *)

(** The text the engine writes between the quotes of the class attribute of
    an appointment element (source line 785): the status, the overlap marker
    and the column marker. *)
Definition classText (status overlap column : string) : string :=
  "appointment " ++ status ++ " " ++ overlap ++ " " ++ column.

(** The values the two markers can have. *)
Definition overlapMarker (overlap : string) : Prop :=
  overlap = EmptyString \/ overlap = "appointment-overlap".

Definition columnMarker (column : string) : Prop :=
  column = EmptyString
  \/ exists n : nat, (0 < n)%nat /\ column = "column-" ++ Z_toString (Z.of_nat n).

(** The start tag of an appointment element: its class attribute and its
    style attribute with the two pixel values (source lines 785-786). *)
Definition startTag (float_toString : float -> string) (classes : string)
  (top height : float) : string :=
  "<div class=" ++ dq ++ classes ++ dq ++ " 
                       style="
  ++ dq ++ "top: " ++ float_toString top
  ++ "px; height: " ++ float_toString height ++ "px;" ++ dq ++ ">".

(** How a document reader takes the value of a double-quoted attribute off
    the text that follows the opening quote: the characters up to the closing
    quote. Character references are not modelled: a value with an ampersand
    is left undetermined, as is a text without closing quote. *)
Fixpoint attributeValue (text : string) : option string :=
  match text with
  | EmptyString => None
  | String c rest =>
      if Ascii.eqb c (ascii_of_nat 34) then Some EmptyString
      else if Ascii.eqb c "&" then None
      else match attributeValue rest with
           | Some value => Some (String c value)
           | None => None
           end
  end.

(** The characters that separate the tokens of a class attribute: tab, line
    feed, form feed, carriage return and space. *)
Definition isSpace (c : ascii) : bool :=
  existsb (Ascii.eqb c) (map ascii_of_nat [9; 10; 12; 13; 32]%nat).

Fixpoint splitOn (separates : ascii -> bool) (s : string) : list string :=
  match s with
  | EmptyString => [EmptyString]
  | String c s' =>
      if separates c then EmptyString :: splitOn separates s'
      else match splitOn separates s' with
           | token :: rest => String c token :: rest
           | [] => [String c EmptyString]
           end
  end.

(** The classes of an element: the tokens of its class attribute. *)
Definition classList (classAttribute : string) : list string :=
  filter (fun token => negb (String.eqb token EmptyString)) (splitOn isSpace classAttribute).

(** The rule [.appointment.<status>] of the style sheet (source line 736)
    applies to an element exactly when [appointment] and [status] are both
    among its classes; the document has a doctype, so classes are compared
    case-sensitively. *)
Definition ruleApplies (status : string) (classAttribute : string) : bool :=
  existsb (String.eqb "appointment") (classList classAttribute)
  && existsb (String.eqb status) (classList classAttribute).

(** No character of [s] is a separator of class tokens. *)
Fixpoint spaceFree (s : string) : bool :=
  match s with
  | EmptyString => true
  | String c s' => negb (isSpace c) && spaceFree s'
  end.

(** A status that is written into the class attribute as it is read back:
    it holds no double quote and no ampersand. *)
Definition plainStatus (status : string) : Prop :=
  free_of (ascii_of_nat 34) status = true /\ free_of "&" status = true.

(** The number of places of [text] at which [needle] starts. *)
Fixpoint occurrences (needle text : string) : nat :=
  match text with
  | EmptyString => if String.prefix needle EmptyString then 1%nat else O
  | String c rest =>
      ((if String.prefix needle text then 1 else 0) + occurrences needle rest)%nat
  end.

(** One member with two appointments that overlap. *)
Definition sampleOverlapGroups : MemberGroups :=
  [ ("m1", {| Group.member := {| Profile.id := None; Profile.first_name := "Eva";
                                 Profile.last_name := "Ruiz" |};
              Group.appointments := [sampleRow "09:00" (Some "09:30") None None;
                                     sampleRow "09:15" (Some "09:45") None None] |}) ].

(** One member whose only appointment has the status "foo". *)
Definition sampleFooGroups : MemberGroups :=
  [ ("m1", {| Group.member := {| Profile.id := None; Profile.first_name := "Eva";
                                 Profile.last_name := "Ruiz" |};
              Group.appointments := [sampleRow "10:00" None None (Some "foo")] |}) ].

(** ** Notions used in the further properties *)

(** The row has both joined records the conversion reads. *)
Definition complete (apt : Row.t) : Prop :=
  Row.contacts apt <> None /\ Row.services apt <> None.

(** Every row of every group, in [Object.values] order. *)
Definition allRows (memberGroups : MemberGroups) : list Row.t :=
  flat_map Group.appointments (Object_values memberGroups).

(** The appointment's times are numbers, the start not negative, the end
    not before the start. *)
Definition orderedTimes (a : Appointment.t) : Prop :=
  exists s e, startMin a = Num s /\ endMin a = Num e /\ 0 <= s <= e.

(** The appointment starts before 24:00. *)
Definition startsInDay (a : Appointment.t) : Prop :=
  exists s, startMin a = Num s /\ s < 1440.

(** The appointment starts at minute [k]. *)
Definition startsAt (k : Z) (a : Appointment.t) : bool :=
  match startMin a with
  | Num s => s =? k
  | NaN => false
  end.

(** Both times of the appointment are numbers. *)
Definition numericTimes (a : Appointment.t) : Prop :=
  exists s e, startMin a = Num s /\ endMin a = Num e.

(** The key under which a row is grouped, the rows of a key, and the member
    record a row gives its group. *)
Definition memberKey (appointment : Row.t) : string :=
  or_else (Row.member_id appointment) "sin-asignar".

Definition rowsOf (key : string) (appointments : list Row.t) : list Row.t :=
  filter (fun appointment => String.eqb (memberKey appointment) key) appointments.

Definition memberOf (appointment : Row.t) : Profile.t :=
  match Row.profiles appointment with
  | Some profile => profile
  | None => defaultMember
  end.

(** The record is one that is pushed after the webhook request was sent. *)
Definition afterRequest (record : outcome) : bool :=
  match record with
  | StatusSuccess _ _ _ => true
  | StatusError _ _ => true
  | StatusSkipped _ _ => false
  end.

(** The name under which [generateAgendaImage] stores the image. *)
Definition imageFileName (world : World.t) (organization : Organization.t) (date : string)
  : string :=
  "agenda-" ++ Organization.id organization ++ "-" ++ date ++ "-"
  ++ Z_toString (Host.now (World.host world)) ++ ".png".

(** The record has the status 'success'. *)
Definition succeeded (record : outcome) : bool :=
  match record with
  | StatusSuccess _ _ _ => true
  | _ => false
  end.

(** The grouping of the rows of every configuration of the run completes. *)
Definition groupingCompletes (world : World.t) (configs : list Config.t) : Prop :=
  forall config appointments,
    In config configs ->
    World.selectAppointments world (Config.organization_id config) (World.today world)
    = QueryData (Some appointments) ->
    exists memberGroups, grouping appointments = Ok memberGroups.

(** The record pushed for a configuration, as a list. *)
Definition pushed (record : option outcome) : list outcome :=
  match record with
  | Some r => [r]
  | None => []
  end.

(** ** Which configurations are due (source lines 59-94) *)

(** [parseInt(s)] on the hour and minute parts of a formatted time: an
    optional sign and the longest run of decimal digits that follows; NaN when
    there is none. (Leading blanks and radix prefixes are outside this
    model.) *)
Definition isDigit (c : ascii) : bool :=
  match c with
  | "0" | "1" | "2" | "3" | "4" | "5" | "6" | "7" | "8" | "9" => true
  | _ => false
  end%char.

Fixpoint digitPrefix (s : string) : string :=
  match s with
  | EmptyString => EmptyString
  | String c s' => if isDigit c then String c (digitPrefix s') else EmptyString
  end.

Definition parseInt (s : string) : number :=
  match s with
  | String "-" s' => neg (digits (digitPrefix s'))
  | String "+" s' => digits (digitPrefix s')
  | _ => digits (digitPrefix s)
  end.

(** A row of [whatsapp_agenda_config]: what the loop body reads, and the
    two columns the filter reads. *)
Module Enabled.
Record t : Type := {
  config : Config.t;
  timezone : string;
  send_time : string
}.
End Enabled.

(** The time of the run as the filter sees it: [now.getHours()], and the
    hour and minute parts [Intl.DateTimeFormat] gives for a time zone ([None]
    when the formatter throws, as it does for an unknown zone). *)
Module Clock.
Record t : Type := {
  getHours : Z;
  formatToParts : string -> option (string * string)
}.
End Clock.

(** The first element of [send_time.split(':').map(Number)]. *)
Definition configHour (send_time : string) : number :=
  match map Number (split ":" send_time) with
  | hour :: _ => hour
  | [] => NaN
  end.

(** The callback of [configs.filter]: the [try] block, and the [catch]
    block with its fixed offset. *)
Definition shouldProcess (clock : Clock.t) (row : Enabled.t) : bool :=
  match Clock.formatToParts clock (Enabled.timezone row) with
  | Some (hour, minute) =>
      let orgCurrentHour := parseInt hour in
      strict_eq orgCurrentHour (configHour (Enabled.send_time row))
  | None =>
      let orgCurrentHour := rem (Num (Clock.getHours clock - 5 + 24)) 24 in
      strict_eq orgCurrentHour (configHour (Enabled.send_time row))
  end.

Definition configsToProcess (clock : Clock.t) (configs : list Enabled.t) : list Config.t :=
  map Enabled.config (filter (shouldProcess clock) configs).

(** ** The image service (src/unnamed/part_000, lines 38-201) *)

Module Server.

(** How an awaited call of a collaborator ends: it resolves, or it rejects
    with an error of the given message. *)
Inductive step : Type :=
| Done
| Fails (message : string).

Inductive shot : Type :=
| Shot (imageBuffer : string)
| ShotFails (message : string).

(** The headless browser as the service meets it during one request:
    whether the kept instance reports to be connected, and how each call
    ends. *)
Module Chrome.
Record t : Type := {
  isConnected : bool;
  launch : step;
  newPage : step;
  setViewport : step;
  setContent : string -> step;
  waitForTimeout : step;
  screenshot : shot;
  close : step
}.
End Chrome.

Module Storage.
Record t : Type := {
  upload : string -> string -> step;
  getPublicUrl : string -> string
}.
End Storage.

(** The calls made, in order. *)
Inductive call : Type :=
| Launch
| NewPage
| SetViewport
| SetContent (htmlContent : string)
| WaitForTimeout
| Screenshot
| ClosePage
| Upload (filename : string)
| GetPublicUrl (filename : string).

(** [getBrowser]: [browserInstance] is kept when there is one and it is
    connected; otherwise a browser is launched and kept. The state is whether
    [browserInstance] is set. *)
Definition getBrowser (browserInstance : bool) (chrome : Chrome.t)
  : list call * step * bool :=
  if negb browserInstance || negb (Chrome.isConnected chrome) then
    match Chrome.launch chrome with
    | Done => ([Launch], Done, true)
    | Fails message => ([Launch], Fails message, browserInstance)
    end
  else ([], Done, browserInstance).

(** The [finally] block of [htmlToImage] once a page is open: the page is
    closed, and a rejection of [close] replaces the outcome so far. *)
Definition closing (chrome : Chrome.t) (calls : list call) (outcome : shot)
  : list call * shot :=
  match Chrome.close chrome with
  | Done => ((calls ++ [ClosePage])%list, outcome)
  | Fails message => ((calls ++ [ClosePage])%list, ShotFails message)
  end.

(** What the [catch] block throws. *)
Definition renderError (message : string) : shot :=
  ShotFails ("Error en generación de imagen: " ++ message).

Definition htmlToImage (browserInstance : bool) (chrome : Chrome.t) (htmlContent : string)
  : list call * shot * bool :=
  match getBrowser browserInstance chrome with
  | (calls, Fails message, kept) => (calls, renderError message, kept)
  | (calls, Done, kept) =>
      match Chrome.newPage chrome with
      | Fails message => ((calls ++ [NewPage])%list, renderError message, kept)
      | Done =>
          let '(calls', outcome) :=
            match Chrome.setViewport chrome with
            | Fails message =>
                closing chrome (calls ++ [NewPage; SetViewport])%list (renderError message)
            | Done =>
                match Chrome.setContent chrome htmlContent with
                | Fails message =>
                    closing chrome
                      (calls ++ [NewPage; SetViewport; SetContent htmlContent])%list
                      (renderError message)
                | Done =>
                    match Chrome.waitForTimeout chrome with
                    | Fails message =>
                        closing chrome
                          (calls ++ [NewPage; SetViewport; SetContent htmlContent;
                                     WaitForTimeout])%list
                          (renderError message)
                    | Done =>
                        closing chrome
                          (calls ++ [NewPage; SetViewport; SetContent htmlContent;
                                     WaitForTimeout; Screenshot])%list
                          (match Chrome.screenshot chrome with
                           | Shot imageBuffer => Shot imageBuffer
                           | ShotFails message => renderError message
                           end)
                    end
                end
            end in
          (calls', outcome, kept)
      end
  end.

(** [uploadImageToSupabase]: the public URL, or the error it throws. *)
Definition uploadImageToSupabase (storage : Storage.t) (imageBuffer filename : string)
  : list call * (string + string) :=
  match Storage.upload storage filename imageBuffer with
  | Fails message => ([Upload filename], inr ("Error subiendo imagen: " ++ message))
  | Done =>
      ([Upload filename; GetPublicUrl filename], inl (Storage.getPublicUrl storage filename))
  end.

(** The body of the request (its two fields, when they are strings) and
    the reply. *)
Module Body.
Record t : Type := { htmlContent : option string; filename : option string }.
End Body.

Module Reply.
Record t : Type := {
  status : Z;
  success : bool;
  imageUrl : option string;
  processingTime : option Z;
  message : option string;
  error : option string
}.
End Reply.

(** The handler of [POST /generate-image]; [startTime] and [endTime] are
    the readings of [Date.now()] on entry and when the reply is built. *)
Definition generateImage (browserInstance : bool) (chrome : Chrome.t) (storage : Storage.t)
  (startTime endTime : Z) (body : Body.t) : list call * Reply.t * bool :=
  match Body.htmlContent body with
  | Some (String c html) =>
      match Body.filename body with
      | Some (String c' name) =>
          match htmlToImage browserInstance chrome (String c html) with
          | (calls, ShotFails message, kept) =>
              (calls,
               {| Reply.status := 500; Reply.success := false; Reply.imageUrl := None;
                  Reply.processingTime := Some (endTime - startTime);
                  Reply.message := None; Reply.error := Some message |},
               kept)
          | (calls, Shot imageBuffer, kept) =>
              match uploadImageToSupabase storage imageBuffer (String c' name) with
              | (calls', inr message) =>
                  ((calls ++ calls')%list,
                   {| Reply.status := 500; Reply.success := false; Reply.imageUrl := None;
                      Reply.processingTime := Some (endTime - startTime);
                      Reply.message := None; Reply.error := Some message |},
                   kept)
              | (calls', inl imageUrl) =>
                  ((calls ++ calls')%list,
                   {| Reply.status := 200; Reply.success := true;
                      Reply.imageUrl := Some imageUrl;
                      Reply.processingTime := Some (endTime - startTime);
                      Reply.message := Some "Imagen generada y subida exitosamente";
                      Reply.error := None |},
                   kept)
              end
          end
      | _ =>
          ([],
           {| Reply.status := 400; Reply.success := false; Reply.imageUrl := None;
              Reply.processingTime := None; Reply.message := None;
              Reply.error := Some "filename es requerido" |},
           browserInstance)
      end
  | _ =>
      ([],
       {| Reply.status := 400; Reply.success := false; Reply.imageUrl := None;
          Reply.processingTime := None; Reply.message := None;
          Reply.error := Some "htmlContent es requerido" |},
       browserInstance)
  end.

(** The number of [page.close()] calls, and whether a page gets opened. *)
Definition closeCount (calls : list call) : nat :=
  List.length (filter (fun c => match c with ClosePage => true | _ => false end) calls).

Definition pageOpened (browserInstance : bool) (chrome : Chrome.t) : bool :=
  match getBrowser browserInstance chrome with
  | (_, Done, _) => match Chrome.newPage chrome with Done => true | Fails _ => false end
  | (_, Fails _, _) => false
  end.

(** A chrome and a storage where every call resolves. *)
Definition sampleChrome : Chrome.t :=
  {| Chrome.isConnected := true; Chrome.launch := Done; Chrome.newPage := Done;
     Chrome.setViewport := Done; Chrome.setContent := fun _ => Done;
     Chrome.waitForTimeout := Done; Chrome.screenshot := Shot "png";
     Chrome.close := Done |}.

Definition sampleStorage : Storage.t :=
  {| Storage.upload := fun _ _ => Done;
     Storage.getPublicUrl := fun filename => "https://storage.example/" ++ filename |}.

End Server.

(** * Properties *)

(** ** Decimal text of integers *)

Lemma Number_Z_toString (z : Z) : Number (Z_toString z) = Num z.
Proof.
  destruct z as [|p|p]; [reflexivity| |].
  - unfold Z_toString; cbn [Z.to_int NilZero.string_of_int].
    assert (Hn : Pos.to_uint p <> Decimal.Nil) by apply Unsigned.to_uint_nonnil.
    assert (Hd : digits (NilZero.string_of_uint (Pos.to_uint p)) = Num (Z.pos p)).
    { unfold digits. rewrite NilZero.usu by exact Hn.
      unfold Z.of_uint. now rewrite Unsigned.of_to. }
    rewrite <- Hd.
    destruct (Pos.to_uint p); reflexivity.
  - unfold Z_toString; cbn [Z.to_int NilZero.string_of_int Number].
    unfold digits.
    rewrite NilZero.usu by apply Unsigned.to_uint_nonnil.
    unfold Z.of_uint. now rewrite Unsigned.of_to.
Qed.

Lemma Z_toString_nonempty (z : Z) : Z_toString z <> EmptyString.
Proof.
  intros H. pose proof (Number_Z_toString z) as Hn. rewrite H in Hn.
  cbn in Hn. injection Hn as <-. discriminate H.
Qed.

Lemma Number_pad_one_char (c : ascii) (z : Z) :
  0 <= z -> Number (String c EmptyString) = Num z ->
  Number (String "0" (String c EmptyString)) = Num z.
Proof.
  intros Hz.
  destruct c as [[|] [|] [|] [|] [|] [|] [|] [|]]; cbn; intros H;
    try discriminate H; try exact H.
Qed.

Lemma Number_padStart2 (z : Z) : 0 <= z -> Number (padStart2 (Z_toString z)) = Num z.
Proof.
  intros Hz. pose proof (Number_Z_toString z) as Hn.
  pose proof (Z_toString_nonempty z) as Hne.
  destruct (Z_toString z) as [|c [|c' s]]; [now elim Hne| |exact Hn].
  cbn [padStart2]. now apply Number_pad_one_char.
Qed.

Lemma padStart2_length (s : string) : (2 <= String.length (padStart2 s))%nat.
Proof. destruct s as [|c [|c' s]]; cbn; lia. Qed.

Lemma padStart2_small (z : Z) :
  0 <= z < 100 -> String.length (padStart2 (Z_toString z)) = 2%nat.
Proof.
  intros Hz.
  assert (Hall : forallb (fun n => Nat.eqb (String.length (padStart2 (Z_toString (Z.of_nat n)))) 2)
                         (seq 0 100) = true) by (vm_compute; reflexivity).
  rewrite forallb_forall in Hall.
  specialize (Hall (Z.to_nat z)).
  rewrite Z2Nat.id in Hall by lia.
  apply Nat.eqb_eq, Hall, in_seq. lia.
Qed.

(** ** Splitting at the colon *)

Lemma split_free (sep : ascii) (s : string) : free_of sep s = true -> split sep s = [s].
Proof.
  induction s as [|c s IH]; cbn; [reflexivity|].
  intros H. apply andb_true_iff in H as [Hc Hs].
  apply negb_true_iff in Hc. rewrite Hc, (IH Hs). reflexivity.
Qed.

Lemma split_app (sep : ascii) (a b : string) :
  free_of sep a = true -> split sep (a ++ String sep b) = a :: split sep b.
Proof.
  induction a as [|c a IH]; cbn.
  - intros _. now rewrite Ascii.eqb_refl.
  - intros H. apply andb_true_iff in H as [Hc Ha].
    apply negb_true_iff in Hc. rewrite Hc, (IH Ha). reflexivity.
Qed.

Lemma free_of_uint (d : Decimal.uint) : free_of ":" (NilEmpty.string_of_uint d) = true.
Proof. induction d; cbn; auto. Qed.

Lemma free_of_Z_toString (z : Z) : free_of ":" (Z_toString z) = true.
Proof.
  assert (Hu : forall d, free_of ":" (NilZero.string_of_uint d) = true).
  { intros d. destruct d; try reflexivity; apply (free_of_uint (_ d)). }
  unfold Z_toString. destruct (Z.to_int z); cbn [NilZero.string_of_int]; [apply Hu|].
  cbn. apply Hu.
Qed.

Lemma free_of_padStart2 (sep : ascii) (s : string) :
  free_of sep "0" = true -> free_of sep s = true -> free_of sep (padStart2 s) = true.
Proof.
  intros H0 Hs. destruct s as [|c [|c' s]]; cbn [padStart2]; [|
    |exact Hs].
  - cbn in *. apply andb_true_iff in H0 as [-> _]. reflexivity.
  - cbn in *. apply andb_true_iff in H0 as [-> _]. exact Hs.
Qed.

(** ** Reading back a printed time *)

Lemma minutesToTime_parts (m : Z) :
  minutesToTime (Num m)
  = padStart2 (Z_toString (m / 60)) ++ ":" ++ padStart2 (Z_toString (Z.rem m 60)).
Proof. reflexivity. Qed.

Lemma timeToMinutes_fields (H M : string) :
  free_of ":" H = true -> free_of ":" M = true ->
  timeToMinutes (H ++ ":" ++ M) = add (mul (Number H) (Num 60)) (Number M).
Proof.
  intros HH HM. unfold timeToMinutes.
  change (H ++ ":" ++ M) with (H ++ String ":" M).
  rewrite split_app by exact HH. rewrite split_free by exact HM. reflexivity.
Qed.

Lemma timeToMinutes_minutesToTime (m : Z) :
  0 <= m -> timeToMinutes (minutesToTime (Num m)) = Num m.
Proof.
  intros Hm. rewrite minutesToTime_parts.
  rewrite timeToMinutes_fields
    by (apply free_of_padStart2; [reflexivity|apply free_of_Z_toString]).
  rewrite Z.rem_mod_nonneg by lia.
  rewrite !Number_padStart2.
  - cbn. f_equal. pose proof (Z.div_mod m 60). lia.
  - apply Z.mod_pos_bound. lia.
  - apply Z.div_pos; lia.
Qed.

Example timeToMinutes_0730 : timeToMinutes "07:30" = Num 450.
Proof. reflexivity. Qed.

Example timeToMinutes_with_seconds : timeToMinutes "07:30:00" = Num 450.
Proof. reflexivity. Qed.

Example timeToMinutes_without_colon : timeToMinutes "0730" = NaN.
Proof. reflexivity. Qed.

Example minutesToTime_645 : minutesToTime (Num 645) = "10:45".
Proof. reflexivity. Qed.

Example minutesToTime_below_zero : minutesToTime (Num (-10)) = "-1:-10".
Proof. reflexivity. Qed.

Example minutesToTime_of_NaN : minutesToTime NaN = "NaN:NaN".
Proof. reflexivity. Qed.

(** ** [minutesToTime] *)

(** C7, as stated, fails: 1500 minutes print as 25:00, not as 01:00. *)
Lemma minutesToTime_1500_is_not_wrapped :
  minutesToTime (Num 1500) = "25:00" /\ minutesToTime (Num 1500) <> "01:00".
Proof. split; [reflexivity|discriminate]. Qed.

(** C7 (amended). For a non-negative number of minutes, [minutesToTime]
    returns an hour field and a minute field joined by a colon, each left-padded
    with a zero to two characters: the hour field reads as the floor of
    minutes/60, not reduced modulo 24, and the minute field as minutes mod 60.
    Below 1440 the hour field has two characters and is under 24; from 1440 on
    it is 24 or more. [timeToMinutes] reads the text back as the same number. *)
Theorem minutesToTime_hours_not_wrapped (m : Z) :
  0 <= m ->
  exists H M : string,
    minutesToTime (Num m) = H ++ ":" ++ M
    /\ Number H = Num (m / 60)
    /\ Number M = Num (m mod 60)
    /\ (2 <= String.length H)%nat
    /\ String.length M = 2%nat
    /\ (m < 1440 -> String.length H = 2%nat /\ 0 <= m / 60 < 24)
    /\ (1440 <= m -> 24 <= m / 60)
    /\ timeToMinutes (minutesToTime (Num m)) = Num m.
Proof.
  intros Hm.
  assert (Hq : 0 <= m / 60) by (apply Z.div_pos; lia).
  assert (Hr : 0 <= m mod 60 < 60) by (apply Z.mod_pos_bound; lia).
  exists (padStart2 (Z_toString (m / 60))), (padStart2 (Z_toString (m mod 60))).
  repeat split.
  - rewrite minutesToTime_parts, Z.rem_mod_nonneg by lia. reflexivity.
  - now apply Number_padStart2.
  - apply Number_padStart2. lia.
  - apply padStart2_length.
  - apply padStart2_small. lia.
  - apply padStart2_small. split; [lia|].
    apply Z.lt_trans with 24; [apply Z.div_lt_upper_bound|]; lia.
  - exact Hq.
  - apply Z.div_lt_upper_bound; lia.
  - intros Hbig. apply Z.div_le_lower_bound; lia.
  - now apply timeToMinutes_minutesToTime.
Qed.

Lemma minutesToTime_hours_not_wrapped_witness :
  exists H M : string,
    minutesToTime (Num 1500) = H ++ ":" ++ M
    /\ Number H = Num (1500 / 60)
    /\ Number M = Num (1500 mod 60)
    /\ (2 <= String.length H)%nat
    /\ String.length M = 2%nat
    /\ (1500 < 1440 -> String.length H = 2%nat /\ 0 <= 1500 / 60 < 24)
    /\ (1440 <= 1500 -> 24 <= 1500 / 60)
    /\ timeToMinutes (minutesToTime (Num 1500)) = Num 1500.
Proof. apply (minutesToTime_hours_not_wrapped 1500). lia. Defined.

(** ** End-time derivation *)

Lemma deriveEndTime_explicit (apt : Row.t) (e : string) :
  Row.end_time apt = Some e -> e <> EmptyString -> deriveEndTime apt = e.
Proof.
  intros He Hne. unfold deriveEndTime. rewrite He.
  destruct e as [|c e]; [now elim Hne|reflexivity].
Qed.

Lemma deriveEndTime_duration (apt : Row.t) (d : Z) :
  truthy_string (Row.end_time apt) = false -> serviceDuration apt = Some d -> d <> 0 ->
  deriveEndTime apt = minutesToTime (add (timeToMinutes (Row.start_time apt)) (Num d)).
Proof.
  intros He Hd Hnz. unfold deriveEndTime. rewrite He, Hd.
  destruct d; [now elim Hnz| |]; reflexivity.
Qed.

Lemma deriveEndTime_default (apt : Row.t) :
  truthy_string (Row.end_time apt) = false -> truthy_number (serviceDuration apt) = false ->
  deriveEndTime apt = minutesToTime (add (timeToMinutes (Row.start_time apt)) (Num 30)).
Proof. intros He Hd. unfold deriveEndTime. rewrite He, Hd. reflexivity. Qed.

Lemma convertAppointment_end_time (apt : Row.t) (a : Appointment.t) :
  convertAppointment apt = Ok a -> Appointment.end_time a = deriveEndTime apt.
Proof.
  unfold convertAppointment.
  destruct (Row.contacts apt); [|discriminate].
  destruct (Row.services apt); [|discriminate].
  intros [= <-]. reflexivity.
Qed.

(** C4, as stated, fails: a known duration of 0 does not give start + 0. *)
Lemma zero_duration_is_not_added :
  serviceDuration (sampleRow "10:00" None (Some 0) None) = Some 0
  /\ deriveEndTime (sampleRow "10:00" None (Some 0) None) = "10:30"
  /\ timeToMinutes (deriveEndTime (sampleRow "10:00" None (Some 0) None))
     <> add (timeToMinutes "10:00") (Num 0).
Proof. repeat split; discriminate. Qed.

(** C4 (amended). For every appointment: a non-empty explicit end time is
    used verbatim, whatever the service duration; otherwise a known duration
    other than 0 gives the text of start + duration, which reads back as
    start + duration when that is not negative (10:00 with 45 minutes ends at
    10:45); otherwise (no duration, or a duration of 0) the end is
    start + 30. The converted appointment carries that end time. *)
Theorem end_time_precedence :
  (forall apt : Row.t,
     (forall e, Row.end_time apt = Some e -> e <> EmptyString -> deriveEndTime apt = e)
     /\ (truthy_string (Row.end_time apt) = false ->
         forall d, serviceDuration apt = Some d -> d <> 0 ->
           deriveEndTime apt
           = minutesToTime (add (timeToMinutes (Row.start_time apt)) (Num d))
           /\ forall s, timeToMinutes (Row.start_time apt) = Num s -> 0 <= s + d ->
                timeToMinutes (deriveEndTime apt) = Num (s + d))
     /\ (truthy_string (Row.end_time apt) = false ->
         truthy_number (serviceDuration apt) = false ->
           deriveEndTime apt
           = minutesToTime (add (timeToMinutes (Row.start_time apt)) (Num 30))
           /\ forall s, timeToMinutes (Row.start_time apt) = Num s -> 0 <= s + 30 ->
                timeToMinutes (deriveEndTime apt) = Num (s + 30))
     /\ (forall a, convertAppointment apt = Ok a ->
           Appointment.end_time a = deriveEndTime apt))
  /\ deriveEndTime (sampleRow "10:00" (Some "10:20") (Some 45) None) = "10:20"
  /\ deriveEndTime (sampleRow "10:00" None (Some 45) None) = "10:45"
  /\ deriveEndTime (sampleRow "10:00" None None None) = "10:30".
Proof.
  split; [|repeat split].
  intros apt. split; [|split; [|split]].
  - apply deriveEndTime_explicit.
  - intros He d Hd Hnz.
    rewrite (deriveEndTime_duration apt d He Hd Hnz). split; [reflexivity|].
    intros s Hs Hpos. rewrite Hs. cbn [add].
    now apply timeToMinutes_minutesToTime.
  - intros He Hd. rewrite (deriveEndTime_default apt He Hd). split; [reflexivity|].
    intros s Hs Hpos. rewrite Hs. cbn [add].
    now apply timeToMinutes_minutesToTime.
  - apply convertAppointment_end_time.
Qed.

Lemma end_time_precedence_witness :
  timeToMinutes (deriveEndTime (sampleRow "10:00" None (Some 45) None)) = Num (600 + 45).
Proof.
  refine (proj2 (proj1 (proj2 (proj1 end_time_precedence
                                 (sampleRow "10:00" None (Some 45) None)))
                       _ 45 _ _) 600 _ _).
  - reflexivity.
  - reflexivity.
  - discriminate.
  - reflexivity.
  - lia.
Defined.

(** C10. With no explicit end time and a service whose [duration_minutes]
    is 0, the derived end is start + 30, not start + 0: the appointment is
    treated exactly as one whose duration is unknown. *)
Theorem zero_duration_takes_default (apt : Row.t) (sv : Service.t) :
  truthy_string (Row.end_time apt) = false ->
  Row.services apt = Some sv ->
  Service.duration_minutes sv = Some 0 ->
  deriveEndTime apt = minutesToTime (add (timeToMinutes (Row.start_time apt)) (Num 30))
  /\ deriveEndTime apt = deriveEndTime (withDuration apt None)
  /\ (forall a, convertAppointment apt = Ok a ->
        Appointment.end_time a
        = minutesToTime (add (timeToMinutes (Row.start_time apt)) (Num 30)))
  /\ (forall s, timeToMinutes (Row.start_time apt) = Num s -> 0 <= s ->
        timeToMinutes (deriveEndTime apt) = Num (s + 30)
        /\ timeToMinutes (deriveEndTime apt) <> Num (s + 0)).
Proof.
  intros He Hsv Hd.
  assert (Hdur : truthy_number (serviceDuration apt) = false).
  { unfold serviceDuration. rewrite Hsv, Hd. reflexivity. }
  assert (Hdef := deriveEndTime_default apt He Hdur).
  split; [exact Hdef|]. split; [|split].
  - rewrite Hdef. symmetry. apply (deriveEndTime_default (withDuration apt None)).
    + exact He.
    + unfold serviceDuration, withDuration. cbn. now rewrite Hsv.
  - intros a Ha. rewrite (convertAppointment_end_time apt a Ha). exact Hdef.
  - intros s Hs Hpos. rewrite Hdef, Hs. cbn [add].
    rewrite timeToMinutes_minutesToTime by lia.
    split; [reflexivity|]. intros [= H]. lia.
Qed.

Lemma zero_duration_takes_default_witness :
  deriveEndTime (sampleRow "10:00" None (Some 0) None)
  = minutesToTime (add (timeToMinutes "10:00") (Num 30))
  /\ deriveEndTime (sampleRow "10:00" None (Some 0) None)
     = deriveEndTime (withDuration (sampleRow "10:00" None (Some 0) None) None)
  /\ (forall a, convertAppointment (sampleRow "10:00" None (Some 0) None) = Ok a ->
        Appointment.end_time a = minutesToTime (add (timeToMinutes "10:00") (Num 30)))
  /\ (forall s, timeToMinutes "10:00" = Num s -> 0 <= s ->
        timeToMinutes (deriveEndTime (sampleRow "10:00" None (Some 0) None)) = Num (s + 30)
        /\ timeToMinutes (deriveEndTime (sampleRow "10:00" None (Some 0) None))
           <> Num (s + 0)).
Proof.
  apply (zero_duration_takes_default
           (sampleRow "10:00" None (Some 0) None)
           {| Service.name := "Corte"; Service.duration_minutes := Some 0 |});
    reflexivity.
Defined.

(** ** The view window *)

Lemma Z_ceil_spec (x d : Z) : 0 < d -> (Z_ceil x d - 1) * d < x <= Z_ceil x d * d.
Proof.
  intros Hd. unfold Z_ceil.
  pose proof (Z.div_mod (- x) d ltac:(lia)) as Hdm.
  pose proof (Z.mod_pos_bound (- x) d Hd) as Hb. nia.
Qed.

Lemma scanMembers_flat (members : list Member.t) (acc : number * number) :
  fold_left
    (fun acc member => fold_left scanAppointment (Member.appointments member) acc)
    members acc
  = fold_left scanAppointment (allAppointments members) acc.
Proof.
  revert acc. induction members as [|member members IH]; intros acc; [reflexivity|].
  cbn [fold_left allAppointments flat_map]. rewrite fold_left_app. apply IH.
Qed.

(** The scan keeps two integers: the least of the initial value and the
    numeric starts, the greatest of the initial value and the numeric ends. *)
Lemma scan_spec (appointments : list Appointment.t) (e0 l0 : Z) :
  exists e1 l1,
    fold_left scanAppointment appointments (Num e0, Num l0) = (Num e1, Num l1)
    /\ (forall a s, In a appointments ->
          timeToMinutes (Appointment.start_time a) = Num s -> e1 <= s)
    /\ (e1 = e0 \/ exists a, In a appointments
                             /\ timeToMinutes (Appointment.start_time a) = Num e1)
    /\ e1 <= e0
    /\ (forall a e, In a appointments ->
          timeToMinutes (Appointment.end_time a) = Num e -> e <= l1)
    /\ (l1 = l0 \/ exists a, In a appointments
                             /\ timeToMinutes (Appointment.end_time a) = Num l1)
    /\ l0 <= l1.
Proof.
  revert e0 l0. induction appointments as [|a rest IH]; intros e0 l0.
  - exists e0, l0. cbn. repeat split; auto; try lia; intros ? ? [].
  - cbn [fold_left]. unfold scanAppointment at 2.
    set (e0' := match timeToMinutes (Appointment.start_time a) with
                | Num s => if s <? e0 then s else e0
                | NaN => e0
                end).
    set (l0' := match timeToMinutes (Appointment.end_time a) with
                | Num e => if l0 <? e then e else l0
                | NaN => l0
                end).
    assert (He : (if lt (timeToMinutes (Appointment.start_time a)) (Num e0)
                  then timeToMinutes (Appointment.start_time a) else Num e0) = Num e0').
    { unfold e0'. destruct (timeToMinutes (Appointment.start_time a)) as [|s]; cbn;
        [reflexivity|]. now destruct (s <? e0). }
    assert (Hl : (if gt (timeToMinutes (Appointment.end_time a)) (Num l0)
                  then timeToMinutes (Appointment.end_time a) else Num l0) = Num l0').
    { unfold l0'. destruct (timeToMinutes (Appointment.end_time a)) as [|e]; cbn;
        [reflexivity|]. now destruct (l0 <? e). }
    rewrite He, Hl.
    destruct (IH e0' l0') as (e1 & l1 & Hfold & Hlow & Hmin & Hle & Hup & Hmax & Hge).
    exists e1, l1. split; [exact Hfold|].
    assert (He0 : e0' <= e0 /\ (e0' = e0 \/ timeToMinutes (Appointment.start_time a) = Num e0')
                  /\ forall s, timeToMinutes (Appointment.start_time a) = Num s -> e0' <= s).
    { unfold e0'. destruct (timeToMinutes (Appointment.start_time a)) as [|s].
      - repeat split; auto; [lia|discriminate].
      - destruct (Z.ltb_spec s e0); repeat split; auto; try lia;
          intros ? [= <-]; lia. }
    assert (Hl0 : l0 <= l0' /\ (l0' = l0 \/ timeToMinutes (Appointment.end_time a) = Num l0')
                  /\ forall e, timeToMinutes (Appointment.end_time a) = Num e -> e <= l0').
    { unfold l0'. destruct (timeToMinutes (Appointment.end_time a)) as [|e].
      - repeat split; auto; [lia|discriminate].
      - destruct (Z.ltb_spec l0 e); repeat split; auto; try lia;
          intros ? [= <-]; lia. }
    destruct He0 as (He0a & He0b & He0c). destruct Hl0 as (Hl0a & Hl0b & Hl0c).
    repeat split.
    + intros b s [<-|Hin] Hs; [specialize (He0c s Hs); lia|eauto].
    + destruct Hmin as [->|(b & Hin & Hb)].
      * destruct He0b as [->|Hb]; [now left|right]. exists a. split; [now left|exact Hb].
      * right. exists b. split; [now right|exact Hb].
    + lia.
    + intros b e [<-|Hin] Hs; [specialize (Hl0c e Hs); lia|eauto].
    + destruct Hmax as [->|(b & Hin & Hb)].
      * destruct Hl0b as [->|Hb]; [now left|right]. exists a. split; [now left|exact Hb].
      * right. exists b. split; [now right|exact Hb].
    + lia.
Qed.

Lemma scanMembers_empty (members : list Member.t) :
  allAppointments members = [] -> scanMembers members = (Num 1440, Num 0).
Proof. intros H. unfold scanMembers. rewrite scanMembers_flat, H. reflexivity. Qed.

(** What the scan leaves: the least start when it is below the initial
    value 24:00, and the greatest end when it is above the initial value 0. *)
Lemma scanMembers_extremes (members : list Member.t) (m M : Z) :
  earliestStart (allAppointments members) m -> latestEnd (allAppointments members) M ->
  m < 1440 -> scanMembers members = (Num m, Num (Z.max 0 M)).
Proof.
  intros [(a & Ha & Hsa) Hmin] [(b & Hb & Heb) Hmax] Hm.
  unfold scanMembers. rewrite scanMembers_flat.
  destruct (scan_spec (allAppointments members) (24 * 60) 0)
    as (e1 & l1 & -> & Hlow & He1 & Hle & Hup & Hl1 & Hge).
  f_equal; f_equal.
  - pose proof (Hlow a m Ha Hsa).
    destruct He1 as [->|(c & Hc & Hsc)]; [lia|]. pose proof (Hmin c e1 Hc Hsc). lia.
  - pose proof (Hup b M Hb Heb).
    destruct Hl1 as [->|(c & Hc & Hec)]; [lia|]. pose proof (Hmax c l1 Hc Hec). lia.
Qed.

(** C3, as stated, fails. A day with one appointment from 24:00 to 24:30
    has the least start 1440 and the greatest end 1470: the claimed window is
    hour 23 to hour 24, the computed one is 8 to 18. A day with one
    appointment whose times read as -180 and -120 minutes has the claimed end
    hour -1 and the computed end hour 1. *)
Lemma late_start_keeps_default_window :
  (allAppointments [sampleMember [("24:00", "24:30")]] <> []
   /\ earliestStart (allAppointments [sampleMember [("24:00", "24:30")]]) 1440
   /\ latestEnd (allAppointments [sampleMember [("24:00", "24:30")]]) 1470
   /\ Z.max 0 (1440 - 60) / 60 = 23
   /\ Z_ceil (Z.min 1440 (1470 + 60)) 60 = 24
   /\ Window.startHour (viewWindow [sampleMember [("24:00", "24:30")]]) = Num 8
   /\ Window.endHour (viewWindow [sampleMember [("24:00", "24:30")]]) = Num 18
   /\ Window.totalMinutes (viewWindow [sampleMember [("24:00", "24:30")]]) = Num 600)
  /\ (earliestStart (allAppointments [sampleMember [("-3:00", "-2:00")]]) (-180)
      /\ latestEnd (allAppointments [sampleMember [("-3:00", "-2:00")]]) (-120)
      /\ Z_ceil (Z.min 1440 (-120 + 60)) 60 = -1
      /\ Window.endHour (viewWindow [sampleMember [("-3:00", "-2:00")]]) = Num 1).
Proof.
  split.
  - split; [discriminate|]. split; [|split].
    + split; [eexists; split; [left; reflexivity|reflexivity]|].
      intros a s [<-|[]] [= <-]. lia.
    + split; [eexists; split; [left; reflexivity|reflexivity]|].
      intros a s [<-|[]] [= <-]. lia.
    + repeat split.
  - split; [|split].
    + split; [eexists; split; [left; reflexivity|reflexivity]|].
      intros a s [<-|[]] [= <-]. lia.
    + split; [eexists; split; [left; reflexivity|reflexivity]|].
      intros a s [<-|[]] [= <-]. lia.
    + split; reflexivity.
Qed.

(** C3 (amended). With no appointment at all the window is 8 to 18, 600
    minutes. Otherwise, when the least derived start [m] is before 24:00
    (below 1440), and with [M] the greatest derived end, counted as 0 when it
    is negative, the window starts at hour floor(max(0, m - 60) / 60), ends at
    hour ceil(min(1440, M + 60) / 60) and spans (endHour - startHour) * 60
    minutes. *)
Theorem viewWindow_spec (members : list Member.t) :
  (allAppointments members = [] ->
     Window.startHour (viewWindow members) = Num 8
     /\ Window.endHour (viewWindow members) = Num 18
     /\ Window.totalMinutes (viewWindow members) = Num 600)
  /\ (forall m M : Z,
        earliestStart (allAppointments members) m ->
        latestEnd (allAppointments members) M ->
        m < 1440 ->
        Window.startHour (viewWindow members) = Num (Z.max 0 (m - 60) / 60)
        /\ Window.endHour (viewWindow members)
           = Num (Z_ceil (Z.min 1440 (Z.max 0 M + 60)) 60)
        /\ Window.totalMinutes (viewWindow members)
           = Num ((Z_ceil (Z.min 1440 (Z.max 0 M + 60)) 60 - Z.max 0 (m - 60) / 60) * 60)
        /\ (0 <= M ->
            Window.endHour (viewWindow members) = Num (Z_ceil (Z.min 1440 (M + 60)) 60)
            /\ Window.totalMinutes (viewWindow members)
               = Num ((Z_ceil (Z.min 1440 (M + 60)) 60 - Z.max 0 (m - 60) / 60) * 60))).
Proof.
  split.
  - intros Hnone. unfold viewWindow. rewrite (scanMembers_empty members Hnone).
    repeat split.
  - intros m M Hm HM Hlt. unfold viewWindow.
    rewrite (scanMembers_extremes members m M Hm HM Hlt).
    cbn [strict_eq]. change (24 * 60) with 1440.
    destruct (Z.eqb_spec m 1440) as [->|_]; [lia|].
    cbn. split; [reflexivity|]. split; [reflexivity|]. split; [reflexivity|].
    intros HM0. now rewrite (Z.max_r 0 M HM0).
Qed.

Lemma viewWindow_spec_witness :
  Window.startHour (viewWindow [sampleMember [("07:30", "08:00")]]) = Num 6
  /\ Window.endHour (viewWindow [sampleMember [("22:00", "23:45")]]) = Num 24.
Proof.
  split.
  - refine (proj1 (proj2 (viewWindow_spec [sampleMember [("07:30", "08:00")]])
                         450 480 _ _ _)).
    + split; [eexists; split; [left; reflexivity|reflexivity]|].
      intros a s [<-|[]] [= <-]. lia.
    + split; [eexists; split; [left; reflexivity|reflexivity]|].
      intros a s [<-|[]] [= <-]. lia.
    + lia.
  - refine (proj1 (proj2 (proj2 (viewWindow_spec [sampleMember [("22:00", "23:45")]])
                                1320 1425 _ _ _))).
    + split; [eexists; split; [left; reflexivity|reflexivity]|].
      intros a s [<-|[]] [= <-]. lia.
    + split; [eexists; split; [left; reflexivity|reflexivity]|].
      intros a s [<-|[]] [= <-]. lia.
    + lia.
Defined.

(** ** The column search *)

Lemma bounded_search (P : nat -> bool) (n : nat) :
  (forall k, (k < n)%nat -> P k = true) \/ (exists k, (k < n)%nat /\ P k = false).
Proof.
  induction n as [|n [IH|(k & Hk & HP)]].
  - left. intros k Hk. lia.
  - destruct (P n) eqn:HP.
    + left. intros k Hk. destruct (Nat.eq_dec k n) as [->|]; [exact HP|apply IH; lia].
    + right. exists n. split; [lia|exact HP].
  - right. exists k. split; [lia|exact HP].
Qed.

Lemma busy_column (placed : list Placed.t) (s e : number) (c : nat) :
  busy placed s e c = true -> In c (map Placed.column placed).
Proof.
  unfold busy. rewrite existsb_exists. intros (p & Hp & Hc).
  unfold conflicts in Hc. apply andb_true_iff in Hc as [Hc _].
  apply Nat.eqb_eq in Hc. subst c. now apply in_map.
Qed.

(** Among the columns 0 .. length placed one is free: the busy ones are
    columns of distinct placed appointments. *)
Lemma free_column_exists (placed : list Placed.t) (s e : number) :
  exists k, (k < S (List.length placed))%nat /\ busy placed s e k = false.
Proof.
  destruct (bounded_search (busy placed s e) (S (List.length placed))) as [Hall|Hex];
    [exfalso|exact Hex].
  assert (Hincl : incl (seq 0 (S (List.length placed))) (map Placed.column placed)).
  { intros k Hk. apply in_seq in Hk. apply (busy_column placed s e), Hall. lia. }
  apply NoDup_incl_length in Hincl; [|apply seq_NoDup].
  rewrite length_seq, length_map in Hincl. lia.
Qed.

Lemma findColumn_least (placed : list Placed.t) (s e : number) (fuel c : nat) :
  (exists k, (k < fuel)%nat /\ busy placed s e (c + k) = false) ->
  busy placed s e (findColumn fuel placed s e c) = false
  /\ (c <= findColumn fuel placed s e c)%nat
  /\ forall c', (c <= c' < findColumn fuel placed s e c)%nat -> busy placed s e c' = true.
Proof.
  revert c. induction fuel as [|fuel IH]; intros c (k & Hk & Hfree); [lia|].
  cbn [findColumn]. fold (busy placed s e c).
  destruct (busy placed s e c) eqn:Hc.
  - destruct k as [|k]; [rewrite Nat.add_0_r in Hfree; congruence|].
    destruct (IH (S c)) as (Hf & Hle & Hbelow).
    { exists k. split; [lia|]. now replace (S c + k)%nat with (c + S k)%nat by lia. }
    split; [exact Hf|]. split; [lia|].
    intros c' Hc'. destruct (Nat.eq_dec c' c) as [->|]; [exact Hc|apply Hbelow; lia].
  - split; [exact Hc|]. split; [lia|]. intros c' Hc'. lia.
Qed.

(** The fuel given by [place] is never exhausted: the loop stops at the
    least free column. *)
Lemma findColumn_enough_fuel (placed : list Placed.t) (s e : number) :
  busy placed s e (findColumn (S (List.length placed)) placed s e O) = false
  /\ forall c', (c' < findColumn (S (List.length placed)) placed s e O)%nat ->
       busy placed s e c' = true.
Proof.
  destruct (findColumn_least placed s e (S (List.length placed)) O) as (Hf & _ & Hb).
  - destruct (free_column_exists placed s e) as (k & Hk & Hfree). now exists k.
  - split; [exact Hf|]. intros c' Hc'. apply Hb. lia.
Qed.

(** More fuel does not change the result. *)
Lemma findColumn_more_fuel (placed : list Placed.t) (s e : number) (fuel : nat) :
  (S (List.length placed) <= fuel)%nat ->
  findColumn fuel placed s e O = findColumn (S (List.length placed)) placed s e O.
Proof.
  intros Hfuel.
  destruct (findColumn_enough_fuel placed s e) as (Hf & Hb).
  destruct (findColumn_least placed s e fuel O) as (Hf' & _ & Hb').
  { destruct (free_column_exists placed s e) as (k & Hk & Hfree). exists k. split; [lia|exact Hfree]. }
  set (r := findColumn (S (List.length placed)) placed s e O) in *.
  set (r' := findColumn fuel placed s e O) in *.
  destruct (Nat.lt_trichotomy r' r) as [Hlt|[Heq|Hgt]]; [|exact Heq|].
  - rewrite (Hb r' Hlt) in Hf'. discriminate.
  - rewrite (Hb' r) in Hf by lia. discriminate.
Qed.

(** ** The placed list *)

Lemma assignColumns_snoc (sorted : list Appointment.t) (a : Appointment.t) :
  assignColumns (sorted ++ [a])%list = place (assignColumns sorted) a.
Proof. unfold assignColumns. now rewrite fold_left_app. Qed.

Lemma assignColumns_appointments (sorted : list Appointment.t) :
  map Placed.appointment (assignColumns sorted) = sorted.
Proof.
  induction sorted as [|a sorted IH] using rev_ind; [reflexivity|].
  rewrite assignColumns_snoc. unfold place. rewrite map_app, IH. reflexivity.
Qed.

Lemma snoc_split {A : Type} (l1 l2 x : list A) (q n : A) :
  (l1 ++ q :: l2 = x ++ [n])%list ->
  (l2 = [] /\ l1 = x /\ q = n)
  \/ (exists l2', l2 = (l2' ++ [n])%list /\ x = (l1 ++ q :: l2')%list).
Proof.
  intros H. destruct (rev l2) as [|z r] eqn:Hr.
  - apply (f_equal (@rev A)) in Hr. rewrite rev_involutive in Hr. cbn in Hr. subst l2.
    apply app_inj_tail in H as [-> ->]. now left.
  - apply (f_equal (@rev A)) in Hr. rewrite rev_involutive in Hr. cbn in Hr. subst l2.
    right. exists (rev r).
    change (l1 ++ q :: rev r ++ [z])%list with (l1 ++ (q :: rev r) ++ [z])%list in H.
    rewrite app_assoc in H. apply app_inj_tail in H as [<- ->]. split; reflexivity.
Qed.

(** Every placed appointment sits in the least column that was free among
    the appointments placed before it, and carries its own minutes. *)
Lemma placed_least_free (sorted : list Appointment.t) (before after : list Placed.t)
  (q : Placed.t) :
  assignColumns sorted = (before ++ q :: after)%list ->
  busy before (startMin (Placed.appointment q)) (endMin (Placed.appointment q))
       (Placed.column q) = false
  /\ (forall c, (c < Placed.column q)%nat ->
        busy before (startMin (Placed.appointment q)) (endMin (Placed.appointment q)) c = true)
  /\ Placed.startMinutes q = startMin (Placed.appointment q)
  /\ Placed.endMinutes q = endMin (Placed.appointment q)
  /\ Placed.duration q
     = sub (endMin (Placed.appointment q)) (startMin (Placed.appointment q)).
Proof.
  revert before after q.
  induction sorted as [|a sorted IH] using rev_ind; intros before after q H.
  - destruct before; discriminate H.
  - rewrite assignColumns_snoc in H. unfold place in H. symmetry in H.
    apply snoc_split in H as [(-> & -> & ->)|(after' & -> & Hx)].
    + cbn [Placed.appointment Placed.column Placed.startMinutes Placed.endMinutes
           Placed.duration].
      destruct (findColumn_enough_fuel (assignColumns sorted) (startMin a) (endMin a))
        as (Hf & Hb).
      repeat split; [exact Hf|exact Hb].
    + now apply (IH before after').
Qed.

(** ** Sorting by start time *)

Lemma insert_perm (a : Appointment.t) (l : list Appointment.t) :
  Permutation (insert a l) (a :: l).
Proof.
  induction l as [|b l IH]; cbn; [reflexivity|].
  destruct (notAfter a b); [reflexivity|].
  rewrite IH. apply perm_swap.
Qed.

Lemma sortByStart_perm (l : list Appointment.t) : Permutation (sortByStart l) l.
Proof.
  induction l as [|a l IH]; cbn; [constructor|].
  rewrite insert_perm. now constructor.
Qed.

Lemma startsBefore_trans (a b c : Appointment.t) :
  startsBefore a b -> startsBefore b c -> startsBefore a c.
Proof.
  intros (s & s' & Ha & Hb & Hle) (t & t' & Hb' & Hc & Hle').
  rewrite Hb in Hb'. injection Hb' as <-. exists s, t'. repeat split; auto; lia.
Qed.

Lemma notAfter_spec (a b : Appointment.t) :
  numericStart a -> numericStart b ->
  if notAfter a b then startsBefore a b else startsBefore b a.
Proof.
  intros (s & Ha) (s' & Hb). unfold notAfter, compareStart.
  fold (startMin a) (startMin b). rewrite Ha, Hb. cbn.
  destruct (Z.leb_spec (s - s') 0); [exists s, s'|exists s', s]; repeat split; auto; lia.
Qed.

Lemma insert_sorted (a : Appointment.t) (l : list Appointment.t) :
  numericStart a -> Forall numericStart l ->
  StronglySorted startsBefore l -> StronglySorted startsBefore (insert a l).
Proof.
  intros Ha Hnum Hsorted. induction Hsorted as [|b l Hs IH Hb]; cbn.
  - repeat constructor.
  - apply Forall_cons_iff in Hnum as [Hnb Hnl].
    pose proof (notAfter_spec a b Ha Hnb) as Hab.
    destruct (notAfter a b).
    + constructor; [now constructor|]. constructor; [exact Hab|].
      eapply Forall_impl; [|exact Hb]. intros c Hc. eapply startsBefore_trans; eassumption.
    + constructor; [now apply IH|].
      apply (Permutation_Forall (Permutation_sym (insert_perm a l))).
      now constructor.
Qed.

Lemma sortByStart_sorted (l : list Appointment.t) :
  Forall numericStart l -> StronglySorted startsBefore (sortByStart l).
Proof.
  induction 1 as [|a l Ha Hl IH]; cbn; [constructor|].
  apply insert_sorted; [exact Ha| |exact IH].
  apply (Permutation_Forall (Permutation_sym (sortByStart_perm l))). exact Hl.
Qed.

Lemma sorted_split (l1 l2 : list Appointment.t) (x : Appointment.t) :
  StronglySorted startsBefore (l1 ++ x :: l2)%list ->
  Forall (fun y => startsBefore y x) l1.
Proof.
  induction l1 as [|y l1 IH]; cbn; [constructor|].
  intros H. apply StronglySorted_inv in H as [Hs Hy]. constructor; [|now apply IH].
  rewrite Forall_forall in Hy. apply Hy, in_elt.
Qed.

(** ** Columns separate overlapping appointments *)

Lemma overlapping_sym (a b : Appointment.t) : overlapping a b = overlapping b a.
Proof. unfold overlapping. apply andb_comm. Qed.

Lemma busy_false (placed : list Placed.t) (s e : number) (c : nat) (p : Placed.t) :
  busy placed s e c = false -> In p placed -> conflicts s e c p = false.
Proof.
  intros Hb Hp. destruct (conflicts s e c p) eqn:Hc; [|reflexivity].
  assert (Ht : busy placed s e c = true) by (apply existsb_exists; eauto).
  congruence.
Qed.

Lemma le_true_lt_false (a b : number) : le a b = true -> lt b a = false.
Proof.
  destruct a as [|x], b as [|y]; cbn; try discriminate.
  intros H. apply Z.leb_le in H. apply Z.ltb_ge. exact H.
Qed.

Lemma conflicts_false_disjoint (q p : Placed.t) :
  conflicts (startMin (Placed.appointment q)) (endMin (Placed.appointment q))
            (Placed.column q) p = false ->
  Placed.column p = Placed.column q ->
  overlapping (Placed.appointment p) (Placed.appointment q) = false.
Proof.
  unfold conflicts, overlapping, ge. intros H Hc. rewrite Hc, Nat.eqb_refl in H.
  cbn [andb] in H. apply negb_false_iff, orb_true_iff in H.
  fold (startMin (Placed.appointment p)) (endMin (Placed.appointment p)) in H.
  destruct H as [H|H]; apply le_true_lt_false in H; rewrite H.
  - reflexivity.
  - apply andb_false_r.
Qed.

(** On numeric times the loop's test is the half-open test. *)
Lemma conflicts_is_half_open (a : Appointment.t) (c : nat) (p : Placed.t) :
  (exists s e, startMin a = Num s /\ endMin a = Num e) ->
  (exists s e, startMin (Placed.appointment p) = Num s
               /\ endMin (Placed.appointment p) = Num e) ->
  conflicts (startMin a) (endMin a) c p
  = Nat.eqb (Placed.column p) c && overlapping (Placed.appointment p) a.
Proof.
  intros (s & e & Hs & He) (s' & e' & Hs' & He').
  unfold conflicts, overlapping, ge.
  fold (startMin (Placed.appointment p)) (endMin (Placed.appointment p)).
  rewrite Hs, He, Hs', He'. cbn. f_equal.
  rewrite negb_orb, <- !Z.ltb_antisym. reflexivity.
Qed.

Lemma earlier_same_column_disjoint (sorted : list Appointment.t) (i j : nat) (p q : Placed.t) :
  (i < j)%nat ->
  nth_error (assignColumns sorted) i = Some p ->
  nth_error (assignColumns sorted) j = Some q ->
  Placed.column p = Placed.column q ->
  overlapping (Placed.appointment p) (Placed.appointment q) = false.
Proof.
  intros Hij Hp Hq Hc.
  destruct (nth_error_split _ _ Hq) as (before & after & Hsplit & Hlen).
  destruct (placed_least_free sorted before after q Hsplit) as (Hfree & _).
  apply conflicts_false_disjoint; [|exact Hc].
  apply (busy_false before); [exact Hfree|].
  rewrite Hsplit, nth_error_app1 in Hp by lia. eapply nth_error_In, Hp.
Qed.

Lemma processMember_appointments (member : Member.t) :
  Permutation (map Placed.appointment (ProcessedMember.appointments (processMember member)))
              (Member.appointments member).
Proof.
  open_processMember.
  rewrite assignColumns_appointments. apply sortByStart_perm.
Qed.

(** C2. Within one member, two appointments that are given the same column
    do not overlap under the half-open test (s1 < e2 and s2 < e1); every
    appointment of the member is placed once; on numeric times the test the
    loop applies is that half-open test. [9:00,9:30) and [9:30,10:00) share
    column 0; [9:00,9:30) and [9:15,9:45) get columns 0 and 1. *)
Theorem same_column_implies_disjoint :
  (forall (member : Member.t) (i j : nat) (p q : Placed.t),
     i <> j ->
     nth_error (ProcessedMember.appointments (processMember member)) i = Some p ->
     nth_error (ProcessedMember.appointments (processMember member)) j = Some q ->
     Placed.column p = Placed.column q ->
     overlapping (Placed.appointment p) (Placed.appointment q) = false)
  /\ (forall member : Member.t,
        Permutation
          (map Placed.appointment (ProcessedMember.appointments (processMember member)))
          (Member.appointments member))
  /\ (forall (a : Appointment.t) (c : nat) (p : Placed.t),
        (exists s e, startMin a = Num s /\ endMin a = Num e) ->
        (exists s e, startMin (Placed.appointment p) = Num s
                     /\ endMin (Placed.appointment p) = Num e) ->
        conflicts (startMin a) (endMin a) c p
        = Nat.eqb (Placed.column p) c && overlapping (Placed.appointment p) a)
  /\ map Placed.column
         (ProcessedMember.appointments
            (processMember (sampleMember [("09:00", "09:30"); ("09:30", "10:00")])))
     = [O; O]
  /\ map Placed.column
         (ProcessedMember.appointments
            (processMember (sampleMember [("09:00", "09:30"); ("09:15", "09:45")])))
     = [O; 1%nat].
Proof.
  split; [|split; [exact processMember_appointments|
                   split; [exact conflicts_is_half_open|split; reflexivity]]].
  intros member i j p q Hij Hp Hq Hc.
  unfold processMember in Hp, Hq; cbn [ProcessedMember.appointments] in Hp, Hq.
  destruct (Nat.lt_trichotomy i j) as [Hlt|[Heq|Hgt]]; [|contradiction|].
  - exact (earlier_same_column_disjoint _ i j p q Hlt Hp Hq Hc).
  - rewrite overlapping_sym.
    exact (earlier_same_column_disjoint _ j i q p Hgt Hq Hp (eq_sym Hc)).
Qed.

Lemma same_column_implies_disjoint_witness :
  overlapping (sampleAppointment ("09:00", "09:30")) (sampleAppointment ("09:30", "10:00"))
  = false.
Proof.
  refine (proj1 same_column_implies_disjoint
            (sampleMember [("09:00", "09:30"); ("09:30", "10:00")]) 0%nat 1%nat
            {| Placed.appointment := sampleAppointment ("09:00", "09:30");
               Placed.column := O;
               Placed.startMinutes := Num 540;
               Placed.endMinutes := Num 570;
               Placed.duration := Num 30 |}
            {| Placed.appointment := sampleAppointment ("09:30", "10:00");
               Placed.column := O;
               Placed.startMinutes := Num 570;
               Placed.endMinutes := Num 600;
               Placed.duration := Num 30 |} _ _ _ _).
  - discriminate.
  - reflexivity.
  - reflexivity.
  - reflexivity.
Defined.

(** ** Counting active appointments *)

Lemma depth_perm (t : Z) (l l' : list Appointment.t) :
  Permutation l l' -> depth t l = depth t l'.
Proof.
  unfold depth. induction 1 as [|a l l' Hp IH|a b l|l l' l'' H1 IH1 H2 IH2]; cbn.
  - reflexivity.
  - destruct (activeAt t a); cbn; now rewrite IH.
  - destruct (activeAt t a), (activeAt t b); reflexivity.
  - now rewrite IH1.
Qed.

Lemma depth_placed (t : Z) (placed : list Placed.t) :
  depth t (map Placed.appointment placed) = List.length (activePlaced t placed).
Proof.
  unfold depth, activePlaced. induction placed as [|p placed IH]; cbn; [reflexivity|].
  destruct (activeAt t (Placed.appointment p)); cbn; now rewrite IH.
Qed.

Lemma depth_processMember (t : Z) (member : Member.t) :
  depth t (Member.appointments member)
  = List.length (activePlaced t (ProcessedMember.appointments (processMember member))).
Proof.
  rewrite <- depth_placed. symmetry. apply depth_perm, processMember_appointments.
Qed.

Lemma both_active_overlap (t : Z) (a b : Appointment.t) :
  activeAt t a = true -> activeAt t b = true -> overlapping a b = true.
Proof.
  unfold activeAt, overlapping. intros Ha Hb.
  apply andb_true_iff in Ha as [Ha1 Ha2]. apply andb_true_iff in Hb as [Hb1 Hb2].
  destruct (startMin a) as [|sa], (endMin a) as [|ea], (startMin b) as [|sb],
    (endMin b) as [|eb]; cbn in *; try discriminate.
  apply Z.leb_le in Ha1, Hb1. apply Z.ltb_lt in Ha2, Hb2.
  apply andb_true_iff. split; apply Z.ltb_lt; lia.
Qed.

(** The appointments active at one instant sit in pairwise distinct
    columns. *)
Lemma active_columns_NoDup (t : Z) (sorted : list Appointment.t) :
  NoDup (map Placed.column (activePlaced t (assignColumns sorted))).
Proof.
  induction sorted as [|a sorted IH] using rev_ind; [constructor|].
  pose proof (placed_least_free (sorted ++ [a]) (assignColumns sorted) []) as Hq.
  rewrite assignColumns_snoc in *. unfold place in *.
  set (q := {| Placed.appointment := a;
               Placed.column := _; Placed.startMinutes := _;
               Placed.endMinutes := _; Placed.duration := _ |}) in *.
  specialize (Hq q eq_refl). destruct Hq as (Hfree & _).
  unfold activePlaced in *. rewrite filter_app. cbn [filter].
  destruct (activeAt t (Placed.appointment q)) eqn:Hact.
  - rewrite map_app. cbn [map].
    apply (Permutation_NoDup (Permutation_cons_append _ _)).
    constructor; [|exact IH].
    intros Hin. apply in_map_iff in Hin as (p & Hc & Hp).
    apply filter_In in Hp as [Hp Hpact].
    pose proof (busy_false _ _ _ _ p Hfree Hp) as Hno.
    apply conflicts_false_disjoint in Hno; [|exact Hc].
    rewrite (both_active_overlap t _ _ Hpact Hact) in Hno. discriminate.
  - now rewrite app_nil_r.
Qed.

Lemma column_below_max (placed : list Placed.t) (p : Placed.t) :
  In p placed -> (Placed.column p < maxColumnsOf placed)%nat.
Proof.
  unfold maxColumnsOf. induction placed as [|x placed IH]; cbn; [intros []|].
  intros [->|Hin]; [lia|]. specialize (IH Hin). lia.
Qed.

Lemma max_column_attained (placed : list Placed.t) :
  placed <> [] -> exists p, In p placed /\ (Placed.column p + 1)%nat = maxColumnsOf placed.
Proof.
  unfold maxColumnsOf. induction placed as [|x placed IH]; [congruence|]. intros _.
  destruct placed as [|y placed].
  - exists x. cbn. split; [now left|lia].
  - destruct IH as (p & Hp & Hmax); [discriminate|].
    cbn [map fold_right] in *.
    destruct (Nat.max_spec (Placed.column x)
                (Nat.max (Placed.column y) (fold_right Nat.max 0%nat (map Placed.column placed))))
      as [[_ ->]|[_ ->]].
    + exists p. split; [now right|exact Hmax].
    + exists x. split; [now left|reflexivity].
Qed.

(** No instant has more active appointments than there are columns. *)
Lemma depth_le_maxColumns (t : Z) (sorted : list Appointment.t) :
  (List.length (activePlaced t (assignColumns sorted)) <= maxColumnsOf (assignColumns sorted))%nat.
Proof.
  rewrite <- (length_map Placed.column).
  apply Nat.le_trans with (List.length (seq 0%nat (maxColumnsOf (assignColumns sorted))));
    [|now rewrite length_seq].
  apply NoDup_incl_length; [apply active_columns_NoDup|].
  intros c Hc. apply in_map_iff in Hc as (p & <- & Hp).
  apply filter_In in Hp as [Hp _]. apply in_seq.
  pose proof (column_below_max _ p Hp). lia.
Qed.

Lemma conflicts_true (sq eq sp ep : Z) (c : nat) (p : Placed.t) :
  conflicts (Num sq) (Num eq) c p = true ->
  startMin (Placed.appointment p) = Num sp ->
  endMin (Placed.appointment p) = Num ep ->
  Placed.column p = c /\ sp < eq /\ sq < ep.
Proof.
  unfold conflicts, startMin, endMin. intros H Hs He.
  apply andb_true_iff in H as [Hc H]. apply Nat.eqb_eq in Hc. split; [exact Hc|].
  rewrite Hs, He in H. cbn in H.
  apply negb_true_iff, orb_false_iff in H as [H1 H2].
  apply Z.leb_gt in H1, H2. lia.
Qed.

Lemma properInterval_numericStart (a : Appointment.t) : properInterval a -> numericStart a.
Proof. intros (s & e & Hs & _). now exists s. Qed.

(** At the start of an appointment of the highest column, every column is
    occupied by an active appointment. *)
Lemma peak_reached (sorted : list Appointment.t) :
  sorted <> [] -> Forall properInterval sorted -> StronglySorted startsBefore sorted ->
  exists t, (maxColumnsOf (assignColumns sorted)
             <= List.length (activePlaced t (assignColumns sorted)))%nat.
Proof.
  intros Hne Hproper Hsorted.
  pose proof (assignColumns_appointments sorted) as Happ.
  assert (HL : assignColumns sorted <> []).
  { intros H. rewrite H in Happ. cbn in Happ. congruence. }
  assert (Hprop : forall p, In p (assignColumns sorted) -> properInterval (Placed.appointment p)).
  { intros p Hp. rewrite Forall_forall in Hproper. apply Hproper.
    rewrite <- Happ. now apply in_map. }
  destruct (max_column_attained _ HL) as (q & Hq & Hmax).
  destruct (in_split _ _ Hq) as (before & after & Hsplit).
  destruct (placed_least_free sorted before after q Hsplit) as (_ & Hbelow & _).
  destruct (Hprop q Hq) as (sq & eq & Hsq & Heq & Hlt).
  exists sq. rewrite <- Hmax.
  rewrite <- (length_map Placed.column).
  apply Nat.le_trans with (List.length (seq 0%nat (S (Placed.column q))));
    [rewrite length_seq; lia|].
  apply NoDup_incl_length; [apply seq_NoDup|].
  intros c Hc. apply in_seq in Hc. apply in_map_iff.
  destruct (Nat.eq_dec c (Placed.column q)) as [->|Hneq].
  - exists q. split; [reflexivity|]. apply filter_In. split; [exact Hq|].
    unfold activeAt. rewrite Hsq, Heq. cbn.
    apply andb_true_iff. split; [apply Z.leb_le|apply Z.ltb_lt]; lia.
  - assert (Hbusy : busy before (startMin (Placed.appointment q))
                         (endMin (Placed.appointment q)) c = true) by (apply Hbelow; lia).
    unfold busy in Hbusy. apply existsb_exists in Hbusy as (p & Hp & Hconf).
    assert (HpL : In p (assignColumns sorted)).
    { rewrite Hsplit. apply in_or_app. now left. }
    destruct (Hprop p HpL) as (sp & ep & Hsp & Hep & Hlt').
    rewrite Hsq, Heq in Hconf.
    destruct (conflicts_true sq eq sp ep c p Hconf Hsp Hep) as (Hcol & H1 & H2).
    exists p. split; [exact Hcol|]. apply filter_In. split; [exact HpL|].
    assert (Hord : startsBefore (Placed.appointment p) (Placed.appointment q)).
    { rewrite <- Happ, Hsplit, map_app in Hsorted. cbn [map] in Hsorted.
      apply sorted_split in Hsorted. rewrite Forall_forall in Hsorted.
      apply Hsorted. now apply in_map. }
    destruct Hord as (x & y & Hx & Hy & Hxy).
    rewrite Hsp in Hx. rewrite Hsq in Hy. injection Hx as <-. injection Hy as <-.
    unfold activeAt. rewrite Hsp, Hep. cbn.
    apply andb_true_iff. split; [apply Z.leb_le|apply Z.ltb_lt]; lia.
Qed.

(** With whole-minute bounds, an instant is in an interval exactly when
    the minute it falls in is. *)
Lemma Qle_bool_floor (z : Z) (t : Q) : Qle_bool (inject_Z z) t = (z <=? Qfloor t).
Proof.
  destruct (Z.leb_spec z (Qfloor t)) as [Hle|Hgt].
  - apply Qle_bool_iff. apply Qle_trans with (inject_Z (Qfloor t)); [|apply Qfloor_le].
    rewrite <- Zle_Qle. exact Hle.
  - destruct (Qle_bool (inject_Z z) t) eqn:Hb; [|reflexivity].
    apply Qle_bool_iff, Qfloor_resp_le in Hb. rewrite Qfloor_Z in Hb. lia.
Qed.

Lemma activeAtQ_floor (t : Q) (a : Appointment.t) : activeAtQ t a = activeAt (Qfloor t) a.
Proof.
  unfold activeAtQ, activeAt.
  destruct (startMin a) as [|s], (endMin a) as [|e]; cbn; try reflexivity.
  - now rewrite andb_false_r.
  - rewrite !Qle_bool_floor. f_equal. symmetry. apply Z.ltb_antisym.
Qed.

Lemma depthQ_floor (t : Q) (appointments : list Appointment.t) :
  depthQ t appointments = depth (Qfloor t) appointments.
Proof.
  unfold depthQ, depth. f_equal. apply filter_ext. intros a. apply activeAtQ_floor.
Qed.

(** C1, as stated, fails: a member with no appointment has one column while
    no appointment is active at any instant. *)
Lemma no_appointment_one_column :
  ProcessedMember.maxColumns (processMember (sampleMember [])) = 1%nat
  /\ forall t, depth t (Member.appointments (sampleMember [])) = O.
Proof. split; reflexivity. Qed.

(** C1 (amended). For every member with at least one appointment, all with
    numeric times and the end after the start, [maxColumns] equals the largest
    number of the member's appointments whose half-open intervals contain one
    same instant: some instant has that many, and none has more, whether
    instants are whole minutes or rational points of time between them. A
    member with no appointment has [maxColumns] 1. *)
Theorem columns_match_peak_overlap :
  (forall member : Member.t,
     Member.appointments member = [] ->
     ProcessedMember.maxColumns (processMember member) = 1%nat)
  /\ (forall (member : Member.t) (t : Z),
        (depth t (Member.appointments member)
         <= ProcessedMember.maxColumns (processMember member))%nat)
  /\ (forall (member : Member.t) (t : Q),
        (depthQ t (Member.appointments member)
         <= ProcessedMember.maxColumns (processMember member))%nat)
  /\ (forall member : Member.t,
        Member.appointments member <> [] ->
        Forall properInterval (Member.appointments member) ->
        exists t : Z,
          depth t (Member.appointments member)
          = ProcessedMember.maxColumns (processMember member)
          /\ depthQ (inject_Z t) (Member.appointments member)
             = ProcessedMember.maxColumns (processMember member)).
Proof.
  assert (Hupper : forall (member : Member.t) (t : Z),
             (depth t (Member.appointments member)
              <= ProcessedMember.maxColumns (processMember member))%nat).
  { intros member t. rewrite depth_processMember.
    open_processMember.
    apply depth_le_maxColumns. }
  split; [|split; [exact Hupper|split]].
  - intros member Hnil. open_processMember.
    rewrite Hnil. reflexivity.
  - intros member t. rewrite depthQ_floor. apply Hupper.
  - intros member Hne Hproper.
    assert (Hperm := sortByStart_perm (Member.appointments member)).
    destruct (peak_reached (sortByStart (Member.appointments member))) as (t & Ht).
    + intros H. rewrite H in Hperm. apply Permutation_nil in Hperm. congruence.
    + apply (Permutation_Forall (Permutation_sym Hperm)). exact Hproper.
    + apply sortByStart_sorted. eapply Forall_impl; [|exact Hproper].
      exact properInterval_numericStart.
    + assert (Heq : depth t (Member.appointments member)
                    = ProcessedMember.maxColumns (processMember member)).
      { apply Nat.le_antisymm; [apply Hupper|].
        rewrite depth_processMember.
        open_processMember.
        exact Ht. }
      exists t. split; [exact Heq|]. now rewrite depthQ_floor, Qfloor_Z.
Qed.

Lemma columns_match_peak_overlap_witness :
  exists t : Z,
    depth t (Member.appointments
               (sampleMember [("09:00", "10:00"); ("09:30", "10:30"); ("10:00", "11:00")]))
    = 2%nat
    /\ depthQ (inject_Z t)
          (Member.appointments
             (sampleMember [("09:00", "10:00"); ("09:30", "10:30"); ("10:00", "11:00")]))
       = 2%nat.
Proof.
  refine (proj2 (proj2 (proj2 columns_match_peak_overlap))
            (sampleMember [("09:00", "10:00"); ("09:30", "10:30"); ("10:00", "11:00")]) _ _).
  - discriminate.
  - apply Forall_cons; [exists 540, 600; repeat split; lia|].
    apply Forall_cons; [exists 570, 630; repeat split; lia|].
    apply Forall_cons; [exists 600, 660; repeat split; lia|].
    apply Forall_nil.
Defined.

(** ** Property order *)

Lemma insertIndexed_perm (entry : Z * Group.t) (sorted : list (Z * Group.t)) :
  Permutation (insertIndexed entry sorted) (entry :: sorted).
Proof.
  induction sorted as [|e rest IH]; cbn [insertIndexed]; [reflexivity|].
  destruct (fst entry <=? fst e); [reflexivity|].
  rewrite IH. apply perm_swap.
Qed.

(** [Object.values] lists every group once, whatever the keys. *)
Lemma Object_values_perm (memberGroups : MemberGroups) :
  Permutation (Object_values memberGroups) (map snd memberGroups).
Proof.
  unfold Object_values.
  induction memberGroups as [|[key group] rest IH]; [reflexivity|].
  cbn [indexedProperties namedProperties fold_right filter fst snd map].
  fold (indexedProperties rest) (namedProperties rest).
  destruct (arrayIndex key) as [n|].
  - rewrite (Permutation_map snd (insertIndexed_perm (n, group) (indexedProperties rest))).
    cbn [map snd app]. now apply perm_skip.
  - cbn [map snd]. rewrite <- Permutation_middle. now apply perm_skip.
Qed.

Lemma Object_values_length (memberGroups : MemberGroups) :
  List.length (Object_values memberGroups) = List.length memberGroups.
Proof.
  rewrite (Permutation_length (Object_values_perm memberGroups)). apply length_map.
Qed.

(** When no key is an array index, the order is that of creation. *)
Lemma Object_values_named (memberGroups : MemberGroups) :
  Forall (fun property => arrayIndex (fst property) = None) memberGroups ->
  Object_values memberGroups = map snd memberGroups.
Proof.
  intros Hnamed.
  assert (H : indexedProperties memberGroups = []
              /\ namedProperties memberGroups = memberGroups).
  { induction Hnamed as [|[key group] rest Hkey _ [IH1 IH2]]; [split; reflexivity|].
    cbn [fst] in Hkey.
    unfold indexedProperties, namedProperties.
    cbn [fold_right filter fst snd]. fold (indexedProperties rest) (namedProperties rest).
    rewrite Hkey, IH1, IH2. split; reflexivity. }
  unfold Object_values. destruct H as [-> ->]. reflexivity.
Qed.

(** ** The conversion, row by row *)

Lemma mapM_Ok {A B : Type} (f : A -> result B) (xs : list A) (ys : list B) :
  mapM f xs = Ok ys <-> Forall2 (fun x y => f x = Ok y) xs ys.
Proof.
  revert ys. induction xs as [|x xs IH]; intros ys; cbn.
  - split; [intros [= <-]; constructor|intros H; inversion H; reflexivity].
  - destruct (f x) as [y|e] eqn:Hx; cbn.
    + destruct (mapM f xs) as [ys'|e] eqn:Hxs; cbn.
      * split.
        -- intros [= <-]. constructor; [exact Hx|]. now apply IH.
        -- intros H. inversion H as [|? y0 ? ys0 Hy Hrest]; subst.
           rewrite Hx in Hy. injection Hy as <-.
           apply IH in Hrest. now injection Hrest as <-.
      * split; [discriminate|].
        intros H. inversion H as [|? y0 ? ys0 Hy Hrest]; subst.
        apply IH in Hrest. discriminate.
    + split; [discriminate|].
      intros H. inversion H as [|? y0 ? ys0 Hy Hrest]; subst. congruence.
Qed.

Lemma mapM_succeeds {A B : Type} (f : A -> result B) (xs : list A) :
  (exists ys, mapM f xs = Ok ys) <-> Forall (fun x => exists y, f x = Ok y) xs.
Proof.
  induction xs as [|x xs IH]; cbn.
  - split; [constructor|]. intros _. now exists [].
  - destruct (f x) as [y|e] eqn:Hx; cbn.
    + destruct (mapM f xs) as [ys'|e] eqn:Hxs; cbn.
      * split; [|intros _; now eexists].
        intros _. constructor; [now exists y|]. apply IH. now exists ys'.
      * split; [intros [ys H]; discriminate|].
        intros H. apply Forall_cons_iff in H as [_ H]. apply IH in H as [ys H]. discriminate.
    + split; [intros [ys H]; discriminate|].
      intros H. apply Forall_cons_iff in H as [[y H] _]. congruence.
Qed.

Lemma mapM_error {A B : Type} (f : A -> result B) (xs : list A) (e : error) :
  mapM f xs = Throw e -> exists x, In x xs /\ f x = Throw e.
Proof.
  induction xs as [|x xs IH]; cbn; [discriminate|].
  destruct (f x) as [y|e'] eqn:Hx; cbn.
  - destruct (mapM f xs) as [ys'|e''] eqn:Hxs; cbn; [discriminate|].
    intros [= <-]. destruct (IH eq_refl) as (x' & Hin & Hx'). exists x'. auto.
  - intros [= <-]. exists x. auto.
Qed.

Lemma convertAppointment_succeeds (apt : Row.t) :
  (exists a, convertAppointment apt = Ok a) <-> complete apt.
Proof.
  unfold convertAppointment, complete.
  destruct (Row.contacts apt), (Row.services apt); split;
    try (intros [a H]; discriminate H); try (intros [H1 H2]; congruence).
  - intros _. split; discriminate.
  - intros _. eexists. reflexivity.
Qed.

Lemma convertGroup_succeeds (group : Group.t) :
  (exists member, convertGroup group = Ok member)
  <-> Forall complete (Group.appointments group).
Proof.
  unfold convertGroup.
  split.
  - intros [member H].
    destruct (mapM convertAppointment (Group.appointments group)) as [ys|e] eqn:Hm;
      [|discriminate].
    assert (Hall : exists ys, mapM convertAppointment (Group.appointments group) = Ok ys)
      by now exists ys.
    apply mapM_succeeds in Hall. eapply Forall_impl; [|exact Hall].
    intros apt. apply convertAppointment_succeeds.
  - intros Hall.
    assert (Hex : Forall (fun x => exists y, convertAppointment x = Ok y)
                         (Group.appointments group)).
    { eapply Forall_impl; [|exact Hall]. intros apt. apply convertAppointment_succeeds. }
    apply mapM_succeeds in Hex as [ys ->]. cbn. eexists. reflexivity.
Qed.

Lemma Forall_flat_map {A B : Type} (P : B -> Prop) (f : A -> list B) (xs : list A) :
  Forall P (flat_map f xs) <-> Forall (fun x => Forall P (f x)) xs.
Proof.
  induction xs as [|x xs IH]; cbn.
  - split; constructor.
  - rewrite Forall_app, Forall_cons_iff, IH. reflexivity.
Qed.

Lemma convertAppointment_fields (apt : Row.t) (a : Appointment.t) :
  convertAppointment apt = Ok a ->
  Appointment.start_time a = Row.start_time apt
  /\ Appointment.end_time a = deriveEndTime apt
  /\ Appointment.status a = or_else (Row.status apt) "programada".
Proof.
  unfold convertAppointment.
  destruct (Row.contacts apt); [|discriminate].
  destruct (Row.services apt); [|discriminate].
  intros [= <-]. repeat split.
Qed.

(** ** The appointment elements of the markup *)

Lemma append_assoc (a b c : string) : (a ++ b) ++ c = a ++ b ++ c.
Proof. induction a as [|x a IH]; cbn; [reflexivity|now rewrite IH]. Qed.

Lemma append_empty_r (a : string) : a ++ EmptyString = a.
Proof. induction a as [|x a IH]; cbn; [reflexivity|now rewrite IH]. Qed.

Lemma join_app (xs ys : list string) : join (xs ++ ys) = join xs ++ join ys.
Proof.
  induction xs as [|x xs IH]; [reflexivity|].
  cbn [app join fold_right] in *. fold (join (xs ++ ys)) (join xs).
  now rewrite IH, append_assoc.
Qed.

(** What [parts.map(f).join('')] holds for each part. *)
Lemma in_join {A : Type} (f : A -> string) (xs : list A) (x : A) :
  In x xs -> exists pre post, join (map f xs) = pre ++ f x ++ post.
Proof.
  intros H. destruct (in_split _ _ H) as (l1 & l2 & ->).
  exists (join (map f l1)), (join (map f l2)).
  rewrite map_app, join_app. reflexivity.
Qed.

Lemma inside_right (a s x : string) :
  (exists pre post, s = pre ++ x ++ post) -> exists pre post, a ++ s = pre ++ x ++ post.
Proof. intros (pre & post & ->). exists (a ++ pre), post. now rewrite append_assoc. Qed.

Lemma inside_left (s b x : string) :
  (exists pre post, s = pre ++ x ++ post) -> exists pre post, s ++ b = pre ++ x ++ post.
Proof. intros (pre & post & ->). exists pre, (post ++ b). now rewrite !append_assoc. Qed.

Lemma inside_here (x r : string) : exists pre post, x ++ r = pre ++ x ++ post.
Proof. exists EmptyString, r. reflexivity. Qed.

Lemma Ok_inj {A : Type} (a b : A) : Ok a = Ok b -> a = b.
Proof. intros [= ->]. reflexivity. Qed.

(** Every placed appointment of every member has its element in the markup
    the engine returns, with the window computed from all members. *)
Lemma markup_appointment_elements (float_toString : float -> string) (host : Host.t)
  (organization : Organization.t) (memberGroups : MemberGroups) (date : string)
  (html : string) (members : list Member.t) :
  convertGroups memberGroups = Ok members ->
  generateAgendaHTML float_toString host organization memberGroups date = Ok html ->
  forall member p,
    In member members ->
    In p (ProcessedMember.appointments (processMember member)) ->
    exists pre post,
      html = pre ++ renderAppointment float_toString (viewWindow members)
                      (processMember member) p ++ post.
Proof.
  intros Hconv Hhtml member p Hmember Hp.
  unfold generateAgendaHTML in Hhtml. rewrite Hconv in Hhtml. cbn [bind] in Hhtml.
  apply Ok_inj in Hhtml. cbv zeta in Hhtml. subst html.
  destruct (in_join (memberColumn float_toString (viewWindow members))
              (processMembers members) (processMember member))
    as (pre1 & post1 & Hcolumns); [now apply in_map|].
  destruct (in_join (renderAppointment float_toString (viewWindow members)
                       (processMember member))
              (ProcessedMember.appointments (processMember member)) p Hp)
    as (pre2 & post2 & Helements).
  rewrite Hcolumns. unfold memberColumn. rewrite Helements.
  let rec locate :=
    lazymatch goal with
    | |- exists pre post,
           renderAppointment float_toString (viewWindow members) (processMember member) p
           ++ _ = _ =>
        apply inside_here
    | |- exists pre post, _ ++ _ = _ =>
        first [apply inside_right; locate | apply inside_left; locate]
    end in
  locate.
Qed.

Lemma renderAppointment_startTag (float_toString : float -> string) (w : Window.t)
  (member : ProcessedMember.t) (p : Placed.t) :
  exists indent rest,
    renderAppointment float_toString w member p
    = indent ++ startTag float_toString
                  (classText (Appointment.status (Placed.appointment p))
                             (overlapClass member) (columnClass p))
                  (topPosition w p) (height w p)
             ++ rest.
Proof.
  unfold renderAppointment, startTag, classText.
  match goal with
  | |- exists indent rest,
         _ ++ _ ++ _ ++ _ ++ _ ++ _ ++ _ ++ _ ++ _ ++ _ ++ _ ++ _ ++ _ ++ _ ++ _ ++ _
         ++ _ ++ _ ++ ?content = _ =>
      exists "
                  ", ("
                    <div class=" ++ content)
  end.
  rewrite !append_assoc. reflexivity.
Qed.

Lemma overlapClass_marker (member : ProcessedMember.t) : overlapMarker (overlapClass member).
Proof. unfold overlapClass. destruct (Nat.ltb 1 _); [now right|now left]. Qed.

Lemma columnClass_marker (p : Placed.t) : columnMarker (columnClass p).
Proof.
  unfold columnClass. destruct (Nat.ltb_spec 0 (Placed.column p)); [right|now left].
  now exists (Placed.column p).
Qed.

(** The start tag of every placed appointment of every member is in the
    markup. *)
Lemma markup_start_tags (float_toString : float -> string) (host : Host.t)
  (organization : Organization.t) (memberGroups : MemberGroups) (date : string)
  (html : string) (members : list Member.t) :
  convertGroups memberGroups = Ok members ->
  generateAgendaHTML float_toString host organization memberGroups date = Ok html ->
  forall member p,
    In member members ->
    In p (ProcessedMember.appointments (processMember member)) ->
    exists pre post,
      html = pre ++ startTag float_toString
                      (classText (Appointment.status (Placed.appointment p))
                                 (overlapClass (processMember member)) (columnClass p))
                      (topPosition (viewWindow members) p) (height (viewWindow members) p)
                 ++ post.
Proof.
  intros Hconv Hhtml member p Hmember Hp.
  destruct (markup_appointment_elements float_toString host organization memberGroups date
              html members Hconv Hhtml member p Hmember Hp) as (pre & post & ->).
  destruct (renderAppointment_startTag float_toString (viewWindow members)
              (processMember member) p) as (indent & rest & ->).
  exists (pre ++ indent), (rest ++ post). now rewrite !append_assoc.
Qed.

(** The style sheet of the markup has the two rules of every entry of the
    status table. *)
Lemma markup_state_rules (float_toString : float -> string) (host : Host.t)
  (organization : Organization.t) (memberGroups : MemberGroups) (date : string)
  (html : string) (entry : string * Style.t) :
  generateAgendaHTML float_toString host organization memberGroups date = Ok html ->
  In entry APPOINTMENT_STATES ->
  exists pre post, html = pre ++ stateRule entry ++ post.
Proof.
  intros Hhtml Hentry. unfold generateAgendaHTML in Hhtml.
  destruct (convertGroups memberGroups) as [members|e]; cbn [bind] in Hhtml;
    [|discriminate Hhtml].
  apply Ok_inj in Hhtml. cbv zeta in Hhtml. subst html.
  destruct (in_join stateRule APPOINTMENT_STATES entry Hentry) as (pre1 & post1 & ->).
  let rec locate :=
    lazymatch goal with
    | |- exists pre post, stateRule entry ++ _ = _ => apply inside_here
    | |- exists pre post, _ ++ _ = _ =>
        first [apply inside_right; locate | apply inside_left; locate]
    end in
  locate.
Qed.

(** Every row of a converted group has its appointment in the member of the
    group, and every appointment of a member is placed. *)
Lemma Forall2_In_left {A B : Type} (R : A -> B -> Prop) (xs : list A) (ys : list B) (x : A) :
  Forall2 R xs ys -> In x xs -> exists y, In y ys /\ R x y.
Proof.
  induction 1 as [|x0 y0 xs ys Hxy _ IH]; intros Hin; [destruct Hin|].
  destruct Hin as [<-|Hin].
  - exists y0. split; [now left|exact Hxy].
  - destruct (IH Hin) as (y & Hy & HR). exists y. split; [now right|exact HR].
Qed.

Lemma Forall2_In_right {A B : Type} (R : A -> B -> Prop) (xs : list A) (ys : list B) (y : B) :
  Forall2 R xs ys -> In y ys -> exists x, In x xs /\ R x y.
Proof.
  induction 1 as [|x0 y0 xs ys Hxy _ IH]; intros Hin; [destruct Hin|].
  destruct Hin as [<-|Hin].
  - exists x0. split; [now left|exact Hxy].
  - destruct (IH Hin) as (x & Hx & HR). exists x. split; [now right|exact HR].
Qed.

Lemma converted_row (memberGroups : MemberGroups) (members : list Member.t)
  (group : Group.t) (apt : Row.t) :
  convertGroups memberGroups = Ok members ->
  In group (Object_values memberGroups) -> In apt (Group.appointments group) ->
  exists member a,
    In member members /\ In a (Member.appointments member) /\ convertAppointment apt = Ok a.
Proof.
  unfold convertGroups. intros Hconv Hgroup Hapt. apply mapM_Ok in Hconv.
  destruct (Forall2_In_left _ _ _ group Hconv Hgroup) as (member & Hmember & Hg).
  unfold convertGroup in Hg.
  destruct (mapM convertAppointment (Group.appointments group)) as [ys|e] eqn:Hm;
    cbn [bind] in Hg; [|discriminate Hg].
  apply Ok_inj in Hg. subst member. apply mapM_Ok in Hm.
  destruct (Forall2_In_left _ _ _ apt Hm Hapt) as (a & Ha & Hok).
  exists {| Member.id := or_else (Profile.id (Group.member group)) "unknown";
            Member.name := Profile.first_name (Group.member group) ++ " "
                           ++ Profile.last_name (Group.member group);
            Member.appointments := ys |}, a.
  split; [exact Hmember|]. split; [exact Ha|exact Hok].
Qed.

Lemma placed_of (member : Member.t) (a : Appointment.t) :
  In a (Member.appointments member) ->
  exists p, In p (ProcessedMember.appointments (processMember member))
            /\ Placed.appointment p = a.
Proof.
  intros Ha.
  apply (Permutation_in _ (Permutation_sym (processMember_appointments member))) in Ha.
  apply in_map_iff in Ha as (p & Hp & Hin). now exists p.
Qed.

(** ** The classes of an appointment element *)

Lemma splitOn_nonempty (separates : ascii -> bool) (s : string) : splitOn separates s <> [].
Proof.
  destruct s as [|c s]; cbn; [discriminate|].
  destruct (separates c); [discriminate|]. destruct (splitOn separates s); discriminate.
Qed.

Lemma splitOn_app (separates : ascii -> bool) (a : string) (c : ascii) (b : string) :
  separates c = true ->
  splitOn separates (a ++ String c b) = (splitOn separates a ++ splitOn separates b)%list.
Proof.
  intros Hc. induction a as [|x a IH]; cbn [append splitOn].
  - now rewrite Hc.
  - rewrite IH. destruct (separates x); [reflexivity|].
    pose proof (splitOn_nonempty separates a) as Hne.
    destruct (splitOn separates a); [congruence|reflexivity].
Qed.

Lemma classList_space (a b : string) :
  classList (a ++ " " ++ b) = (classList a ++ classList b)%list.
Proof.
  unfold classList. change (a ++ " " ++ b) with (a ++ String " " b).
  rewrite splitOn_app by reflexivity. apply filter_app.
Qed.

Lemma classList_spaceFree (s : string) :
  spaceFree s = true -> s <> EmptyString -> classList s = [s].
Proof.
  intros Hfree Hne. unfold classList.
  assert (Hsplit : splitOn isSpace s = [s]).
  { clear Hne. induction s as [|c s IH]; [reflexivity|].
    cbn [spaceFree] in Hfree. apply andb_true_iff in Hfree as [Hc Hs].
    apply negb_true_iff in Hc. cbn [splitOn]. rewrite Hc, (IH Hs). reflexivity. }
  rewrite Hsplit. cbn [filter].
  destruct (String.eqb_spec s EmptyString) as [->|_]; [now elim Hne|reflexivity].
Qed.

Lemma spaceFree_Z_toString (z : Z) : spaceFree (Z_toString z) = true.
Proof.
  assert (Hd : forall d, spaceFree (NilEmpty.string_of_uint d) = true)
    by (induction d; cbn; auto).
  assert (Hu : forall d, spaceFree (NilZero.string_of_uint d) = true).
  { intros d. destruct d; try reflexivity; apply (Hd (_ d)). }
  unfold Z_toString. destruct (Z.to_int z); cbn [NilZero.string_of_int]; [apply Hu|].
  cbn. apply Hu.
Qed.

Lemma classList_classText (status overlap column : string) :
  classList (classText status overlap column)
  = ("appointment" :: classList status ++ classList overlap ++ classList column)%list.
Proof.
  unfold classText.
  change ("appointment " ++ status ++ " " ++ overlap ++ " " ++ column)
    with ("appointment" ++ " " ++ status ++ " " ++ overlap ++ " " ++ column).
  rewrite !classList_space. reflexivity.
Qed.

(** Which rules of the status table apply to an appointment element: those
    whose key is one of the tokens of the status. The overlap and column
    markers are no keys of the table. *)
Lemma status_rules (status overlap column key : string) :
  In key (map fst APPOINTMENT_STATES) ->
  overlapMarker overlap -> columnMarker column ->
  ruleApplies key (classText status overlap column)
  = existsb (String.eqb key) (classList status).
Proof.
  intros Hkey Hoverlap Hcolumn. unfold ruleApplies. rewrite classList_classText.
  cbn [existsb]. rewrite String.eqb_refl. cbn [orb andb].
  rewrite !existsb_app.
  unfold APPOINTMENT_STATES in Hkey. cbn [map fst In] in Hkey.
  assert (Ho : existsb (String.eqb key) (classList overlap) = false).
  { destruct Hoverlap as [->| ->];
      repeat (destruct Hkey as [<-|Hkey]; [reflexivity|]); destruct Hkey. }
  assert (Hc : existsb (String.eqb key) (classList column) = false).
  { destruct Hcolumn as [->|(n & _ & ->)].
    - repeat (destruct Hkey as [<-|Hkey]; [reflexivity|]). destruct Hkey.
    - rewrite classList_spaceFree;
        [|cbn; apply spaceFree_Z_toString|discriminate].
      repeat (destruct Hkey as [<-|Hkey]; [reflexivity|]). destruct Hkey. }
  rewrite Ho, Hc, !orb_false_r.
  repeat (destruct Hkey as [<-|Hkey]; [reflexivity|]). destruct Hkey.
Qed.

Lemma free_of_quote_Z_toString (z : Z) : free_of (ascii_of_nat 34) (Z_toString z) = true.
Proof.
  assert (Hd : forall d, free_of (ascii_of_nat 34) (NilEmpty.string_of_uint d) = true)
    by (induction d; cbn; auto).
  assert (Hu : forall d, free_of (ascii_of_nat 34) (NilZero.string_of_uint d) = true).
  { intros d. destruct d; try reflexivity; apply (Hd (_ d)). }
  unfold Z_toString. destruct (Z.to_int z); cbn [NilZero.string_of_int]; [apply Hu|].
  cbn. apply Hu.
Qed.

Lemma free_of_ampersand_Z_toString (z : Z) : free_of "&" (Z_toString z) = true.
Proof.
  assert (Hd : forall d, free_of "&" (NilEmpty.string_of_uint d) = true)
    by (induction d; cbn; auto).
  assert (Hu : forall d, free_of "&" (NilZero.string_of_uint d) = true).
  { intros d. destruct d; try reflexivity; apply (Hd (_ d)). }
  unfold Z_toString. destruct (Z.to_int z); cbn [NilZero.string_of_int]; [apply Hu|].
  cbn. apply Hu.
Qed.

Lemma free_of_app (sep : ascii) (a b : string) :
  free_of sep (a ++ b) = free_of sep a && free_of sep b.
Proof.
  induction a as [|c a IH]; [reflexivity|]. cbn [append free_of].
  now rewrite IH, andb_assoc.
Qed.

Lemma attributeValue_closed (value rest : string) :
  free_of (ascii_of_nat 34) value = true -> free_of "&" value = true ->
  attributeValue (value ++ dq ++ rest) = Some value.
Proof.
  induction value as [|c value IH]; intros Hq Ha; [reflexivity|].
  cbn [free_of] in Hq, Ha.
  apply andb_true_iff in Hq as [Hc Hq]. apply andb_true_iff in Ha as [Hc' Ha].
  apply negb_true_iff in Hc, Hc'.
  cbn [append attributeValue]. rewrite Hc, Hc', (IH Hq Ha). reflexivity.
Qed.

(** The class attribute of an appointment element is read back as written
    when the status holds no double quote and no ampersand. *)
Lemma classText_read_back (status overlap column rest : string) :
  plainStatus status -> overlapMarker overlap -> columnMarker column ->
  attributeValue (classText status overlap column ++ dq ++ rest)
  = Some (classText status overlap column).
Proof.
  intros [Hq Ha] Hoverlap Hcolumn. apply attributeValue_closed; unfold classText;
    rewrite !free_of_app.
  - rewrite Hq. destruct Hoverlap as [->| ->], Hcolumn as [->|(n & _ & ->)]; cbn;
      try reflexivity; apply free_of_quote_Z_toString.
  - rewrite Ha. destruct Hoverlap as [->| ->], Hcolumn as [->|(n & _ & ->)]; cbn;
      try reflexivity; apply free_of_ampersand_Z_toString.
Qed.

(** ** Status and style of an appointment element *)

(** C5, as stated, fails: the one appointment of this day has the status
    "foo"; its element, the only appointment element of the markup, has the
    classes appointment and foo, and neither the rule of 'programada' nor any
    other rule of the status table applies to it. *)
Lemma unknown_status_is_kept :
  (exists pre post,
     generateAgendaHTML sampleNumberText (sampleHost 0) sampleOrganization sampleFooGroups
       "2025-01-06"
     = Ok (pre ++ "<div class=" ++ dq ++ "appointment foo  " ++ dq ++ post)
     /\ attributeValue ("appointment foo  " ++ dq ++ post) = Some "appointment foo  ")
  /\ (forall html,
        generateAgendaHTML sampleNumberText (sampleHost 0) sampleOrganization sampleFooGroups
          "2025-01-06" = Ok html ->
        occurrences ("<div class=" ++ dq ++ "appointment ") html = 1%nat)
  /\ classList "appointment foo  " = ["appointment"; "foo"]
  /\ ruleApplies "programada" "appointment foo  " = false
  /\ ruleApplies "programada" "appointment programada  " = true
  /\ forall key, In key (map fst APPOINTMENT_STATES) ->
                 ruleApplies key "appointment foo  " = false.
Proof.
  split; [|split; [|split; [|split; [|split]]]].
  - destruct (generateAgendaHTML sampleNumberText (sampleHost 0) sampleOrganization
                sampleFooGroups "2025-01-06") as [html|e] eqn:Hhtml;
      [|vm_compute in Hhtml; discriminate Hhtml].
    assert (Hconv : convertGroups sampleFooGroups
                    = Ok [ {| Member.id := "unknown"; Member.name := "Eva Ruiz";
                              Member.appointments :=
                                [ {| Appointment.start_time := "10:00";
                                     Appointment.end_time := "10:30";
                                     Appointment.client := "Ana Diaz";
                                     Appointment.service := "Corte";
                                     Appointment.status := "foo" |} ] |} ])
      by (vm_compute; reflexivity).
    destruct (markup_start_tags _ _ _ _ _ _ _ Hconv Hhtml _
                {| Placed.appointment :=
                     {| Appointment.start_time := "10:00";
                        Appointment.end_time := "10:30";
                        Appointment.client := "Ana Diaz";
                        Appointment.service := "Corte";
                        Appointment.status := "foo" |};
                   Placed.column := O;
                   Placed.startMinutes := Num 600;
                   Placed.endMinutes := Num 630;
                   Placed.duration := Num 30 |}
                (or_introl eq_refl)) as (pre & post & ->).
    { left. vm_compute. reflexivity. }
    unfold startTag.
    match goal with
    | |- context [classText ?status ?overlap ?column] =>
        change (classText status overlap column) with "appointment foo  "
    end.
    eexists pre, _. split.
    + f_equal. rewrite !append_assoc. reflexivity.
    + apply attributeValue_closed; reflexivity.
  - intros html Hhtml. vm_compute in Hhtml. apply Ok_inj in Hhtml. subst html.
    vm_compute. reflexivity.
  - vm_compute. reflexivity.
  - vm_compute. reflexivity.
  - vm_compute. reflexivity.
  - unfold APPOINTMENT_STATES. cbn [map fst In]. intros key Hkey.
    repeat (destruct Hkey as [<-|Hkey]; [vm_compute; reflexivity|]). destruct Hkey.
Qed.

(** C5 (amended). A missing (or empty) status becomes 'programada'; any
    other status is kept verbatim; no value of the status makes the conversion
    raise an error. In the markup the engine returns, the style sheet has the
    rule of every key of the status table, and every row has the element of
    its appointment, whose class attribute is appointment, the status, the
    overlap marker and the column marker, read back as written when the status
    holds no double quote and no ampersand. The rule of a key of the table
    applies to the element exactly when the key is one of the blank-separated
    tokens of the status: for a status of one token, exactly when the status
    is that key, so with a missing status only the rule of 'programada'
    applies, with one of the six keys only its own rule, and with another word
    none. *)
Theorem status_defaults_only_when_missing :
  (forall apt a, convertAppointment apt = Ok a ->
     (truthy_string (Row.status apt) = false -> Appointment.status a = "programada")
     /\ (forall s, Row.status apt = Some s -> s <> EmptyString ->
           Appointment.status a = s))
  /\ (forall apt, Row.contacts apt <> None -> Row.services apt <> None ->
        exists a, convertAppointment apt = Ok a)
  /\ (forall float_toString host organization memberGroups date html members,
        convertGroups memberGroups = Ok members ->
        generateAgendaHTML float_toString host organization memberGroups date = Ok html ->
        (forall entry, In entry APPOINTMENT_STATES ->
           exists pre post, html = pre ++ stateRule entry ++ post)
        /\ forall group apt,
             In group (Object_values memberGroups) -> In apt (Group.appointments group) ->
             exists member a overlap column pre post,
               In member members
               /\ In a (Member.appointments member)
               /\ convertAppointment apt = Ok a
               /\ Appointment.status a = or_else (Row.status apt) "programada"
               /\ overlapMarker overlap /\ columnMarker column
               /\ html = pre ++ "<div class=" ++ dq
                             ++ classText (Appointment.status a) overlap column
                             ++ dq ++ post
               /\ (plainStatus (Appointment.status a) ->
                   attributeValue (classText (Appointment.status a) overlap column
                                   ++ dq ++ post)
                   = Some (classText (Appointment.status a) overlap column)))
  /\ (forall status overlap column key,
        In key (map fst APPOINTMENT_STATES) ->
        overlapMarker overlap -> columnMarker column ->
        ruleApplies key (classText status overlap column)
        = existsb (String.eqb key) (classList status)
        /\ (spaceFree status = true -> status <> EmptyString ->
            ruleApplies key (classText status overlap column) = String.eqb key status)).
Proof.
  split; [|split; [|split]].
  - intros apt a Ha.
    destruct (convertAppointment_fields apt a Ha) as (_ & _ & ->). split.
    + intros Hs. destruct (Row.status apt) as [[|c s]|];
        [reflexivity|discriminate Hs|reflexivity].
    + intros s -> Hne. destruct s; [now elim Hne|reflexivity].
  - intros apt Hc Hs. unfold convertAppointment.
    destruct (Row.contacts apt); [|now elim Hc].
    destruct (Row.services apt); [|now elim Hs].
    eexists. reflexivity.
  - intros fts host organization memberGroups date html members Hconv Hhtml. split.
    + intros entry Hentry.
      exact (markup_state_rules fts host organization memberGroups date html entry
               Hhtml Hentry).
    + intros group apt Hgroup Hapt.
      destruct (converted_row memberGroups members group apt Hconv Hgroup Hapt)
        as (member & a & Hmember & Ha & Hok).
      destruct (placed_of member a Ha) as (p & Hp & Hpa).
      destruct (convertAppointment_fields apt a Hok) as (_ & _ & Hstatus).
      destruct (markup_start_tags fts host organization memberGroups date html members
                  Hconv Hhtml member p Hmember Hp) as (pre & post & Hmarkup).
      unfold startTag in Hmarkup. rewrite Hpa in Hmarkup.
      match type of Hmarkup with
      | _ = _ ++ (_ ++ _ ++ _ ++ _ ++ ?style) ++ _ =>
          exists member, a, (overlapClass (processMember member)), (columnClass p),
                 pre, (style ++ post)
      end.
      split; [exact Hmember|]. split; [exact Ha|]. split; [exact Hok|].
      split; [exact Hstatus|].
      split; [apply overlapClass_marker|]. split; [apply columnClass_marker|].
      split; [rewrite Hmarkup, !append_assoc; reflexivity|].
      intros Hplain.
      apply classText_read_back;
        [exact Hplain|apply overlapClass_marker|apply columnClass_marker].
  - intros status overlap column key Hkey Hoverlap Hcolumn.
    split; [now apply status_rules|].
    intros Hfree Hne. rewrite (status_rules status overlap column key Hkey Hoverlap Hcolumn).
    rewrite (classList_spaceFree status Hfree Hne).
    cbn [existsb]. apply orb_false_r.
Qed.

Lemma status_defaults_only_when_missing_witness :
  Appointment.status (sampleAppointment ("10:00", "10:30")) = "programada"
  /\ ruleApplies "programada" (classText "programada" EmptyString EmptyString) = true
  /\ ruleApplies "confirmada" (classText "programada" EmptyString EmptyString) = false
  /\ ruleApplies "confirmada" (classText "x confirmada" "appointment-overlap" "column-1")
     = true.
Proof.
  split; [|split; [|split]].
  - refine (proj1 (proj1 status_defaults_only_when_missing
                     (sampleRow "10:00" None None None)
                     (sampleAppointment ("10:00", "10:30")) _) _); reflexivity.
  - refine (proj2 (proj2 (proj2 (proj2 status_defaults_only_when_missing))
                     "programada" EmptyString EmptyString "programada" _ _ _) _ _);
      [cbn; tauto|now left|now left|reflexivity|discriminate].
  - refine (proj2 (proj2 (proj2 (proj2 status_defaults_only_when_missing))
                     "programada" EmptyString EmptyString "confirmada" _ _ _) _ _);
      [cbn; tauto|now left|now left|reflexivity|discriminate].
  - rewrite (proj1 (proj2 (proj2 (proj2 status_defaults_only_when_missing))
                      "x confirmada" "appointment-overlap" "column-1" "confirmada"
                      ltac:(cbn; tauto) ltac:(now right)
                      ltac:(right; exists 1%nat; split; [lia|reflexivity]))).
    reflexivity.
Defined.

(** ** Pixel geometry *)

Lemma processed_placed (members : list Member.t) (member : ProcessedMember.t) (p : Placed.t) :
  In member (processMembers members) -> In p (ProcessedMember.appointments member) ->
  Placed.startMinutes p = startMin (Placed.appointment p)
  /\ Placed.duration p = sub (endMin (Placed.appointment p)) (startMin (Placed.appointment p)).
Proof.
  unfold processMembers. intros Hm Hp. apply in_map_iff in Hm as (m & <- & _).
  unfold processMember in Hp; cbn [ProcessedMember.appointments] in Hp.
  destruct (in_split _ _ Hp) as (before & after & Hsplit).
  destruct (placed_least_free _ before after p Hsplit) as (_ & _ & Hs & _ & Hd).
  split; assumption.
Qed.

Lemma viewWindow_startMinutes (members : list Member.t) :
  Window.startMinutes (viewWindow members)
  = mul (Window.startHour (viewWindow members)) (Num 60).
Proof. unfold viewWindow. destruct (scanMembers members) as [e l]. now destruct (strict_eq e _). Qed.

(** C6. In the markup the engine returns, every appointment of every
    member has an element whose style attribute carries
    top = ((startMinutes - startHour*60) / totalMinutes) * trackHeight and
    height = ((endMinutes - startMinutes) / totalMinutes) * trackHeight, with
    trackHeight = (endHour - startHour) * 120, the window computed from all
    members, the differences taken on the derived minutes and quotient and
    product in binary64. In a window of 600 minutes (track height 1200) the
    60-minute appointment starting 120 minutes into the window gets top 240
    and height 120. *)
Theorem appointment_geometry (float_toString : float -> string) :
  (forall host organization memberGroups date html members,
     convertGroups memberGroups = Ok members ->
     generateAgendaHTML float_toString host organization memberGroups date = Ok html ->
     forall member a,
       In member members -> In a (Member.appointments member) ->
       let w := viewWindow members in
       let startMinutes := startMin a in
       let endMinutes := endMin a in
       let trackHeight :=
         toFloat (mul (sub (Window.endHour w) (Window.startHour w)) (Num 120)) in
       let top :=
         (toFloat (sub startMinutes (mul (Window.startHour w) (Num 60)))
          / toFloat (Window.totalMinutes w) * trackHeight)%float in
       let height :=
         (toFloat (sub endMinutes startMinutes)
          / toFloat (Window.totalMinutes w) * trackHeight)%float in
       exists overlap column pre post,
         overlapMarker overlap /\ columnMarker column
         /\ html = pre ++ "<div class=" ++ dq
                       ++ classText (Appointment.status a) overlap column ++ dq
                       ++ " 
                       style=" ++ dq ++ "top: " ++ float_toString top
                       ++ "px; height: " ++ float_toString height ++ "px;" ++ dq ++ ">"
                       ++ post)
  /\ (forall (members : list Member.t) (member : ProcessedMember.t) (p : Placed.t),
        In member (processMembers members) ->
        In p (ProcessedMember.appointments member) ->
        let w := viewWindow members in
        let startMinutes := startMin (Placed.appointment p) in
        let endMinutes := endMin (Placed.appointment p) in
        let trackHeight :=
          toFloat (mul (sub (Window.endHour w) (Window.startHour w)) (Num 120)) in
        topPosition w p
        = (toFloat (sub startMinutes (mul (Window.startHour w) (Num 60)))
           / toFloat (Window.totalMinutes w) * trackHeight)%float
        /\ height w p
           = (toFloat (sub endMinutes startMinutes)
              / toFloat (Window.totalMinutes w) * trackHeight)%float)
  /\ Window.totalMinutes (viewWindow sampleDay) = Num 600
  /\ trackHeight (viewWindow sampleDay) = Num 1200
  /\ map (fun p => (Appointment.start_time (Placed.appointment p),
                    topPosition (viewWindow sampleDay) p,
                    height (viewWindow sampleDay) p))
         (flat_map ProcessedMember.appointments (processMembers sampleDay))
     = [("09:00", 120%float, 60%float); ("10:00", 240%float, 120%float);
        ("16:00", 960%float, 120%float)].
Proof.
  assert (Hformulas :
            forall (members : list Member.t) (member : ProcessedMember.t) (p : Placed.t),
              In member (processMembers members) ->
              In p (ProcessedMember.appointments member) ->
              topPosition (viewWindow members) p
              = (toFloat (sub (startMin (Placed.appointment p))
                              (mul (Window.startHour (viewWindow members)) (Num 60)))
                 / toFloat (Window.totalMinutes (viewWindow members))
                 * toFloat (mul (sub (Window.endHour (viewWindow members))
                                     (Window.startHour (viewWindow members))) (Num 120)))%float
              /\ height (viewWindow members) p
                 = (toFloat (sub (endMin (Placed.appointment p)) (startMin (Placed.appointment p)))
                    / toFloat (Window.totalMinutes (viewWindow members))
                    * toFloat (mul (sub (Window.endHour (viewWindow members))
                                        (Window.startHour (viewWindow members))) (Num 120)))%float).
  { intros members member p Hm Hp.
    destruct (processed_placed members member p Hm Hp) as (Hs & Hd). split.
    - unfold topPosition. rewrite Hs, viewWindow_startMinutes. reflexivity.
    - unfold height. rewrite Hd. reflexivity. }
  split; [|split; [|split; [|split]; vm_compute; reflexivity]].
  - intros host organization memberGroups date html members Hconv Hhtml member a
           Hmember Ha w startMinutes endMinutes track top height'.
    destruct (placed_of member a Ha) as (p & Hp & Hpa).
    destruct (markup_start_tags float_toString host organization memberGroups date html
                members Hconv Hhtml member p Hmember Hp) as (pre & post & Hmarkup).
    destruct (Hformulas members (processMember member) p) as (Htop & Hheight);
      [now apply in_map|exact Hp|].
    exists (overlapClass (processMember member)), (columnClass p), pre, post.
    split; [apply overlapClass_marker|]. split; [apply columnClass_marker|].
    rewrite Hmarkup. unfold startTag. rewrite Htop, Hheight, Hpa.
    rewrite !append_assoc. reflexivity.
  - intros members member p Hm Hp w startMinutes endMinutes track.
    exact (Hformulas members member p Hm Hp).
Qed.

Lemma appointment_geometry_witness :
  topPosition (viewWindow sampleDay) samplePlaced = 240%float
  /\ height (viewWindow sampleDay) samplePlaced = 120%float.
Proof.
  destruct (proj1 (proj2 (appointment_geometry sampleNumberText)) sampleDay
              (processMember (sampleMember [("09:00", "09:30"); ("10:00", "11:00");
                                            ("16:00", "17:00")]))
              samplePlaced) as (Htop & Hheight).
  - left. reflexivity.
  - right. left. reflexivity.
  - split; [rewrite Htop|rewrite Hheight]; vm_compute; reflexivity.
Defined.

(** ** The scheduled job *)






(** * Further properties of the engine and the job *)

(** ** Time text beyond the well-formed case *)

Lemma Number_padStart2_any (z : Z) : Number (padStart2 (Z_toString z)) = Num z.
Proof.
  pose proof (Number_Z_toString z) as Hn.
  pose proof (Z_toString_nonempty z) as Hne.
  destruct (Z_toString z) as [|c [|c' s]]; [now elim Hne| |exact Hn].
  cbn [padStart2]. revert Hn.
  destruct c as [[|] [|] [|] [|] [|] [|] [|] [|]]; cbn; intros H;
    try discriminate H; exact H.
Qed.

Lemma timeToMinutes_minutesToTime_any (m : Z) :
  timeToMinutes (minutesToTime (Num m)) = Num (m / 60 * 60 + Z.rem m 60).
Proof.
  rewrite minutesToTime_parts.
  rewrite timeToMinutes_fields
    by (apply free_of_padStart2; [reflexivity|apply free_of_Z_toString]).
  rewrite !Number_padStart2_any. reflexivity.
Qed.

(** X1. A third field is ignored: a time with seconds, as the data source
    returns it, reads as the same minutes as its first two fields. *)
Theorem timeToMinutes_ignores_seconds (H M rest : string) :
  free_of ":" H = true -> free_of ":" M = true ->
  timeToMinutes (H ++ ":" ++ M ++ ":" ++ rest) = timeToMinutes (H ++ ":" ++ M).
Proof.
  intros HH HM. rewrite (timeToMinutes_fields H M HH HM).
  unfold timeToMinutes.
  change (H ++ ":" ++ M ++ ":" ++ rest) with (H ++ String ":" (M ++ String ":" rest)).
  rewrite (split_app ":" H _ HH), (split_app ":" M rest HM). reflexivity.
Qed.

Lemma timeToMinutes_ignores_seconds_witness :
  timeToMinutes ("07" ++ ":" ++ "30" ++ ":" ++ "00") = timeToMinutes ("07" ++ ":" ++ "30").
Proof. apply (timeToMinutes_ignores_seconds "07" "30" "00"); reflexivity. Defined.

(** X2. Printing minutes and reading them back returns the same number
    exactly when the number is not negative or is a multiple of 60; a negative
    number that is not a multiple of 60 comes back 60 minutes lower (the hour
    field is floored while the minute field keeps the sign). *)
Theorem minutes_text_round_trip (m : Z) :
  timeToMinutes (minutesToTime (Num m))
  = Num (if (m <? 0) && negb (m mod 60 =? 0) then m - 60 else m).
Proof.
  rewrite timeToMinutes_minutesToTime_any. f_equal.
  pose proof (Z.div_mod m 60 ltac:(lia)) as Hdm.
  pose proof (Z.mod_pos_bound m 60 ltac:(lia)) as Hmod.
  pose proof (Z.quot_rem' m 60) as Hqr.
  destruct (Z.ltb_spec m 0) as [Hneg|Hpos]; cbn [andb].
  - pose proof (Z.rem_bound_pos_neg m 60 ltac:(lia) ltac:(lia)) as Hrem.
    destruct (Z.eqb_spec (m mod 60) 0) as [Hz|Hnz]; cbn [negb]; lia.
  - pose proof (Z.rem_bound_pos m 60 ltac:(lia) ltac:(lia)) as Hrem. lia.
Qed.

(** X3. A time text without a colon is not a number: the minute field is
    missing, the result is NaN, and nothing is raised. An end time derived
    from such a start is the text "NaN:NaN". *)
Theorem colonless_time_is_NaN (s : string) :
  free_of ":" s = true ->
  timeToMinutes s = NaN
  /\ forall apt : Row.t,
       Row.start_time apt = s -> truthy_string (Row.end_time apt) = false ->
       deriveEndTime apt = "NaN:NaN".
Proof.
  intros Hs.
  assert (Hnan : timeToMinutes s = NaN).
  { unfold timeToMinutes. now rewrite (split_free ":" s Hs). }
  split; [exact Hnan|].
  intros apt Hstart Hend. unfold deriveEndTime. rewrite Hend, Hstart, Hnan.
  cbn [negb andb].
  destruct (truthy_number (serviceDuration apt)); [|reflexivity].
  destruct (serviceDuration apt); reflexivity.
Qed.

Lemma colonless_time_is_NaN_witness :
  timeToMinutes "0730" = NaN
  /\ forall apt : Row.t,
       Row.start_time apt = "0730" -> truthy_string (Row.end_time apt) = false ->
       deriveEndTime apt = "NaN:NaN".
Proof. apply (colonless_time_is_NaN "0730"). reflexivity. Defined.

(** ** Conversion of rows *)

(** X4. The markup is produced exactly when every row of every group has
    its contact and its service record. Otherwise reading a name off the
    missing record raises a TypeError (also when the row has an explicit end
    time and needs no duration), whatever the host, organization and date. *)
Theorem markup_exists_iff_rows_complete (float_toString : float -> string) (host : Host.t)
  (organization : Organization.t) (memberGroups : MemberGroups) (date : string) :
  ((exists html,
       generateAgendaHTML float_toString host organization memberGroups date = Ok html)
   <-> Forall complete (allRows memberGroups))
  /\ forall e,
       generateAgendaHTML float_toString host organization memberGroups date = Throw e ->
       exists apt, In apt (allRows memberGroups)
                   /\ (Row.contacts apt = None /\ e = TypeError "first_name"
                       \/ Row.contacts apt <> None /\ Row.services apt = None
                          /\ e = TypeError "name").
Proof.
  unfold generateAgendaHTML, convertGroups, allRows. split.
  - rewrite Forall_flat_map.
    assert (Hiff : (exists members, mapM convertGroup (Object_values memberGroups) = Ok members)
                   <-> Forall (fun g => Forall complete (Group.appointments g))
                              (Object_values memberGroups)).
    { rewrite mapM_succeeds. split; intros H; (eapply Forall_impl; [|exact H]);
        intros g; apply convertGroup_succeeds. }
    rewrite <- Hiff.
    destruct (mapM convertGroup (Object_values memberGroups)) as [members|e]; cbn [bind].
    + split; intros _; eexists; reflexivity.
    + split; intros [x H]; discriminate.
  - intros e H.
    destruct (mapM convertGroup (Object_values memberGroups)) as [members|e'] eqn:Hm;
      cbn [bind] in H; [discriminate|]. injection H as <-.
    apply mapM_error in Hm as (g & Hg & He). unfold convertGroup in He.
    destruct (mapM convertAppointment (Group.appointments g)) as [ys|e''] eqn:Ha;
      cbn [bind] in He; [discriminate|]. injection He as <-.
    apply mapM_error in Ha as (apt & Hapt & He).
    exists apt. split; [apply in_flat_map; eauto|].
    unfold convertAppointment in He.
    destruct (Row.contacts apt); [|left; split; [reflexivity|congruence]].
    destruct (Row.services apt); [discriminate|].
    right. repeat split; congruence.
Qed.

(** X5. A successful conversion keeps the shape of its input: one member
    per group, in the order of the groups, and in each member one appointment
    per row, in the order of the rows, with the row's start time and its
    derived end time. No appointment is dropped, merged or reordered. *)
Theorem conversion_keeps_rows (memberGroups : MemberGroups) (members : list Member.t) :
  convertGroups memberGroups = Ok members ->
  List.length members = List.length memberGroups
  /\ Forall2
       (fun group member =>
          Forall2
            (fun apt a =>
               Appointment.start_time a = Row.start_time apt
               /\ Appointment.end_time a = deriveEndTime apt)
            (Group.appointments group) (Member.appointments member))
       (Object_values memberGroups) members.
Proof.
  unfold convertGroups. intros H. apply mapM_Ok in H.
  split.
  - apply Forall2_length in H. rewrite Object_values_length in H. now symmetry.
  - eapply Forall2_impl; [|exact H].
    intros group member Hg. unfold convertGroup in Hg.
    destruct (mapM convertAppointment (Group.appointments group)) as [ys|e] eqn:Hm;
      cbn [bind] in Hg; [|discriminate].
    injection Hg as <-. cbn [Member.appointments].
    apply mapM_Ok in Hm. eapply Forall2_impl; [|exact Hm].
    intros apt a Ha. destruct (convertAppointment_fields apt a Ha) as (Hs & He & _).
    split; assumption.
Qed.

Lemma conversion_keeps_rows_witness :
  exists members,
    convertGroups sampleGroups = Ok members
    /\ List.length members = List.length sampleGroups
    /\ Forall2
         (fun group member =>
            Forall2
              (fun apt a =>
                 Appointment.start_time a = Row.start_time apt
                 /\ Appointment.end_time a = deriveEndTime apt)
              (Group.appointments group) (Member.appointments member))
         (Object_values sampleGroups) members.
Proof.
  eexists. split; [reflexivity|].
  apply (conversion_keeps_rows sampleGroups). reflexivity.
Defined.

(** X6. A derived end time lies after the start: for a row without explicit
    end time whose start reads as a non-negative number of minutes and whose
    service duration, if any, is not negative, the converted appointment has
    numeric times with start < end. *)
Theorem derived_end_is_after_start (apt : Row.t) (a : Appointment.t) (s : Z) :
  convertAppointment apt = Ok a ->
  truthy_string (Row.end_time apt) = false ->
  timeToMinutes (Row.start_time apt) = Num s -> 0 <= s ->
  (forall d, serviceDuration apt = Some d -> 0 <= d) ->
  properInterval a.
Proof.
  intros Ha Hend Hs Hpos Hdur.
  destruct (convertAppointment_fields apt a Ha) as (Hst & Het & _).
  unfold properInterval, startMin, endMin. rewrite Hst, Het, Hs.
  destruct (truthy_number (serviceDuration apt)) eqn:Ht.
  - destruct (serviceDuration apt) as [d|] eqn:Hd; [|discriminate Ht].
    assert (Hnz : d <> 0) by (intros ->; discriminate Ht).
    specialize (Hdur d eq_refl).
    exists s, (s + d). rewrite (deriveEndTime_duration apt d Hend Hd Hnz), Hs. cbn [add].
    rewrite timeToMinutes_minutesToTime by lia. repeat split. lia.
  - exists s, (s + 30). rewrite (deriveEndTime_default apt Hend Ht), Hs. cbn [add].
    rewrite timeToMinutes_minutesToTime by lia. repeat split. lia.
Qed.

Lemma derived_end_is_after_start_witness :
  properInterval (sampleAppointment ("10:00", "10:45")).
Proof.
  apply (derived_end_is_after_start (sampleRow "10:00" None (Some 45) None)
           (sampleAppointment ("10:00", "10:45")) 600).
  - reflexivity.
  - reflexivity.
  - reflexivity.
  - lia.
  - intros d [= <-]. lia.
Defined.

(** ** The window around the appointments *)

(** X7. When every appointment has numeric times with a start that is
    not negative and an end not before the start, and at least one appointment
    starts before 24:00, the window is a non-empty range of whole hours within
    0..24 (so [totalMinutes] is positive), it starts at or before every
    appointment with an hour of margin unless it starts at hour 0, and it ends
    at or after every appointment that ends by 24:00, with an hour of margin
    unless it ends at hour 24. *)
Theorem viewWindow_contains (members : list Member.t) :
  Forall orderedTimes (allAppointments members) ->
  Exists startsInDay (allAppointments members) ->
  exists sh eh : Z,
    Window.startHour (viewWindow members) = Num sh
    /\ Window.endHour (viewWindow members) = Num eh
    /\ Window.startMinutes (viewWindow members) = Num (sh * 60)
    /\ Window.totalMinutes (viewWindow members) = Num ((eh - sh) * 60)
    /\ 0 <= sh < eh /\ eh <= 24
    /\ forall a s e,
         In a (allAppointments members) -> startMin a = Num s -> endMin a = Num e ->
         sh * 60 <= s /\ (sh = 0 \/ sh * 60 + 60 <= s)
         /\ (e <= 1440 -> e <= eh * 60 /\ (eh = 24 \/ e + 60 <= eh * 60)).
Proof.
  intros Hall Hday. unfold viewWindow, scanMembers. rewrite scanMembers_flat.
  destruct (scan_spec (allAppointments members) (24 * 60) 0)
    as (e1 & l1 & -> & Hlow & He1 & Hle & Hup & Hl1 & Hge).
  rewrite Forall_forall in Hall.
  apply Exists_exists in Hday as (a0 & Ha0 & s0 & Hs0 & Hlt0).
  pose proof (Hlow a0 s0 Ha0 Hs0) as Hlow0.
  change (24 * 60) with 1440 in *.
  assert (Hfirst : 0 <= e1 <= l1).
  { destruct He1 as [->|(b & Hb & Hsb)]; [lia|].
    destruct (Hall b Hb) as (sb & eb & Hsb' & Heb & Hrb).
    unfold startMin in Hsb'. rewrite Hsb in Hsb'. injection Hsb' as <-.
    pose proof (Hup b eb Hb Heb). lia. }
  cbn [strict_eq].
  destruct (Z.eqb_spec e1 1440) as [->|_]; [lia|].
  cbn [sub add max min floor_div ceil_div mul Window.startHour Window.endHour
       Window.startMinutes Window.totalMinutes].
  pose proof (Z_ceil_spec (Z.min 1440 (l1 + 60)) 60 ltac:(lia)) as Hceil.
  set (eh := Z_ceil (Z.min 1440 (l1 + 60)) 60) in *.
  pose proof (Z.div_mod (Z.max 0 (e1 - 60)) 60 ltac:(lia)) as Hdm.
  pose proof (Z.mod_pos_bound (Z.max 0 (e1 - 60)) 60 ltac:(lia)) as Hmod.
  set (sh := Z.max 0 (e1 - 60) / 60) in *.
  exists sh, eh.
  do 4 (split; [reflexivity|]). split; [lia|]. split; [lia|].
  intros a s e Ha Hs He.
  pose proof (Hlow a s Ha Hs). pose proof (Hup a e Ha He).
  split; [lia|]. split; [lia|]. intros Hend. lia.
Qed.

Lemma viewWindow_contains_witness :
  exists sh eh : Z,
    Window.startHour (viewWindow sampleDay) = Num sh
    /\ Window.endHour (viewWindow sampleDay) = Num eh
    /\ Window.startMinutes (viewWindow sampleDay) = Num (sh * 60)
    /\ Window.totalMinutes (viewWindow sampleDay) = Num ((eh - sh) * 60)
    /\ 0 <= sh < eh /\ eh <= 24
    /\ forall a s e,
         In a (allAppointments sampleDay) -> startMin a = Num s -> endMin a = Num e ->
         sh * 60 <= s /\ (sh = 0 \/ sh * 60 + 60 <= s)
         /\ (e <= 1440 -> e <= eh * 60 /\ (eh = 24 \/ e + 60 <= eh * 60)).
Proof.
  apply (viewWindow_contains sampleDay).
  - apply Forall_cons; [exists 540, 570; repeat split; lia|].
    apply Forall_cons; [exists 600, 660; repeat split; lia|].
    apply Forall_cons; [exists 960, 1020; repeat split; lia|].
    apply Forall_nil.
  - apply Exists_cons_hd. exists 540. split; [reflexivity|lia].
Defined.

(** X8. The scan's starting value 24:00 doubles as the sign of an empty
    day: when no appointment has a numeric start below 1440 (none at all, or
    only starts that are not numbers or lie at 24:00 or later), the window is
    the default 8 to 18, whatever the end times are. *)
Theorem viewWindow_default_without_early_start (members : list Member.t) :
  (forall a s, In a (allAppointments members) -> startMin a = Num s -> 1440 <= s) ->
  Window.startHour (viewWindow members) = Num 8
  /\ Window.endHour (viewWindow members) = Num 18
  /\ Window.totalMinutes (viewWindow members) = Num 600.
Proof.
  intros Hlate. unfold viewWindow, scanMembers. rewrite scanMembers_flat.
  destruct (scan_spec (allAppointments members) (24 * 60) 0)
    as (e1 & l1 & -> & Hlow & He1 & Hle & Hup & Hl1 & Hge).
  assert (He : e1 = 1440).
  { destruct He1 as [->|(b & Hb & Hsb)]; [reflexivity|].
    pose proof (Hlate b e1 Hb Hsb). change (24 * 60) with 1440 in Hle. lia. }
  subst e1. split; [|split]; reflexivity.
Qed.

Lemma viewWindow_default_without_early_start_witness :
  Window.startHour (viewWindow [sampleMember [("0900", "1000"); ("24:00", "24:30")]]) = Num 8
  /\ Window.endHour (viewWindow [sampleMember [("0900", "1000"); ("24:00", "24:30")]]) = Num 18
  /\ Window.totalMinutes (viewWindow [sampleMember [("0900", "1000"); ("24:00", "24:30")]])
     = Num 600.
Proof.
  apply (viewWindow_default_without_early_start
           [sampleMember [("0900", "1000"); ("24:00", "24:30")]]).
  intros a s [<-|[<-|[]]]; [discriminate|]. intros [= <-]. lia.
Defined.

(** ** The sort *)

Lemma filter_startsAt_insert (k : Z) (a : Appointment.t) (l : list Appointment.t) :
  filter (startsAt k) (insert a l) = filter (startsAt k) (a :: l).
Proof.
  induction l as [|b l IH]; [reflexivity|]. cbn [insert].
  destruct (notAfter a b) eqn:Hab; [reflexivity|].
  cbn [filter] in *. rewrite IH.
  destruct (startsAt k a) eqn:Ha, (startsAt k b) eqn:Hb; try reflexivity.
  exfalso. unfold notAfter, compareStart, startsAt in *.
  fold (startMin a) (startMin b) in Hab.
  destruct (startMin a) as [|sa]; [discriminate|].
  destruct (startMin b) as [|sb]; [discriminate|].
  cbn in Hab. apply Z.eqb_eq in Ha, Hb. apply Z.leb_gt in Hab. lia.
Qed.

(** X9. When every start is a number, the sort returns the member's
    appointments in ascending order of start, each exactly once, and
    appointments with the same start keep their input order. *)
Theorem sortByStart_stable_sorted (appointments : list Appointment.t) :
  Forall numericStart appointments ->
  Permutation (sortByStart appointments) appointments
  /\ StronglySorted startsBefore (sortByStart appointments)
  /\ forall k, filter (startsAt k) (sortByStart appointments)
               = filter (startsAt k) appointments.
Proof.
  intros Hnum. split; [apply sortByStart_perm|]. split; [now apply sortByStart_sorted|].
  clear Hnum. intros k. induction appointments as [|a l IH]; [reflexivity|].
  cbn [sortByStart fold_right]. fold (sortByStart l).
  rewrite filter_startsAt_insert. cbn [filter]. now rewrite IH.
Qed.

Lemma sortByStart_stable_sorted_witness :
  StronglySorted startsBefore
    (sortByStart (map sampleAppointment
                      [("10:00", "11:00"); ("09:00", "09:30"); ("10:00", "10:30")])).
Proof.
  refine (proj1 (proj2 (sortByStart_stable_sorted
                          (map sampleAppointment
                               [("10:00", "11:00"); ("09:00", "09:30"); ("10:00", "10:30")])
                          _))).
  apply Forall_cons; [exists 600; reflexivity|].
  apply Forall_cons; [exists 540; reflexivity|].
  apply Forall_cons; [exists 600; reflexivity|].
  apply Forall_nil.
Defined.

(** X10. On a list that is already in ascending order of start, as the
    rows of a query ordered by start time are, the sort changes nothing; in
    particular sorting twice is sorting once. *)
Theorem sortByStart_sorted_input (appointments : list Appointment.t) :
  (StronglySorted startsBefore appointments -> sortByStart appointments = appointments)
  /\ (Forall numericStart appointments ->
      sortByStart (sortByStart appointments) = sortByStart appointments).
Proof.
  assert (Hid : forall l, StronglySorted startsBefore l -> sortByStart l = l).
  { induction 1 as [|a l Hs IH Ha]; [reflexivity|].
    cbn [sortByStart fold_right]. fold (sortByStart l). rewrite IH.
    destruct l as [|b l]; [reflexivity|]. cbn [insert].
    apply Forall_cons_iff in Ha as [(s & s' & Hsa & Hsb & Hle) _].
    unfold notAfter, compareStart. fold (startMin a) (startMin b).
    rewrite Hsa, Hsb. cbn.
    destruct (Z.leb_spec (s - s') 0); [reflexivity|lia]. }
  split; [apply Hid|].
  intros Hnum. apply Hid, sortByStart_sorted, Hnum.
Qed.

Lemma sortByStart_sorted_input_witness :
  sortByStart (map sampleAppointment [("09:00", "09:30"); ("10:00", "11:00")])
  = map sampleAppointment [("09:00", "09:30"); ("10:00", "11:00")].
Proof.
  apply (proj1 (sortByStart_sorted_input
                  (map sampleAppointment [("09:00", "09:30"); ("10:00", "11:00")]))).
  apply SSorted_cons; [apply SSorted_cons; [apply SSorted_nil|apply Forall_nil]|].
  apply Forall_cons; [|apply Forall_nil].
  exists 540, 600. repeat split. lia.
Defined.

(** ** Columns in use *)

Lemma columns_below_are_earlier (sorted : list Appointment.t) (before after : list Placed.t)
  (q : Placed.t) (c : nat) :
  assignColumns sorted = (before ++ q :: after)%list -> (c < Placed.column q)%nat ->
  exists p, In p before /\ Placed.column p = c
            /\ conflicts (startMin (Placed.appointment q)) (endMin (Placed.appointment q))
                         c p = true.
Proof.
  intros Hsplit Hc.
  destruct (placed_least_free sorted before after q Hsplit) as (_ & Hbelow & _).
  specialize (Hbelow c Hc). unfold busy in Hbelow.
  apply existsb_exists in Hbelow as (p & Hp & Hconf).
  exists p. split; [exact Hp|]. split; [|exact Hconf].
  unfold conflicts in Hconf. apply andb_true_iff in Hconf as [Hcol _].
  now apply Nat.eqb_eq in Hcol.
Qed.

Lemma column_at_most_index (sorted : list Appointment.t) (i : nat) (p : Placed.t) :
  nth_error (assignColumns sorted) i = Some p -> (Placed.column p <= i)%nat.
Proof.
  intros Hp. destruct (nth_error_split _ _ Hp) as (before & after & Hsplit & Hlen).
  assert (Hincl : incl (seq 0%nat (Placed.column p)) (map Placed.column before)).
  { intros c Hc. apply in_seq in Hc.
    destruct (columns_below_are_earlier sorted before after p c Hsplit) as (x & Hx & Hcx & _);
      [lia|].
    rewrite <- Hcx. now apply in_map. }
  apply NoDup_incl_length in Hincl; [|apply seq_NoDup].
  rewrite length_seq, length_map in Hincl. lia.
Qed.

(** X11. The columns of a member are used without gaps and no faster than
    appointments arrive: when the member has an appointment, every column
    index below [maxColumns] holds some appointment; the appointment at
    position i of the sorted list has a column of at most i (the first one is
    in column 0), so [maxColumns] is at most the number of appointments. *)
Theorem columns_have_no_gap (member : Member.t) :
  Member.appointments member <> [] ->
  (forall c, (c < ProcessedMember.maxColumns (processMember member))%nat ->
     exists p, In p (ProcessedMember.appointments (processMember member))
               /\ Placed.column p = c)
  /\ (forall i p,
        nth_error (ProcessedMember.appointments (processMember member)) i = Some p ->
        (Placed.column p <= i)%nat)
  /\ (ProcessedMember.maxColumns (processMember member)
      <= List.length (Member.appointments member))%nat.
Proof.
  intros Hne. open_processMember.
  set (sorted := sortByStart (Member.appointments member)).
  assert (HL : assignColumns sorted <> []).
  { intros H. pose proof (assignColumns_appointments sorted) as Happ.
    rewrite H in Happ. cbn in Happ.
    pose proof (sortByStart_perm (Member.appointments member)) as Hperm.
    fold sorted in Hperm. rewrite <- Happ in Hperm.
    apply Permutation_nil in Hperm. congruence. }
  destruct (max_column_attained _ HL) as (q & Hq & Hmax).
  split; [|split].
  - intros c Hc. rewrite <- Hmax in Hc.
    destruct (Nat.eq_dec c (Placed.column q)) as [->|Hneq]; [now exists q|].
    destruct (in_split _ _ Hq) as (before & after & Hsplit).
    destruct (columns_below_are_earlier sorted before after q c Hsplit) as (p & Hp & Hcp & _);
      [lia|].
    exists p. split; [|exact Hcp]. rewrite Hsplit. apply in_or_app. now left.
  - intros i p. apply column_at_most_index.
  - destruct (In_nth_error _ _ Hq) as (i & Hi).
    pose proof (column_at_most_index sorted i q Hi) as Hle.
    assert (Hlt : (i < List.length (assignColumns sorted))%nat)
      by (apply nth_error_Some; congruence).
    rewrite <- Hmax.
    rewrite <- (length_map Placed.appointment), assignColumns_appointments in Hlt.
    unfold sorted in Hlt.
    rewrite (Permutation_length (sortByStart_perm (Member.appointments member))) in Hlt. lia.
Qed.

Lemma columns_have_no_gap_witness :
  (ProcessedMember.maxColumns
     (processMember
        (sampleMember [("09:00", "10:00"); ("09:30", "10:30"); ("10:00", "11:00")]))
   <= List.length
        (Member.appointments
           (sampleMember [("09:00", "10:00"); ("09:30", "10:30"); ("10:00", "11:00")])))%nat.
Proof.
  apply (proj2 (proj2 (columns_have_no_gap
                         (sampleMember [("09:00", "10:00"); ("09:30", "10:30");
                                        ("10:00", "11:00")])
                         ltac:(discriminate)))).
Defined.

(** ** The overlap marker *)

Lemma overlapClass_spec (member : ProcessedMember.t) :
  overlapClass member = "appointment-overlap"
  <-> (1 < ProcessedMember.maxColumns member)%nat.
Proof.
  unfold overlapClass. destruct (Nat.ltb_spec 1 (ProcessedMember.maxColumns member)).
  - tauto.
  - split; [discriminate|lia].
Qed.

(** The marker of a member is set as soon as two of its appointments
    overlap, and on numeric times only then. *)
Lemma overlapClass_pair (member : Member.t) :
  let placed := ProcessedMember.appointments (processMember member) in
  let overlappingPair :=
    exists i j p q,
      i <> j /\ nth_error placed i = Some p /\ nth_error placed j = Some q
      /\ overlapping (Placed.appointment p) (Placed.appointment q) = true in
  (overlappingPair -> overlapClass (processMember member) = "appointment-overlap")
  /\ (Forall numericTimes (Member.appointments member) ->
      overlapClass (processMember member) = "appointment-overlap" -> overlappingPair).
Proof.
  intros placed overlappingPair. split.
  - intros (i & j & p & q & Hij & Hp & Hq & Hov).
    apply overlapClass_spec.
    destruct (Nat.ltb_spec 1 (ProcessedMember.maxColumns (processMember member)))
      as [Hlt|Hle]; [exact Hlt|exfalso].
    unfold placed in Hp, Hq. revert Hle Hp Hq. open_processMember. intros Hle Hp Hq.
    pose proof (column_below_max _ p (nth_error_In _ _ Hp)) as Hcp.
    pose proof (column_below_max _ q (nth_error_In _ _ Hq)) as Hcq.
    assert (Hsame : Placed.column p = Placed.column q) by lia.
    destruct (Nat.lt_trichotomy i j) as [Hlt|[Heq|Hgt]]; [|contradiction|].
    + rewrite (earlier_same_column_disjoint _ i j p q Hlt Hp Hq Hsame) in Hov. discriminate.
    + rewrite overlapping_sym in Hov.
      rewrite (earlier_same_column_disjoint _ j i q p Hgt Hq Hp (eq_sym Hsame)) in Hov.
      discriminate.
  - intros Hnum Hclass. apply overlapClass_spec in Hclass.
    assert (Hnump : forall p, In p placed -> numericTimes (Placed.appointment p)).
    { intros p Hp. rewrite Forall_forall in Hnum. apply Hnum.
      apply (Permutation_in _ (processMember_appointments member)).
      now apply in_map. }
    unfold overlappingPair, placed in *. revert Hclass Hnump. open_processMember.
    intros Hclass Hnump.
    set (sorted := sortByStart (Member.appointments member)) in *.
    assert (HL : assignColumns sorted <> []).
    { intros H. rewrite H in Hclass. cbn in Hclass. lia. }
    destruct (max_column_attained _ HL) as (q & Hq & Hmax).
    destruct (in_split _ _ Hq) as (before & after & Hsplit).
    destruct (columns_below_are_earlier sorted before after q 0%nat Hsplit)
      as (p & Hp & _ & Hconf); [lia|].
    assert (HpL : In p (assignColumns sorted)) by (rewrite Hsplit; apply in_or_app; now left).
    rewrite (conflicts_is_half_open _ _ _ (Hnump q Hq) (Hnump p HpL)) in Hconf.
    apply andb_true_iff in Hconf as [_ Hov].
    destruct (In_nth_error _ _ Hp) as (i & Hi).
    assert (Hilt : (i < List.length before)%nat) by (apply nth_error_Some; congruence).
    exists i, (List.length before), p, q.
    split; [lia|]. split; [|split; [|exact Hov]].
    + rewrite Hsplit, nth_error_app1 by exact Hilt. exact Hi.
    + rewrite Hsplit, nth_error_app2 by lia. now rewrite Nat.sub_diag.
Qed.

(** X12. In the markup the engine returns, the appointment elements of a
    member all carry the same overlap marker in their class attribute, between
    the status and the column marker: the class appointment-overlap or
    nothing. The marker is appointment-overlap as soon as two of the member's
    appointments overlap under the half-open test, and, when all times of the
    member are numbers, only then. *)
Theorem overlap_class_iff_overlapping_pair (float_toString : float -> string)
  (host : Host.t) (organization : Organization.t) (memberGroups : MemberGroups)
  (date : string) (html : string) (members : list Member.t) :
  convertGroups memberGroups = Ok members ->
  generateAgendaHTML float_toString host organization memberGroups date = Ok html ->
  forall member, In member members ->
    let placed := ProcessedMember.appointments (processMember member) in
    let overlappingPair :=
      exists i j p q,
        i <> j /\ nth_error placed i = Some p /\ nth_error placed j = Some q
        /\ overlapping (Placed.appointment p) (Placed.appointment q) = true in
    exists marker,
      overlapMarker marker
      /\ (forall a, In a (Member.appointments member) ->
            exists column pre post,
              columnMarker column
              /\ html = pre ++ "<div class=" ++ dq
                            ++ classText (Appointment.status a) marker column
                            ++ dq ++ post)
      /\ (overlappingPair -> marker = "appointment-overlap")
      /\ (Forall numericTimes (Member.appointments member) ->
          marker = "appointment-overlap" -> overlappingPair).
Proof.
  intros Hconv Hhtml member Hmember placed overlappingPair.
  exists (overlapClass (processMember member)).
  split; [apply overlapClass_marker|]. split; [|exact (overlapClass_pair member)].
  intros a Ha. destruct (placed_of member a Ha) as (p & Hp & Hpa).
  destruct (markup_start_tags float_toString host organization memberGroups date html
              members Hconv Hhtml member p Hmember Hp) as (pre & post & Hmarkup).
  unfold startTag in Hmarkup. rewrite Hpa in Hmarkup.
  match type of Hmarkup with
  | _ = _ ++ (_ ++ _ ++ _ ++ _ ++ ?style) ++ _ =>
      exists (columnClass p), pre, (style ++ post)
  end.
  split; [apply columnClass_marker|].
  rewrite Hmarkup, !append_assoc. reflexivity.
Qed.

Lemma overlap_class_iff_overlapping_pair_witness :
  exists members,
    convertGroups sampleOverlapGroups = Ok members
    /\ (exists html,
          generateAgendaHTML sampleNumberText (sampleHost 0) sampleOrganization
            sampleOverlapGroups "2025-01-06" = Ok html)
    /\ forall html,
         generateAgendaHTML sampleNumberText (sampleHost 0) sampleOrganization
           sampleOverlapGroups "2025-01-06" = Ok html ->
         forall member, In member members ->
           exists marker,
             (forall a, In a (Member.appointments member) ->
                exists column pre post,
                  columnMarker column
                  /\ html = pre ++ "<div class=" ++ dq
                                ++ classText (Appointment.status a) marker column
                                ++ dq ++ post)
             /\ marker = "appointment-overlap".
Proof.
  eexists. split; [vm_compute; reflexivity|]. split.
  - unfold generateAgendaHTML.
    destruct (convertGroups sampleOverlapGroups) as [members|e] eqn:Hconv;
      [cbn [bind]; eexists; reflexivity|vm_compute in Hconv; discriminate Hconv].
  - intros html Hhtml member Hmember.
    destruct (overlap_class_iff_overlapping_pair sampleNumberText (sampleHost 0)
                sampleOrganization sampleOverlapGroups "2025-01-06" html _
                ltac:(vm_compute; reflexivity) Hhtml member Hmember)
      as (marker & _ & Helements & Hpair & _).
    exists marker. split; [exact Helements|]. apply Hpair.
    destruct Hmember as [<-|[]].
    exists 0%nat, 1%nat. eexists. eexists.
    split; [discriminate|]. split; [vm_compute; reflexivity|].
    split; [vm_compute; reflexivity|]. vm_compute. reflexivity.
Defined.

(** ** The column marker *)

Lemma Z_toString_inj (a b : Z) : Z_toString a = Z_toString b -> a = b.
Proof.
  intros H. pose proof (Number_Z_toString a) as Ha. rewrite H, Number_Z_toString in Ha.
  now injection Ha.
Qed.

(** X13. The column marker tells the columns apart: an appointment has no
    marker exactly in column 0, the marker column-1 exactly in column 1, and
    two appointments with the same marker are in the same column. *)
Theorem columnClass_marks_column (p q : Placed.t) :
  (columnClass p = EmptyString <-> Placed.column p = O)
  /\ (columnClass p = "column-1" <-> Placed.column p = 1%nat)
  /\ (columnClass p = columnClass q -> Placed.column p = Placed.column q).
Proof.
  assert (Hpos : forall x : Placed.t,
             Placed.column x <> O ->
             columnClass x = "column-" ++ Z_toString (Z.of_nat (Placed.column x))).
  { intros x Hx. unfold columnClass. destruct (Nat.ltb_spec 0 (Placed.column x)); [reflexivity|lia]. }
  assert (Hzero : forall x : Placed.t, Placed.column x = O -> columnClass x = EmptyString).
  { intros x Hx. unfold columnClass. now rewrite Hx. }
  split; [|split].
  - split; [|apply Hzero]. intros H.
    destruct (Nat.eq_dec (Placed.column p) O) as [Hz|Hnz]; [exact Hz|].
    rewrite (Hpos p Hnz) in H. discriminate H.
  - split.
    + intros H. destruct (Nat.eq_dec (Placed.column p) O) as [Hz|Hnz].
      * rewrite (Hzero p Hz) in H. discriminate H.
      * rewrite (Hpos p Hnz) in H. cbn in H. injection H as H.
        change "1" with (Z_toString 1) in H. apply Z_toString_inj in H. lia.
    + intros H. unfold columnClass. rewrite H. reflexivity.
  - intros H.
    destruct (Nat.eq_dec (Placed.column p) O) as [Hp|Hp],
             (Nat.eq_dec (Placed.column q) O) as [Hq|Hq].
    + congruence.
    + rewrite (Hzero p Hp), (Hpos q Hq) in H. discriminate H.
    + rewrite (Hpos p Hp), (Hzero q Hq) in H. discriminate H.
    + rewrite (Hpos p Hp), (Hpos q Hq) in H. cbn in H. injection H as H.
      apply Z_toString_inj in H. lia.
Qed.

(** ** Grouping the rows by member *)

Lemma groupByMember_snoc (rows : list Row.t) (r : Row.t) :
  groupByMember (rows ++ [r])%list = addToGroup (memberKey r) r (groupByMember rows).
Proof. unfold groupByMember. now rewrite fold_left_app. Qed.

Lemma rowsOf_snoc (k : string) (rows : list Row.t) (r : Row.t) :
  rowsOf k (rows ++ [r])%list
  = (rowsOf k rows ++ (if String.eqb (memberKey r) k then [r] else []))%list.
Proof. unfold rowsOf. now rewrite filter_app. Qed.

Lemma addToGroup_keys (k : string) (r : Row.t) (gs : MemberGroups) :
  map fst (addToGroup k r gs)
  = (map fst gs ++ (if in_dec string_dec k (map fst gs) then [] else [k]))%list.
Proof.
  induction gs as [|[k' g] gs IH]; cbn [addToGroup map fst app].
  - destruct (in_dec string_dec k []) as [[]|_]. reflexivity.
  - destruct (String.eqb_spec k' k) as [->|Hne]; cbn [map fst].
    + destruct (in_dec string_dec k (k :: map fst gs)) as [_|Hn];
        [now rewrite app_nil_r|elim Hn; now left].
    + rewrite IH. f_equal.
      destruct (in_dec string_dec k (map fst gs)) as [Hin|Hn],
               (in_dec string_dec k (k' :: map fst gs)) as [Hin'|Hn']; try reflexivity.
      * elim Hn'. now right.
      * destruct Hin' as [->|Hin']; [congruence|contradiction].
Qed.

Lemma addToGroup_In (k : string) (r : Row.t) (gs : MemberGroups) (k' : string) (g' : Group.t) :
  NoDup (map fst gs) ->
  In (k', g') (addToGroup k r gs) ->
  (k' <> k /\ In (k', g') gs)
  \/ (k' = k /\ exists g, In (k, g) gs /\ Group.member g' = Group.member g
                          /\ Group.appointments g' = (Group.appointments g ++ [r])%list)
  \/ (k' = k /\ ~ In k (map fst gs) /\ Group.member g' = memberOf r
      /\ Group.appointments g' = [r]).
Proof.
  induction gs as [|[k0 g0] gs IH]; cbn [addToGroup map fst]; intros Hnd Hin.
  - destruct Hin as [[= <- <-]|[]]. right. right. repeat split. intros [].
  - apply NoDup_cons_iff in Hnd as [Hk0 Hnd].
    destruct (String.eqb_spec k0 k) as [->|Hne].
    + destruct Hin as [[= <- <-]|Hin].
      * right. left. split; [reflexivity|]. exists g0. repeat split. now left.
      * left. split; [|now right]. intros ->. apply Hk0.
        change k with (fst (k, g')). now apply in_map.
    + destruct Hin as [[= <- <-]|Hin].
      * left. split; [exact Hne|now left].
      * destruct (IH Hnd Hin) as [(H1 & H2)|[(H1 & g & H2 & H3)|(H1 & H2 & H3)]].
        -- left. split; [exact H1|now right].
        -- right. left. split; [exact H1|]. exists g. split; [now right|exact H3].
        -- right. right. split; [exact H1|]. split; [|exact H3].
           cbn. intros [Heq|Hin']; [congruence|contradiction].
Qed.

Lemma groupByMember_invariant (rows : list Row.t) :
  NoDup (map fst (groupByMember rows))
  /\ (forall r, In r rows -> In (memberKey r) (map fst (groupByMember rows)))
  /\ (forall k g, In (k, g) (groupByMember rows) ->
        Group.appointments g = rowsOf k rows
        /\ exists r0 rest, Group.appointments g = r0 :: rest /\ Group.member g = memberOf r0).
Proof.
  induction rows as [|r rows (Hnd & Hcover & Hgroups)] using rev_ind.
  - split; [constructor|]. split; [intros r []|intros k g []].
  - rewrite groupByMember_snoc.
    assert (Hkeys := addToGroup_keys (memberKey r) r (groupByMember rows)).
    split; [|split].
    + rewrite Hkeys.
      destruct (in_dec string_dec (memberKey r) (map fst (groupByMember rows))) as [Hin|Hn];
        [now rewrite app_nil_r|].
      apply (Permutation_NoDup (Permutation_cons_append _ _)). now constructor.
    + intros x Hx. rewrite Hkeys. apply in_or_app. apply in_app_or in Hx as [Hx|[Heq|[]]].
      * left. now apply Hcover.
      * subst x.
        destruct (in_dec string_dec (memberKey r) (map fst (groupByMember rows)));
          [now left|right; now left].
    + intros k g Hin. rewrite rowsOf_snoc.
      destruct (addToGroup_In _ _ _ _ _ Hnd Hin)
        as [(Hne & Hold)|[(-> & g0 & Hold & Hm & Ha)|(-> & Hfresh & Hm & Ha)]].
      * destruct (Hgroups k g Hold) as (Happ & Hhead).
        destruct (String.eqb_spec (memberKey r) k) as [Heq|_]; [congruence|].
        rewrite app_nil_r. split; assumption.
      * destruct (Hgroups _ g0 Hold) as (Happ & r0 & rest & Hcons & Hmem).
        rewrite String.eqb_refl, Ha, Happ. split; [reflexivity|].
        exists r0, (rest ++ [r])%list. rewrite <- Happ, Hcons, Hm. split; [reflexivity|exact Hmem].
      * rewrite String.eqb_refl.
        assert (Hnone : rowsOf (memberKey r) rows = []).
        { unfold rowsOf. destruct (filter _ rows) as [|x xs] eqn:Hf; [reflexivity|exfalso].
          assert (Hx : In x (filter (fun a => String.eqb (memberKey a) (memberKey r)) rows))
            by (rewrite Hf; now left).
          apply filter_In in Hx as [Hx Hk]. apply String.eqb_eq in Hk.
          apply Hfresh. rewrite <- Hk. now apply Hcover. }
        rewrite Hnone, Ha. split; [reflexivity|]. exists r, []. split; [reflexivity|exact Hm].
Qed.

Lemma grouping_snoc (rows : list Row.t) (r : Row.t) :
  grouping (rows ++ [r])%list = addAppointment (grouping rows) r.
Proof. unfold grouping. now rewrite fold_left_app. Qed.

(** The loop completes exactly when no key is inherited, and its result is
    then [groupByMember]. *)
Lemma grouping_result (rows : list Row.t) :
  (grouping rows = Ok (groupByMember rows)
   /\ Forall (fun r => inheritedKey (memberKey r) = false) rows)
  \/ (grouping rows = Throw (TypeError "push")
      /\ Exists (fun r => inheritedKey (memberKey r) = true) rows).
Proof.
  induction rows as [|r rows IH] using rev_ind.
  - left. split; [reflexivity|constructor].
  - rewrite grouping_snoc.
    destruct IH as [(-> & Hown)|(-> & Hinherited)].
    + unfold addAppointment. cbn [bind]. fold (memberKey r).
      destruct (inheritedKey (memberKey r)) eqn:Hkey.
      * right. split; [reflexivity|].
        apply Exists_app. right. now apply Exists_cons_hd.
      * left. rewrite groupByMember_snoc. split; [reflexivity|].
        apply Forall_app. split; [exact Hown|]. now constructor.
    + right. split; [reflexivity|]. apply Exists_app. now left.
Qed.

Lemma grouping_Ok (rows : list Row.t) (memberGroups : MemberGroups) :
  grouping rows = Ok memberGroups ->
  memberGroups = groupByMember rows
  /\ Forall (fun r => inheritedKey (memberKey r) = false) rows.
Proof.
  intros H. destruct (grouping_result rows) as [(Hok & Hown)|(Hthrow & _)].
  - rewrite Hok in H. apply Ok_inj in H. now subst.
  - rewrite Hthrow in H. discriminate H.
Qed.

(** X14. The grouping loop completes exactly when no row's member key (the
    member id, or 'sin-asignar' when it is missing) is a property name every
    object inherits, such as 'constructor'; otherwise it throws a TypeError.
    When it completes, the groups partition the rows by member key: keys are
    pairwise distinct, every row's key has a group, and the group of a key
    holds exactly the rows of that key in query order, so it is never empty;
    its member record is that of its first row, or the placeholder Sin Asignar
    when that row has no profile. *)
Theorem groupByMember_partitions (appointments : list Row.t) :
  ((exists memberGroups, grouping appointments = Ok memberGroups)
   <-> Forall (fun r => inheritedKey (memberKey r) = false) appointments)
  /\ (forall e, grouping appointments = Throw e -> e = TypeError "push")
  /\ forall memberGroups,
       grouping appointments = Ok memberGroups ->
       NoDup (map fst memberGroups)
       /\ (forall r, In r appointments ->
             exists group, In (memberKey r, group) memberGroups)
       /\ (forall key group, In (key, group) memberGroups ->
             Group.appointments group = rowsOf key appointments
             /\ exists first rest,
                  Group.appointments group = first :: rest
                  /\ Group.member group = memberOf first).
Proof.
  split; [|split].
  - destruct (grouping_result appointments) as [(Hok & Hown)|(Hthrow & Hinherited)].
    + split; [intros _; exact Hown|intros _; eexists; exact Hok].
    + split.
      * intros [memberGroups H]. rewrite Hthrow in H. discriminate H.
      * intros Hown. exfalso.
        apply Exists_exists in Hinherited as (r & Hr & Hkey).
        rewrite Forall_forall in Hown. rewrite (Hown r Hr) in Hkey. discriminate Hkey.
  - intros e H. destruct (grouping_result appointments) as [(Hok & _)|(Hthrow & _)].
    + rewrite Hok in H. discriminate H.
    + rewrite Hthrow in H. now injection H as <-.
  - intros memberGroups H. apply grouping_Ok in H as [-> _].
    destruct (groupByMember_invariant appointments) as (Hnd & Hcover & Hgroups).
    split; [exact Hnd|]. split; [|exact Hgroups].
    intros r Hr. specialize (Hcover r Hr).
    apply in_map_iff in Hcover as ([k g] & Hk & Hin).
    cbn in Hk. subst k. now exists g.
Qed.

Lemma groupByMember_partitions_witness :
  grouping [sampleRow "10:00" None (Some 45) None; sampleRow "11:00" None None None]
  = Ok [ ("m1", {| Group.member := defaultMember;
                   Group.appointments :=
                     [sampleRow "10:00" None (Some 45) None;
                      sampleRow "11:00" None None None] |}) ]
  /\ NoDup (map fst [ ("m1", {| Group.member := defaultMember;
                                Group.appointments :=
                                  [sampleRow "10:00" None (Some 45) None;
                                   sampleRow "11:00" None None None] |}) ]).
Proof.
  split; [reflexivity|].
  apply (proj2 (proj2 (groupByMember_partitions
                         [sampleRow "10:00" None (Some 45) None;
                          sampleRow "11:00" None None None]))).
  reflexivity.
Defined.

Lemma allRows_perm (gs : MemberGroups) :
  Permutation (allRows gs) (flat_map Group.appointments (map snd gs)).
Proof. unfold allRows. apply Permutation_flat_map, Object_values_perm. Qed.

Lemma allRows_addToGroup (k : string) (r : Row.t) (gs : MemberGroups) :
  Permutation (allRows (addToGroup k r gs)) (r :: allRows gs).
Proof.
  rewrite !allRows_perm.
  induction gs as [|[k' g] gs IH]; cbn [addToGroup map snd flat_map].
  - cbn. reflexivity.
  - destruct (String.eqb k' k); cbn [map snd flat_map Group.appointments].
    + rewrite <- app_assoc. cbn [app].
      symmetry. apply Permutation_middle.
    + rewrite IH. symmetry. apply Permutation_middle.
Qed.

Lemma allRows_groupByMember (rows : list Row.t) :
  Permutation (allRows (groupByMember rows)) rows.
Proof.
  induction rows as [|r rows IH] using rev_ind; [reflexivity|].
  rewrite groupByMember_snoc, allRows_addToGroup, IH. apply Permutation_cons_append.
Qed.

Lemma list_sum_lengths {A : Type} (f : A -> list Row.t) (xs : list A) :
  list_sum (map (fun x => List.length (f x)) xs) = List.length (flat_map f xs).
Proof.
  induction xs as [|x xs IH]; [reflexivity|].
  cbn [map flat_map]. rewrite length_app, <- IH. reflexivity.
Qed.

(** X15. When the grouping loop completes, it has lost and duplicated
    nothing: the rows of all groups together are a permutation of the query's
    rows. Hence in the webhook payload the per-member appointment counts add
    up to [total_appointments]. *)
Theorem payload_counts_add_up (world : World.t) (config : Config.t)
  (appointments : list Row.t) (memberGroups : MemberGroups) (imageUrl : string) :
  grouping appointments = Ok memberGroups ->
  Permutation (allRows memberGroups) appointments
  /\ list_sum (map snd (Payload.members_with_appointments
                          (buildPayload world config memberGroups appointments imageUrl)))
     = Payload.total_appointments
         (buildPayload world config memberGroups appointments imageUrl).
Proof.
  intros H. apply grouping_Ok in H as [-> _].
  split; [apply allRows_groupByMember|].
  unfold buildPayload; cbn [Payload.members_with_appointments Payload.total_appointments].
  rewrite map_map.
  rewrite (map_ext _ (fun group => List.length (Group.appointments group)))
    by reflexivity.
  rewrite (list_sum_lengths Group.appointments).
  apply Permutation_length, allRows_groupByMember.
Qed.

Lemma payload_counts_add_up_witness :
  list_sum (map snd (Payload.members_with_appointments
                       (buildPayload (sampleWorld (FetchRejected "x")) sampleConfig
                          (groupByMember [sampleRow "10:00" None (Some 45) None;
                                          sampleRow "11:00" None None None])
                          [sampleRow "10:00" None (Some 45) None;
                           sampleRow "11:00" None None None] "url")))
  = 2%nat.
Proof.
  apply (proj2 (payload_counts_add_up (sampleWorld (FetchRejected "x")) sampleConfig
                  [sampleRow "10:00" None (Some 45) None; sampleRow "11:00" None None None]
                  (groupByMember [sampleRow "10:00" None (Some 45) None;
                                  sampleRow "11:00" None None None])
                  "url" eq_refl)).
Defined.

(** ** From the rows to the image *)

Lemma convertGroups_succeeds (memberGroups : MemberGroups) :
  (exists members, convertGroups memberGroups = Ok members)
  <-> Forall complete (allRows memberGroups).
Proof.
  unfold convertGroups, allRows. rewrite Forall_flat_map, mapM_succeeds.
  split; intros H; (eapply Forall_impl; [|exact H]); intros g; apply convertGroup_succeeds.
Qed.

(** X16. [generateAgendaImage] raises nothing and returns a URL exactly
    when the markup is produced, the renderer returns an image and the upload
    reports no error; the URL is then the public URL of the file
    agenda-<organization id>-<date>-<clock>.png. In particular one row without
    contact or service record among the organization's appointments makes the
    result null. *)
Theorem generateAgendaImage_result (float_toString : float -> string) (world : World.t)
  (organization : Organization.t) (memberGroups : MemberGroups) (date : string) :
  (forall url,
     generateAgendaImage float_toString world organization memberGroups date = Some url
     <-> exists htmlContent imageBuffer,
           generateAgendaHTML float_toString (World.host world) organization memberGroups date
           = Ok htmlContent
           /\ World.htmlToImage world htmlContent = Some imageBuffer
           /\ World.upload world (imageFileName world organization date) imageBuffer = true
           /\ url = World.getPublicUrl world (imageFileName world organization date))
  /\ (~ Forall complete (allRows memberGroups) ->
      generateAgendaImage float_toString world organization memberGroups date = None).
Proof.
  split.
  - intros url. unfold generateAgendaImage. fold (imageFileName world organization date).
    destruct (generateAgendaHTML float_toString (World.host world) organization memberGroups date)
      as [html|e].
    + destruct (World.htmlToImage world html) as [buffer|] eqn:Hrender.
      * destruct (World.upload world (imageFileName world organization date) buffer) eqn:Hup.
        -- split.
           ++ intros [= <-]. exists html, buffer. repeat split; assumption.
           ++ intros (h & b & [= <-] & Hb & _ & ->). rewrite Hrender in Hb.
              now injection Hb as <-.
        -- split; [discriminate|].
           intros (h & b & [= <-] & Hb & Hu & _). rewrite Hrender in Hb.
           injection Hb as <-. congruence.
      * split; [discriminate|]. intros (h & b & [= <-] & Hb & _). congruence.
    + split; [discriminate|]. intros (h & b & Hh & _). discriminate.
  - intros Hincomplete. unfold generateAgendaImage, generateAgendaHTML.
    destruct (convertGroups memberGroups) as [members|e] eqn:Hc; cbn [bind]; [|reflexivity].
    elim Hincomplete. apply convertGroups_succeeds. now exists members.
Qed.

(** ** One organization *)

Lemma processConfig_without_image (float_toString : float -> string) (world : World.t)
  (config : Config.t) (appointments : list Row.t) :
  World.selectAppointments world (Config.organization_id config) (World.today world)
  = QueryData (Some appointments) ->
  appointments <> [] ->
  truthy_string
    (generateAgendaImage float_toString world (Config.organizations config)
       (groupByMember appointments) (World.today world)) = false ->
  processConfig float_toString world config
  = ([LogProcessing (Organization.name (Config.organizations config));
      LogFound (List.length appointments);
      LogGenerating (Organization.name (Config.organizations config));
      LogImageGenerated
        (generateAgendaImage float_toString world (Config.organizations config)
           (groupByMember appointments) (World.today world));
      LogSkippingWebhook (Organization.name (Config.organizations config))],
     Some (StatusSkipped (Organization.name (Config.organizations config))
                         (List.length appointments))).
Proof.
  intros Hquery Hne Himage. unfold processConfig. rewrite Hquery.
  destruct appointments as [|row rows]; [now elim Hne|].
  destruct (generateAgendaImage float_toString world (Config.organizations config)
              (groupByMember (row :: rows)) (World.today world)) as [[|c url]|];
    [reflexivity|discriminate Himage|reflexivity].
Qed.

Lemma loopBody_completes (float_toString : float -> string) (world : World.t)
  (config : Config.t) (appointments : list Row.t) (memberGroups : MemberGroups) :
  World.selectAppointments world (Config.organization_id config) (World.today world)
  = QueryData (Some appointments) ->
  grouping appointments = Ok memberGroups ->
  loopBody float_toString world config = processConfig float_toString world config.
Proof.
  intros Hquery Hgroups. unfold loopBody. rewrite Hquery.
  destruct appointments as [|row rows]; [reflexivity|]. now rewrite Hgroups.
Qed.

(** X17. No image, no webhook: when the organization has appointments and
    one of its rows lacks the contact or the service record, or no image URL
    comes back for another reason (rendering or upload failed), no request is
    sent, whatever the renderer, the storage and the webhook endpoint would
    do. The organization is recorded as skipped when the grouping of its rows
    completes; when the grouping throws, it is recorded with status 'error'
    and no image is attempted. *)
Theorem no_image_no_webhook (float_toString : float -> string) (world : World.t)
  (config : Config.t) (appointments : list Row.t) :
  World.selectAppointments world (Config.organization_id config) (World.today world)
  = QueryData (Some appointments) ->
  appointments <> [] ->
  (forall memberGroups,
     grouping appointments = Ok memberGroups ->
     truthy_string
       (generateAgendaImage float_toString world (Config.organizations config)
          memberGroups (World.today world)) = false
     \/ ~ Forall complete appointments) ->
  fetchCount (fst (loopBody float_toString world config)) = O
  /\ ((exists memberGroups, grouping appointments = Ok memberGroups) ->
      snd (loopBody float_toString world config)
      = Some (StatusSkipped (Organization.name (Config.organizations config))
                            (List.length appointments)))
  /\ ((exists e, grouping appointments = Throw e) ->
      snd (loopBody float_toString world config)
      = Some (StatusError (Organization.name (Config.organizations config)) pushMessage)
      /\ ~ In (LogGenerating (Organization.name (Config.organizations config)))
              (fst (loopBody float_toString world config))).
Proof.
  intros Hquery Hne Hcause.
  destruct (grouping appointments) as [memberGroups|e] eqn:Hgroups.
  - rewrite (loopBody_completes float_toString world config appointments memberGroups
               Hquery Hgroups).
    specialize (Hcause memberGroups eq_refl).
    apply grouping_Ok in Hgroups as [-> _].
    assert (Himage : truthy_string
                       (generateAgendaImage float_toString world
                          (Config.organizations config)
                          (groupByMember appointments) (World.today world)) = false).
    { destruct Hcause as [H|Hincomplete]; [exact H|].
      unfold generateAgendaImage, generateAgendaHTML.
      destruct (convertGroups (groupByMember appointments)) as [members|e] eqn:Hc;
        cbn [bind]; [|reflexivity].
      elim Hincomplete.
      apply (Permutation_Forall (allRows_groupByMember appointments)).
      apply convertGroups_succeeds. now exists members. }
    rewrite (processConfig_without_image float_toString world config appointments
               Hquery Hne Himage).
    split; [reflexivity|]. split; [reflexivity|]. intros [e H]. discriminate H.
  - unfold loopBody. rewrite Hquery.
    destruct appointments as [|row rows]; [now elim Hne|]. rewrite Hgroups.
    split; [reflexivity|]. split; [intros [memberGroups H]; discriminate H|].
    intros _. split; [reflexivity|].
    cbn. intros [H|[H|[H|[]]]]; discriminate H.
Qed.

Lemma no_image_no_webhook_witness :
  snd (loopBody sampleNumberText
         {| World.host := sampleHost 0;
            World.today := "2025-01-06";
            World.selectAppointments :=
              fun _ _ =>
                QueryData (Some [withDuration (sampleRow "10:00" None None None) None;
                                 {| Row.member_id := None; Row.start_time := "11:00";
                                    Row.end_time := Some "11:30"; Row.contacts := None;
                                    Row.services := None; Row.profiles := None;
                                    Row.status := None |}]);
            World.htmlToImage := fun _ => Some "png";
            World.upload := fun _ _ => true;
            World.getPublicUrl := fun fileName => fileName;
            World.fetch := fun _ _ => FetchResponse true 200 "OK" |}
         sampleConfig)
  = Some (StatusSkipped "Salon" 2%nat).
Proof.
  refine (proj1 (proj2 (no_image_no_webhook sampleNumberText _ sampleConfig
                          [withDuration (sampleRow "10:00" None None None) None;
                           {| Row.member_id := None; Row.start_time := "11:00";
                              Row.end_time := Some "11:30"; Row.contacts := None;
                              Row.services := None; Row.profiles := None;
                              Row.status := None |}] _ _ _)) _).
  - reflexivity.
  - discriminate.
  - intros memberGroups _. right. intros H. apply Forall_cons_iff in H as [_ H].
    apply Forall_cons_iff in H as [[H _] _]. now apply H.
  - eexists. reflexivity.
Defined.

(** X18. An organization leaves no record in [results] exactly when its
    appointment query reports an error or returns no row; nothing is rendered
    or sent for it then. *)
Theorem silent_organization (float_toString : float -> string) (world : World.t)
  (config : Config.t) :
  (snd (processConfig float_toString world config) = None
   <-> (exists message,
          World.selectAppointments world (Config.organization_id config) (World.today world)
          = QueryError message)
       \/ World.selectAppointments world (Config.organization_id config) (World.today world)
          = QueryData None
       \/ World.selectAppointments world (Config.organization_id config) (World.today world)
          = QueryData (Some []))
  /\ (snd (processConfig float_toString world config) = None ->
      fetchCount (fst (processConfig float_toString world config)) = O
      /\ ~ In (LogGenerating (Organization.name (Config.organizations config)))
              (fst (processConfig float_toString world config))).
Proof.
  unfold processConfig.
  destruct (World.selectAppointments world (Config.organization_id config) (World.today world))
    as [message|[[|row rows]|]].
  - split; [split; [intros _; left; now exists message|reflexivity]|].
    intros _. split; [reflexivity|]. cbn. intros [H|[H|[]]]; discriminate H.
  - split; [split; [intros _; right; right; reflexivity|reflexivity]|].
    intros _. split; [reflexivity|]. cbn. intros [H|[H|[H|[]]]]; discriminate H.
  - assert (Hsome : forall r : list event * option outcome,
               snd r <> None ->
               (snd r = None
                <-> (exists message, QueryData (Some (row :: rows)) = QueryError message)
                    \/ QueryData (Some (row :: rows)) = QueryData None
                    \/ QueryData (Some (row :: rows)) = QueryData (Some []))
               /\ (snd r = None ->
                   fetchCount (fst r) = O
                   /\ ~ In (LogGenerating (Organization.name (Config.organizations config)))
                           (fst r))).
    { intros r Hr. split; [split; [intros H; contradiction|]|intros H; contradiction].
      intros [[m H]|[H|H]]; discriminate H. }
    destruct (generateAgendaImage float_toString world (Config.organizations config)
                (groupByMember (row :: rows)) (World.today world)) as [[|c url]|];
      try (apply Hsome; discriminate).
    destruct (World.fetch world webhookUrl _) as [m|[|] st tx]; apply Hsome; discriminate.
  - split; [split; [intros _; right; left; reflexivity|reflexivity]|].
    intros _. split; [reflexivity|]. cbn. intros [H|[H|[H|[]]]]; discriminate H.
Qed.

(** ** The whole run *)

Lemma processConfig_requests (float_toString : float -> string) (world : World.t)
  (config : Config.t) :
  fetchCount (fst (processConfig float_toString world config))
  = List.length (filter afterRequest (pushed (snd (processConfig float_toString world config)))).
Proof.
  unfold processConfig.
  destruct (World.selectAppointments world (Config.organization_id config) (World.today world))
    as [message|[[|row rows]|]]; try reflexivity.
  destruct (generateAgendaImage float_toString world (Config.organizations config)
              (groupByMember (row :: rows)) (World.today world)) as [[|c url]|];
    try reflexivity.
  destruct (World.fetch world webhookUrl _) as [m|[|] st tx]; reflexivity.
Qed.

Lemma forEachConfig_acc (body : Config.t -> list event * option outcome)
  (configs : list Config.t) (events : list event) (results : list outcome) :
  fold_left
    (fun acc config =>
       let '(events, results) := acc in
       let '(events', pushed) := body config in
       ((events ++ events')%list,
        match pushed with
        | Some record => (results ++ [record])%list
        | None => results
        end))
    configs (events, results)
  = ((events ++ fst (forEachConfig body configs))%list,
     (results ++ snd (forEachConfig body configs))%list).
Proof.
  unfold forEachConfig. revert events results.
  induction configs as [|config configs IH]; intros events results.
  - cbn. now rewrite !app_nil_r.
  - cbn [fold_left]. destruct (body config) as [ev pushed].
    rewrite IH. rewrite (IH ([] ++ ev)%list). cbn [fst snd app].
    rewrite <- !app_assoc. f_equal.
    destruct pushed; cbn; [now rewrite <- app_assoc|reflexivity].
Qed.

Lemma forEachConfig_cons (body : Config.t -> list event * option outcome)
  (config : Config.t) (configs : list Config.t) :
  forEachConfig body (config :: configs)
  = ((fst (body config) ++ fst (forEachConfig body configs))%list,
     (pushed (snd (body config)) ++ snd (forEachConfig body configs))%list).
Proof.
  unfold forEachConfig at 1. cbn [fold_left].
  destruct (body config) as [ev rec].
  rewrite forEachConfig_acc. cbn [fst snd app].
  destruct rec; reflexivity.
Qed.

(** One organization: a record with status 'success' is pushed only after
    its request was sent, and a request is followed by a record with status
    'success' or 'error'. *)
Lemma loopBody_requests (float_toString : float -> string) (world : World.t)
  (config : Config.t) :
  (List.length (filter succeeded (pushed (snd (loopBody float_toString world config))))
   <= fetchCount (fst (loopBody float_toString world config)))%nat
  /\ (fetchCount (fst (loopBody float_toString world config))
      <= List.length (filter afterRequest
                        (pushed (snd (loopBody float_toString world config)))))%nat
  /\ (List.length (pushed (snd (loopBody float_toString world config))) <= 1)%nat.
Proof.
  unfold loopBody, processConfig.
  destruct (World.selectAppointments world (Config.organization_id config) (World.today world))
    as [message|[[|row rows]|]]; try (cbn; lia).
  destruct (grouping (row :: rows)) as [memberGroups|e]; [|cbn; lia].
  destruct (generateAgendaImage float_toString world (Config.organizations config)
              (groupByMember (row :: rows)) (World.today world)) as [[|c url]|];
    try (cbn; lia).
  destruct (World.fetch world webhookUrl _) as [m|[|] st tx]; cbn; lia.
Qed.

(** X19. Over a whole run there are at least as many webhook requests as
    records with status 'success' and at most as many as records with status
    'success' or 'error': one request at most per organization, none for a
    skipped or silent one, no retry; and there are never more records than
    configurations processed. When the grouping of every organization
    completes, the requests are exactly as many as the records with status
    'success' or 'error'. *)
Theorem run_requests_match_records (float_toString : float -> string) (world : World.t)
  (configsToProcess : list Config.t) :
  let events := fst (loop float_toString world configsToProcess) in
  let results := snd (loop float_toString world configsToProcess) in
  (List.length (filter succeeded results) <= fetchCount events)%nat
  /\ (fetchCount events <= List.length (filter afterRequest results))%nat
  /\ (List.length results <= List.length configsToProcess)%nat
  /\ (groupingCompletes world configsToProcess ->
      fetchCount events = List.length (filter afterRequest results)).
Proof.
  cbv zeta. unfold loop.
  induction configsToProcess as [|config configs (IH1 & IH2 & IH3 & IH4)].
  - cbn. repeat split; lia.
  - rewrite forEachConfig_cons. cbn [fst snd].
    destruct (loopBody_requests float_toString world config) as (H1 & H2 & H3).
    unfold fetchCount in *. rewrite !filter_app, !length_app.
    split; [lia|]. split; [lia|]. split; [cbn [List.length]; lia|].
    intros Hcomplete.
    rewrite IH4 by (intros c a Hc; apply Hcomplete; now right).
    f_equal.
    fold (fetchCount (fst (loopBody float_toString world config))).
    destruct (World.selectAppointments world (Config.organization_id config)
                (World.today world)) as [message|[appointments|]] eqn:Hquery.
    + unfold loopBody. rewrite Hquery. apply processConfig_requests.
    + destruct (Hcomplete config appointments (or_introl eq_refl) Hquery)
        as (memberGroups & Hgroups).
      rewrite (loopBody_completes float_toString world config appointments memberGroups
                 Hquery Hgroups).
      apply processConfig_requests.
    + unfold loopBody. rewrite Hquery. apply processConfig_requests.
Qed.

Lemma run_requests_match_records_witness :
  fetchCount (fst (loop sampleNumberText (sampleWorld (FetchResponse true 200 "OK"))
                     [sampleConfig; sampleConfig]))
  = List.length
      (filter afterRequest
         (snd (loop sampleNumberText (sampleWorld (FetchResponse true 200 "OK"))
                 [sampleConfig; sampleConfig]))).
Proof.
  apply (proj2 (proj2 (proj2 (run_requests_match_records sampleNumberText
                                (sampleWorld (FetchResponse true 200 "OK"))
                                [sampleConfig; sampleConfig])))).
  intros config appointments _ [= <-]. eexists. reflexivity.
Defined.

(** ** Which configurations are due *)

Lemma configHour_first_field (H rest : string) :
  free_of ":" H = true -> configHour (H ++ ":" ++ rest) = Number H.
Proof.
  intros HH. unfold configHour.
  change (H ++ ":" ++ rest) with (H ++ String ":" rest).
  now rewrite (split_app ":" H rest HH).
Qed.

(** X20. Whether a configuration is due depends on hours only: on the hour
    part of the local time and on the first field of [send_time]. Two runs in
    the same local hour decide alike whatever the minute, and so do two send
    times with the same hour field; a send time whose hour field is not a
    number is never due. *)
Theorem due_by_hour_only (clock1 clock2 : Clock.t) (config : Config.t) (timezone : string)
  (H rest1 rest2 hour minute1 minute2 : string) :
  free_of ":" H = true ->
  Clock.formatToParts clock1 timezone = Some (hour, minute1) ->
  Clock.formatToParts clock2 timezone = Some (hour, minute2) ->
  shouldProcess clock1 {| Enabled.config := config; Enabled.timezone := timezone;
                          Enabled.send_time := H ++ ":" ++ rest1 |}
  = shouldProcess clock2 {| Enabled.config := config; Enabled.timezone := timezone;
                            Enabled.send_time := H ++ ":" ++ rest2 |}
  /\ shouldProcess clock1 {| Enabled.config := config; Enabled.timezone := timezone;
                             Enabled.send_time := H ++ ":" ++ rest1 |}
     = strict_eq (parseInt hour) (Number H)
  /\ (Number H = NaN ->
      shouldProcess clock1 {| Enabled.config := config; Enabled.timezone := timezone;
                              Enabled.send_time := H ++ ":" ++ rest1 |} = false).
Proof.
  intros HH H1 H2. unfold shouldProcess. cbn [Enabled.timezone Enabled.send_time].
  rewrite H1, H2, !(configHour_first_field H _ HH).
  split; [reflexivity|]. split; [reflexivity|].
  intros ->. now destruct (parseInt hour).
Qed.

Lemma due_by_hour_only_witness :
  shouldProcess
    {| Clock.getHours := 13; Clock.formatToParts := fun _ => Some ("08", "05") |}
    {| Enabled.config := sampleConfig; Enabled.timezone := "America/Bogota";
       Enabled.send_time := "08" ++ ":" ++ "00:00" |}
  = strict_eq (parseInt "08") (Number "08").
Proof.
  refine (proj1 (proj2 (due_by_hour_only
                          {| Clock.getHours := 13;
                             Clock.formatToParts := fun _ => Some ("08", "05") |}
                          {| Clock.getHours := 13;
                             Clock.formatToParts := fun _ => Some ("08", "55") |}
                          sampleConfig "America/Bogota" "08" "00:00" "30:00"
                          "08" "05" "55" _ _ _))); reflexivity.
Defined.

(** X21. When the formatter throws, the local hour is taken to be the
    host's hour minus five, wrapped into 0..23, whatever the configured time
    zone: the configuration is due exactly when the hour field of its send time
    is that number. *)
Theorem due_in_fallback (clock : Clock.t) (config : Config.t) (timezone H rest : string) :
  Clock.formatToParts clock timezone = None ->
  0 <= Clock.getHours clock < 24 ->
  free_of ":" H = true ->
  0 <= (Clock.getHours clock - 5) mod 24 < 24
  /\ shouldProcess clock {| Enabled.config := config; Enabled.timezone := timezone;
                            Enabled.send_time := H ++ ":" ++ rest |}
     = strict_eq (Num ((Clock.getHours clock - 5) mod 24)) (Number H).
Proof.
  intros Hthrow Hrange HH. split; [apply Z.mod_pos_bound; lia|].
  unfold shouldProcess. cbn [Enabled.timezone Enabled.send_time].
  rewrite Hthrow, (configHour_first_field H rest HH). cbn [rem].
  rewrite Z.rem_mod_nonneg by lia.
  replace (Clock.getHours clock - 5 + 24) with (Clock.getHours clock - 5 + 1 * 24) by lia.
  now rewrite Z.mod_add by lia.
Qed.

Lemma due_in_fallback_witness :
  0 <= (3 - 5) mod 24 < 24
  /\ shouldProcess
       {| Clock.getHours := 3; Clock.formatToParts := fun _ => None |}
       {| Enabled.config := sampleConfig; Enabled.timezone := "Nowhere/Land";
          Enabled.send_time := "22" ++ ":" ++ "00:00" |}
     = strict_eq (Num ((3 - 5) mod 24)) (Number "22").
Proof.
  apply (due_in_fallback {| Clock.getHours := 3; Clock.formatToParts := fun _ => None |}
           sampleConfig "Nowhere/Land" "22" "00:00").
  - reflexivity.
  - cbn. lia.
  - reflexivity.
Defined.

(** ** The image service *)

(** X22. A request whose [htmlContent] or [filename] is missing or empty is
    answered 400 without any call to the browser or the storage and without
    change to the kept browser; [htmlContent] is checked first. A request with
    both fields is never answered 400. *)
Theorem invalid_body_is_refused_untouched (browserInstance : bool) (chrome : Server.Chrome.t)
  (storage : Server.Storage.t) (startTime endTime : Z) (body : Server.Body.t) :
  let run := Server.generateImage browserInstance chrome storage startTime endTime body in
  let invalid :=
    truthy_string (Server.Body.htmlContent body) = false
    \/ truthy_string (Server.Body.filename body) = false in
  (Server.Reply.status (snd (fst run)) = 400 <-> invalid)
  /\ (invalid ->
      fst (fst run) = [] /\ snd run = browserInstance
      /\ Server.Reply.success (snd (fst run)) = false
      /\ Server.Reply.error (snd (fst run))
         = Some (if truthy_string (Server.Body.htmlContent body)
                 then "filename es requerido" else "htmlContent es requerido")).
Proof.
  intros run invalid. unfold run, invalid, Server.generateImage.
  destruct (Server.Body.htmlContent body) as [[|c html]|];
    try (cbn; split; [split; [intros _; now left|reflexivity]|intros _; repeat split]).
  destruct (Server.Body.filename body) as [[|c' name]|];
    try (cbn; split; [split; [intros _; now right|reflexivity]|intros _; repeat split]).
  assert (Hvalid : forall r : list Server.call * Server.Reply.t * bool,
             Server.Reply.status (snd (fst r)) <> 400 ->
             (Server.Reply.status (snd (fst r)) = 400
              <-> truthy_string (Some (String c html)) = false
                  \/ truthy_string (Some (String c' name)) = false)
             /\ (truthy_string (Some (String c html)) = false
                 \/ truthy_string (Some (String c' name)) = false ->
                 fst (fst r) = [] /\ snd r = browserInstance
                 /\ Server.Reply.success (snd (fst r)) = false
                 /\ Server.Reply.error (snd (fst r))
                    = Some (if truthy_string (Some (String c html))
                            then "filename es requerido" else "htmlContent es requerido"))).
  { intros r Hr. cbn. split; [split; [contradiction|]|]; intros [H|H]; discriminate H. }
  destruct (Server.htmlToImage browserInstance chrome (String c html)) as [[calls [buf|m]] kept].
  - destruct (Server.uploadImageToSupabase storage buf (String c' name)) as [calls' [url|m]];
      apply Hvalid; cbn; discriminate.
  - apply Hvalid; cbn; discriminate.
Qed.

Lemma invalid_body_is_refused_untouched_witness :
  fst (fst (Server.generateImage true Server.sampleChrome Server.sampleStorage 0 5
              {| Server.Body.htmlContent := None; Server.Body.filename := None |})) = []
  /\ snd (Server.generateImage true Server.sampleChrome Server.sampleStorage 0 5
            {| Server.Body.htmlContent := None; Server.Body.filename := None |}) = true
  /\ Server.Reply.success
       (snd (fst (Server.generateImage true Server.sampleChrome Server.sampleStorage 0 5
                    {| Server.Body.htmlContent := None; Server.Body.filename := None |})))
     = false
  /\ Server.Reply.error
       (snd (fst (Server.generateImage true Server.sampleChrome Server.sampleStorage 0 5
                    {| Server.Body.htmlContent := None; Server.Body.filename := None |})))
     = Some "htmlContent es requerido".
Proof.
  apply (proj2 (invalid_body_is_refused_untouched true Server.sampleChrome Server.sampleStorage
                  0 5 {| Server.Body.htmlContent := None; Server.Body.filename := None |})).
  left. reflexivity.
Defined.

Lemma closeCount_snoc (calls : list Server.call) :
  Server.closeCount (calls ++ [Server.ClosePage])%list = S (Server.closeCount calls).
Proof. unfold Server.closeCount. rewrite filter_app, length_app. cbn. lia. Qed.

Lemma closing_calls (chrome : Server.Chrome.t) (calls : list Server.call) (outcome : Server.shot) :
  fst (Server.closing chrome calls outcome) = (calls ++ [Server.ClosePage])%list.
Proof. unfold Server.closing. now destruct (Server.Chrome.close chrome). Qed.

Lemma closing_shot (chrome : Server.Chrome.t) (calls : list Server.call) (outcome : Server.shot)
  (imageBuffer : string) :
  snd (Server.closing chrome calls outcome) = Server.Shot imageBuffer ->
  Server.Chrome.close chrome = Server.Done /\ outcome = Server.Shot imageBuffer.
Proof.
  unfold Server.closing. destruct (Server.Chrome.close chrome); cbn; [|discriminate].
  intros ->. split; reflexivity.
Qed.

(** X23. [htmlToImage] closes the page it opens: when a page was opened,
    [page.close()] is called exactly once and it is the last call, whichever
    step failed; when no page was opened (the launch or [newPage] failed) it is
    not called. An image is returned only if the page was opened and
    closed without error. *)
Theorem page_is_closed_once (browserInstance : bool) (chrome : Server.Chrome.t)
  (htmlContent : string) :
  let calls := fst (fst (Server.htmlToImage browserInstance chrome htmlContent)) in
  let outcome := snd (fst (Server.htmlToImage browserInstance chrome htmlContent)) in
  Server.closeCount calls = (if Server.pageOpened browserInstance chrome then 1%nat else O)
  /\ (Server.pageOpened browserInstance chrome = true ->
      exists before, calls = (before ++ [Server.ClosePage])%list)
  /\ (forall imageBuffer, outcome = Server.Shot imageBuffer ->
        Server.pageOpened browserInstance chrome = true
        /\ Server.Chrome.close chrome = Server.Done
        /\ Server.Chrome.screenshot chrome = Server.Shot imageBuffer).
Proof.
  intros calls outcome. unfold calls, outcome, Server.htmlToImage, Server.pageOpened.
  assert (Hcs : exists st kept cs, Server.getBrowser browserInstance chrome = (cs, st, kept)
                                   /\ Server.closeCount cs = O).
  { unfold Server.getBrowser.
    destruct (negb browserInstance || negb (Server.Chrome.isConnected chrome));
      [destruct (Server.Chrome.launch chrome)|]; eexists; eexists; eexists;
      (split; [reflexivity|reflexivity]). }
  destruct Hcs as (st & kept & cs & -> & Hzero).
  destruct st as [|m].
  2:{ cbn. split; [exact Hzero|]. split; [discriminate|]. intros b H. discriminate H. }
  destruct (Server.Chrome.newPage chrome) as [|m].
  2:{ cbn. split.
      - unfold Server.closeCount in *. rewrite filter_app, length_app, Hzero. reflexivity.
      - split; [discriminate|]. intros b H. discriminate H. }
  assert (Hfinal : forall cs' out,
             Server.closeCount cs' = O ->
             (out <> Server.ShotFails EmptyString ->
              forall b, out = Server.Shot b -> Server.Chrome.screenshot chrome = Server.Shot b) ->
             Server.closeCount (fst (Server.closing chrome cs' out)) = 1%nat
             /\ (true = true -> exists before,
                    fst (Server.closing chrome cs' out) = (before ++ [Server.ClosePage])%list)
             /\ (forall b, snd (Server.closing chrome cs' out) = Server.Shot b ->
                   true = true /\ Server.Chrome.close chrome = Server.Done
                   /\ Server.Chrome.screenshot chrome = Server.Shot b)).
  { intros cs' out Hc Hout. rewrite closing_calls, closeCount_snoc, Hc.
    split; [reflexivity|]. split; [intros _; now exists cs'|].
    intros b Hb. apply closing_shot in Hb as [Hclose ->].
    split; [reflexivity|]. split; [exact Hclose|]. apply Hout; [discriminate|reflexivity]. }
  assert (Hcount : forall extra,
             Server.closeCount extra = O -> Server.closeCount (cs ++ extra)%list = O).
  { intros extra He. unfold Server.closeCount in *. now rewrite filter_app, length_app, Hzero, He. }
  destruct (Server.Chrome.setViewport chrome) as [|m].
  2:{ match goal with
      | |- context [Server.closing chrome ?c ?o] =>
          destruct (Hfinal c o) as (H1 & H2 & H3);
          [apply Hcount; reflexivity|intros _ b Hb; discriminate Hb|]
      end.
      destruct (Server.closing chrome _ _) as [c o]. cbn in *. auto. }
  destruct (Server.Chrome.setContent chrome htmlContent) as [|m].
  2:{ match goal with
      | |- context [Server.closing chrome ?c ?o] =>
          destruct (Hfinal c o) as (H1 & H2 & H3);
          [apply Hcount; reflexivity|intros _ b Hb; discriminate Hb|]
      end.
      destruct (Server.closing chrome _ _) as [c o]. cbn in *. auto. }
  destruct (Server.Chrome.waitForTimeout chrome) as [|m].
  2:{ match goal with
      | |- context [Server.closing chrome ?c ?o] =>
          destruct (Hfinal c o) as (H1 & H2 & H3);
          [apply Hcount; reflexivity|intros _ b Hb; discriminate Hb|]
      end.
      destruct (Server.closing chrome _ _) as [c o]. cbn in *. auto. }
  match goal with
  | |- context [Server.closing chrome ?c ?o] =>
      destruct (Hfinal c o) as (H1 & H2 & H3);
      [apply Hcount; reflexivity| |]
  end.
  - intros _ b Hb. destruct (Server.Chrome.screenshot chrome) as [b'|m];
      [exact Hb|discriminate Hb].
  - destruct (Server.closing chrome _ _) as [c o]. cbn in *. auto.
Qed.

Lemma htmlToImage_calls_no_upload (browserInstance : bool) (chrome : Server.Chrome.t)
  (htmlContent filename : string) :
  ~ In (Server.Upload filename)
       (fst (fst (Server.htmlToImage browserInstance chrome htmlContent))).
Proof.
  unfold Server.htmlToImage, Server.getBrowser, Server.closing.
  destruct (negb browserInstance || negb (Server.Chrome.isConnected chrome));
    [destruct (Server.Chrome.launch chrome)|];
    destruct (Server.Chrome.newPage chrome);
    destruct (Server.Chrome.setViewport chrome);
    destruct (Server.Chrome.setContent chrome htmlContent);
    destruct (Server.Chrome.waitForTimeout chrome);
    destruct (Server.Chrome.close chrome);
    cbn; intuition discriminate.
Qed.

(** X24. A request with both fields is answered 200 exactly when
    [htmlToImage] returns an image and the upload reports no error; the reply
    then carries the public URL of the requested file name. Otherwise the
    answer is 500 with the error's message: the message of the rendering
    failure, in which case no upload is attempted, or the upload's message
    behind "Error subiendo imagen: ". *)
Theorem image_reply (browserInstance : bool) (chrome : Server.Chrome.t)
  (storage : Server.Storage.t) (startTime endTime : Z) (c c' : ascii) (html name : string) :
  let htmlContent := String c html in
  let filename := String c' name in
  let run :=
    Server.generateImage browserInstance chrome storage startTime endTime
      {| Server.Body.htmlContent := Some htmlContent;
         Server.Body.filename := Some filename |} in
  let reply := snd (fst run) in
  let rendered := snd (fst (Server.htmlToImage browserInstance chrome htmlContent)) in
  (Server.Reply.status reply = 200
   <-> exists imageBuffer,
         rendered = Server.Shot imageBuffer
         /\ Server.Storage.upload storage filename imageBuffer = Server.Done)
  /\ (Server.Reply.status reply = 200 ->
      Server.Reply.success reply = true
      /\ Server.Reply.imageUrl reply = Some (Server.Storage.getPublicUrl storage filename))
  /\ (Server.Reply.status reply <> 200 ->
      Server.Reply.status reply = 500 /\ Server.Reply.success reply = false
      /\ Server.Reply.imageUrl reply = None)
  /\ (forall message, rendered = Server.ShotFails message ->
        Server.Reply.error reply = Some message
        /\ ~ In (Server.Upload filename) (fst (fst run)))
  /\ (forall imageBuffer message,
        rendered = Server.Shot imageBuffer ->
        Server.Storage.upload storage filename imageBuffer = Server.Fails message ->
        Server.Reply.error reply = Some ("Error subiendo imagen: " ++ message)).
Proof.
  cbv zeta.
  pose proof (htmlToImage_calls_no_upload browserInstance chrome
                (String c html) (String c' name)) as Hno.
  unfold Server.generateImage.
  cbn [Server.Body.htmlContent Server.Body.filename].
  destruct (Server.htmlToImage browserInstance chrome (String c html))
    as [[calls [buf|m]] kept]; cbn [fst snd] in *.
  - unfold Server.uploadImageToSupabase.
    destruct (Server.Storage.upload storage (String c' name) buf) as [|m] eqn:Hup; cbn.
    + split; [split; [intros _; exists buf; split; [reflexivity|exact Hup]|reflexivity]|].
      split; [intros _; split; reflexivity|]. split; [intros H; now elim H|].
      split; [intros m H; discriminate H|].
      intros b m [= <-] Hf. congruence.
    + split; [split; [discriminate|]|].
      { intros (b & [= <-] & Hd). congruence. }
      split; [discriminate|]. split; [intros _; repeat split|].
      split; [intros m' H; discriminate H|].
      intros b m' [= <-] Hf. rewrite Hup in Hf. now injection Hf as <-.
  - cbn. split; [split; [discriminate|intros (b & H & _); discriminate H]|].
    split; [discriminate|]. split; [intros _; repeat split|].
    split; [intros m' [= <-]; split; [reflexivity|exact Hno]|].
    intros b m' H. discriminate H.
Qed.

Lemma image_reply_witness :
  Server.Reply.success
    (snd (fst (Server.generateImage true Server.sampleChrome Server.sampleStorage 0 5
                 {| Server.Body.htmlContent := Some "<p>hola</p>";
                    Server.Body.filename := Some "agenda.png" |}))) = true
  /\ Server.Reply.imageUrl
       (snd (fst (Server.generateImage true Server.sampleChrome Server.sampleStorage 0 5
                    {| Server.Body.htmlContent := Some "<p>hola</p>";
                       Server.Body.filename := Some "agenda.png" |})))
     = Some "https://storage.example/agenda.png".
Proof.
  apply (proj1 (proj2 (image_reply true Server.sampleChrome Server.sampleStorage 0 5
                         "<" "a" "p>hola</p>" "genda.png"))).
  reflexivity.
Defined.
